(** * SHS1: the Secret-Handshake v1 state machines of [src/shs1.c]

    A shallow embedding of the client and server handshake functions over
    byte buffers.  The state structs are modelled with the memory layout
    the C code relies on: the pointer fields hold the caller's input
    buffers, and the arrays that follow them form one flat block of bytes
    addressed by offset, because the code copies across field boundaries
    and reuses the storage of one field for another value.

    libsodium is an external collaborator: its operations are the fields of
    the class [Sodium]. *)

From Stdlib Require Import List ZArith Lia Bool Arith.
From Stdlib Require Import Strings.Byte.
Import ListNotations.

(** ** Byte buffers *)

Definition bytes := list byte.

(** The [n] bytes found at offset [off] of a buffer. *)
Definition load (off n : nat) (m : bytes) : bytes :=
  firstn n (skipn off m).

(** Writing [src] at offset [off] of a buffer.  A write that runs past the
    end of the buffer lands in the bytes behind it: the result is longer. *)
Definition store (off : nat) (src : bytes) (m : bytes) : bytes :=
  firstn off m ++ src ++ skipn (off + length src) m.

(** [memcpy(dst + doff, src + soff, n)] *)
Definition memcpy (dst : bytes) (doff : nat) (src : bytes) (soff n : nat) : bytes :=
  store doff (load soff n src) dst.

(** A local array before anything is written to it, and a buffer the
    caller provides; the functions write every byte they later read. *)
Definition uninit (n : nat) : bytes := repeat x00 n.

Fixpoint bytes_eqb (a b : bytes) : bool :=
  match a, b with
  | [], [] => true
  | x :: a', y :: b' => Byte.eqb x y && bytes_eqb a' b'
  | _, _ => false
  end.

(** ** Sizes *)

(** The sizes [sodium.h] defines for the one cipher suite of the protocol. *)
Definition crypto_auth_BYTES := 32.
Definition crypto_auth_KEYBYTES := 32.
Definition crypto_box_PUBLICKEYBYTES := 32.
Definition crypto_box_SECRETKEYBYTES := 32.
Definition crypto_box_NONCEBYTES := 24.
Definition crypto_sign_BYTES := 64.
Definition crypto_sign_PUBLICKEYBYTES := 32.
Definition crypto_sign_SECRETKEYBYTES := 64.
Definition crypto_scalarmult_BYTES := 32.
Definition crypto_scalarmult_curve25519_BYTES := 32.
Definition crypto_hash_sha256_BYTES := 32.
Definition crypto_secretbox_KEYBYTES := 32.
Definition crypto_secretbox_NONCEBYTES := 24.
Definition crypto_secretbox_MACBYTES := 16.

Definition HELLO_BYTES := crypto_sign_BYTES + crypto_sign_PUBLICKEYBYTES.

(** Modelled from the spec: the message sizes that [shs1.h] declares
    (CHALLENGE = AUTH + BOX_PK, AUTH_MSG = HELLO + 16, ACC_MSG = SIG + 16);
    the header is not part of the sources. *)
Definition SHS1_CLIENT_CHALLENGE_BYTES := crypto_auth_BYTES + crypto_box_PUBLICKEYBYTES.
Definition SHS1_SERVER_CHALLENGE_BYTES := crypto_auth_BYTES + crypto_box_PUBLICKEYBYTES.
Definition SHS1_CLIENT_AUTH_BYTES := HELLO_BYTES + crypto_secretbox_MACBYTES.
Definition SHS1_SERVER_ACC_BYTES := crypto_sign_BYTES + crypto_secretbox_MACBYTES.

Definition zero_nonce : bytes := repeat x00 crypto_box_NONCEBYTES.

(** [false] of [stdbool.h], as the value an [int] function returns. *)
Definition int_false : Z := 0%Z.

(** ** The primitive facade

    A libsodium function that reports a status and fills an output buffer
    is a function to a pair: the [int] it returns and the bytes it has
    written at the start of the buffer (none when it gives up before
    writing).  The functions whose status the code ignores return the
    bytes only. *)

Definition status (r : Z * bytes) : Z := fst r.
Definition output (r : Z * bytes) : bytes := snd r.

(** [rc != 0] *)
Definition failed (rc : Z) : bool := negb (rc =? 0)%Z.

Class Sodium := {
  (* crypto_auth(out, in, inlen, k) *)
  crypto_auth : bytes -> bytes -> bytes;
  (* crypto_auth_verify(h, in, inlen, k) *)
  crypto_auth_verify : bytes -> bytes -> bytes -> Z;
  (* crypto_scalarmult(q, n, p) *)
  crypto_scalarmult : bytes -> bytes -> Z * bytes;
  (* crypto_sign_ed25519_pk_to_curve25519(curve25519_pk, ed25519_pk) *)
  crypto_sign_ed25519_pk_to_curve25519 : bytes -> Z * bytes;
  (* crypto_sign_ed25519_sk_to_curve25519(curve25519_sk, ed25519_sk) *)
  crypto_sign_ed25519_sk_to_curve25519 : bytes -> Z * bytes;
  (* crypto_hash_sha256(out, in, inlen) *)
  crypto_hash_sha256 : bytes -> bytes;
  (* crypto_sign_detached(sig, NULL, m, mlen, sk) *)
  crypto_sign_detached : bytes -> bytes -> bytes;
  (* crypto_sign_verify_detached(sig, m, mlen, pk) *)
  crypto_sign_verify_detached : bytes -> bytes -> bytes -> Z;
  (* crypto_secretbox_easy(c, m, mlen, n, k) *)
  crypto_secretbox_easy : bytes -> bytes -> bytes -> bytes;
  (* crypto_secretbox_open_easy(m, c, clen, n, k) *)
  crypto_secretbox_open_easy : bytes -> bytes -> bytes -> Z * bytes;

  (* every function stays inside its output buffer, and fills it when it
     reports success *)
  crypto_auth_length : forall m k,
    length (crypto_auth m k) = crypto_auth_BYTES;
  crypto_hash_sha256_length : forall m,
    length (crypto_hash_sha256 m) = crypto_hash_sha256_BYTES;
  crypto_sign_detached_length : forall m sk,
    length (crypto_sign_detached m sk) = crypto_sign_BYTES;
  crypto_secretbox_easy_length : forall m n k,
    length (crypto_secretbox_easy m n k) = length m + crypto_secretbox_MACBYTES;
  crypto_scalarmult_bound : forall n p,
    length (output (crypto_scalarmult n p)) <= crypto_scalarmult_BYTES;
  crypto_scalarmult_length : forall n p,
    status (crypto_scalarmult n p) = 0%Z ->
    length (output (crypto_scalarmult n p)) = crypto_scalarmult_BYTES;
  crypto_sign_ed25519_pk_to_curve25519_bound : forall pk,
    length (output (crypto_sign_ed25519_pk_to_curve25519 pk))
    <= crypto_scalarmult_curve25519_BYTES;
  crypto_sign_ed25519_pk_to_curve25519_length : forall pk,
    status (crypto_sign_ed25519_pk_to_curve25519 pk) = 0%Z ->
    length (output (crypto_sign_ed25519_pk_to_curve25519 pk))
    = crypto_scalarmult_curve25519_BYTES;
  crypto_sign_ed25519_sk_to_curve25519_bound : forall sk,
    length (output (crypto_sign_ed25519_sk_to_curve25519 sk))
    <= crypto_scalarmult_curve25519_BYTES;
  crypto_sign_ed25519_sk_to_curve25519_length : forall sk,
    status (crypto_sign_ed25519_sk_to_curve25519 sk) = 0%Z ->
    length (output (crypto_sign_ed25519_sk_to_curve25519 sk))
    = crypto_scalarmult_curve25519_BYTES;
  crypto_secretbox_open_easy_bound : forall c n k,
    length (output (crypto_secretbox_open_easy c n k))
    <= length c - crypto_secretbox_MACBYTES;
  crypto_secretbox_open_easy_length : forall c n k,
    status (crypto_secretbox_open_easy c n k) = 0%Z ->
    length (output (crypto_secretbox_open_easy c n k))
    = length c - crypto_secretbox_MACBYTES
}.

(** What an honest run relies on: the verifying functions accept what the
    producing functions made, and Diffie-Hellman agrees on the pairs the
    key generators [crypto_box_keypair] and [crypto_sign_keypair] hand
    out. *)
Class SodiumLaws (sodium : Sodium) := {
  box_keypair : bytes -> bytes -> Prop;
  sign_keypair : bytes -> bytes -> Prop;
  box_keypair_length : forall pk sk,
    box_keypair pk sk ->
    length pk = crypto_box_PUBLICKEYBYTES /\
    length sk = crypto_box_SECRETKEYBYTES;
  sign_keypair_length : forall pk sk,
    sign_keypair pk sk ->
    length pk = crypto_sign_PUBLICKEYBYTES /\
    length sk = crypto_sign_SECRETKEYBYTES;
  crypto_auth_verify_spec : forall h m k,
    crypto_auth_verify h m k = 0%Z <-> h = crypto_auth m k;
  crypto_secretbox_open_easy_spec : forall m n k,
    crypto_secretbox_open_easy (crypto_secretbox_easy m n k) n k = (0%Z, m);
  crypto_sign_verify_detached_spec : forall pk sk m,
    sign_keypair pk sk ->
    crypto_sign_verify_detached (crypto_sign_detached m sk) m pk = 0%Z;
  crypto_scalarmult_agree : forall p1 s1 p2 s2,
    box_keypair p1 s1 -> box_keypair p2 s2 ->
    exists q,
      crypto_scalarmult s1 p2 = (0%Z, q) /\ crypto_scalarmult s2 p1 = (0%Z, q);
  sign_keypair_to_curve25519 : forall pk sk,
    sign_keypair pk sk ->
    exists cpk csk,
      crypto_sign_ed25519_pk_to_curve25519 pk = (0%Z, cpk) /\
      crypto_sign_ed25519_sk_to_curve25519 sk = (0%Z, csk) /\
      box_keypair cpk csk
}.

(** ** Session state *)

Module Client.

(** [struct SHS1_Client]: the six input pointers, then the block of the
    five arrays, [mem]. *)
Record t := mk {
  app : bytes;        (* K *)
  pub : bytes;        (* A_p *)
  sec : bytes;        (* A_s *)
  eph_pub : bytes;    (* a_p *)
  eph_sec : bytes;    (* a_s *)
  server_pub : bytes; (* B_p *)
  mem : bytes
}.

(** Where each array starts in [mem], in the order of declaration. *)
Definition shared_secret := 0.
Definition server_lterm_shared := shared_secret + crypto_scalarmult_BYTES.
Definition hello := server_lterm_shared + crypto_scalarmult_BYTES.
Definition shared_hash := hello + HELLO_BYTES.
Definition server_eph_pub := shared_hash + crypto_hash_sha256_BYTES.
Definition size := server_eph_pub + crypto_box_PUBLICKEYBYTES.

Definition with_mem (m : bytes) (c : t) : t :=
  mk (app c) (pub c) (sec c) (eph_pub c) (eph_sec c) (server_pub c) m.

(** The contents of each array. *)
Definition get_shared_secret (c : t) : bytes :=
  load shared_secret crypto_scalarmult_BYTES (mem c).
Definition get_server_lterm_shared (c : t) : bytes :=
  load server_lterm_shared crypto_scalarmult_BYTES (mem c).
Definition get_hello (c : t) : bytes :=
  load hello HELLO_BYTES (mem c).
Definition get_shared_hash (c : t) : bytes :=
  load shared_hash crypto_hash_sha256_BYTES (mem c).
Definition get_server_eph_pub (c : t) : bytes :=
  load server_eph_pub crypto_box_PUBLICKEYBYTES (mem c).

(** The buffers have the lengths the struct declares for them. *)
Definition wf (c : t) : bool :=
  (length (app c) =? crypto_auth_KEYBYTES) &&
  (length (pub c) =? crypto_sign_PUBLICKEYBYTES) &&
  (length (sec c) =? crypto_sign_SECRETKEYBYTES) &&
  (length (eph_pub c) =? crypto_box_PUBLICKEYBYTES) &&
  (length (eph_sec c) =? crypto_box_SECRETKEYBYTES) &&
  (length (server_pub c) =? crypto_sign_PUBLICKEYBYTES) &&
  (length (mem c) =? size).

End Client.

Module Server.

(** [struct SHS1_Server]: the five input pointers, then the block of the
    five arrays, [mem]. *)
Record t := mk {
  app : bytes;     (* K *)
  pub : bytes;     (* B_p *)
  sec : bytes;     (* B_s *)
  eph_pub : bytes; (* b_p *)
  eph_sec : bytes; (* b_s *)
  mem : bytes
}.

Definition client_hello := 0.
Definition shared_hash := client_hello + HELLO_BYTES.
Definition client_eph_pub := shared_hash + crypto_hash_sha256_BYTES.
Definition client_pub := client_eph_pub + crypto_box_PUBLICKEYBYTES.
Definition box_sec := client_pub + crypto_sign_PUBLICKEYBYTES.
Definition size := box_sec + crypto_hash_sha256_BYTES.

Definition with_mem (m : bytes) (s : t) : t :=
  mk (app s) (pub s) (sec s) (eph_pub s) (eph_sec s) m.

(** The contents of each array. *)
Definition get_client_hello (s : t) : bytes :=
  load client_hello HELLO_BYTES (mem s).
Definition get_shared_hash (s : t) : bytes :=
  load shared_hash crypto_hash_sha256_BYTES (mem s).
Definition get_client_eph_pub (s : t) : bytes :=
  load client_eph_pub crypto_box_PUBLICKEYBYTES (mem s).
Definition get_client_pub (s : t) : bytes :=
  load client_pub crypto_sign_PUBLICKEYBYTES (mem s).
Definition get_box_sec (s : t) : bytes :=
  load box_sec crypto_hash_sha256_BYTES (mem s).

Definition wf (s : t) : bool :=
  (length (app s) =? crypto_auth_KEYBYTES) &&
  (length (pub s) =? crypto_sign_PUBLICKEYBYTES) &&
  (length (sec s) =? crypto_sign_SECRETKEYBYTES) &&
  (length (eph_pub s) =? crypto_box_PUBLICKEYBYTES) &&
  (length (eph_sec s) =? crypto_box_SECRETKEYBYTES) &&
  (length (mem s) =? size).

End Server.

Module Outcome.
Section Layout.

(** Modelled from the spec: [SHS1_Outcome], which [shs1.h] declares, is
    [encryption_key[32] || encryption_nonce[24] || decryption_key[32] ||
    decryption_nonce[24]].  [padding] is the number of bytes the
    declaration leaves behind each nonce (none in the layout above). *)
Variable padding : nat.

Definition encryption_key := 0.
Definition encryption_nonce := encryption_key + crypto_secretbox_KEYBYTES.
Definition decryption_key := encryption_nonce + crypto_secretbox_NONCEBYTES + padding.
Definition decryption_nonce := decryption_key + crypto_secretbox_KEYBYTES.
Definition size := decryption_nonce + crypto_secretbox_NONCEBYTES + padding.

(** The contents of each field of an outcome. *)
Definition get_encryption_key (o : bytes) : bytes :=
  load encryption_key crypto_secretbox_KEYBYTES o.
Definition get_encryption_nonce (o : bytes) : bytes :=
  load encryption_nonce crypto_secretbox_NONCEBYTES o.
Definition get_decryption_key (o : bytes) : bytes :=
  load decryption_key crypto_secretbox_KEYBYTES o.
Definition get_decryption_nonce (o : bytes) : bytes :=
  load decryption_nonce crypto_secretbox_NONCEBYTES o.

End Layout.
End Outcome.

(** ** The handshake functions *)

Section SHS1.

Context {sodium : Sodium}.

(** [malloc] hands out a block whose contents are whatever was there:
    [block] stands for the bytes of its array part. *)
Definition shs1_init_client (app pub sec eph_pub eph_sec server_pub : bytes)
    (block : bytes) : Client.t :=
  Client.mk app pub sec eph_pub eph_sec server_pub block.

(** challenge <- hmac_{K}(a_p) | a_p *)
Definition shs1_create_client_challenge (challenge : bytes) (client : Client.t)
    : bytes :=
  let challenge :=
    store 0
      (crypto_auth (load 0 crypto_box_PUBLICKEYBYTES (Client.eph_pub client))
                   (load 0 crypto_auth_KEYBYTES (Client.app client)))
      challenge in
  memcpy challenge crypto_auth_BYTES
         (Client.eph_pub client) 0 crypto_box_PUBLICKEYBYTES.

Definition shs1_verify_server_challenge (challenge : bytes) (client : Client.t)
    : bool * Client.t :=
  if failed (crypto_auth_verify
               (load 0 crypto_auth_BYTES challenge)
               (load crypto_auth_BYTES crypto_box_PUBLICKEYBYTES challenge)
               (load 0 crypto_auth_KEYBYTES (Client.app client)))
  then (false, client)
  else
    (* b_p *)
    let client :=
      Client.with_mem
        (memcpy (Client.mem client) Client.server_eph_pub
                challenge crypto_auth_BYTES crypto_box_PUBLICKEYBYTES)
        client in
    (true, client).

(** The buffer [tmp] of [shs1_create_client_auth] and the first 96 bytes of
    the one of [shs1_verify_server_acc]: K, then 64 bytes copied from
    [shared_secret] on. *)
Definition client_tmp (n : nat) (client : Client.t) : bytes :=
  let tmp := uninit n in
  let tmp := memcpy tmp 0 (Client.app client) 0 crypto_auth_KEYBYTES in
  memcpy tmp crypto_auth_KEYBYTES
         (Client.mem client) Client.shared_secret (2 * crypto_scalarmult_BYTES).

(** The buffer [expected] of [shs1_verify_server_acc]: K, then 128 bytes
    copied from [hello] on. *)
Definition client_expected (client : Client.t) : bytes :=
  let expected :=
    uninit (crypto_auth_KEYBYTES + HELLO_BYTES + crypto_hash_sha256_BYTES) in
  let expected := memcpy expected 0 (Client.app client) 0 crypto_auth_KEYBYTES in
  memcpy expected crypto_auth_KEYBYTES
         (Client.mem client) Client.hello (HELLO_BYTES + crypto_hash_sha256_BYTES).

(** auth <- secretbox_{hash(K | a_s * b_p | a_s * B_p)}(H) *)
Definition shs1_create_client_auth (auth : bytes) (client : Client.t)
    : Z * bytes * Client.t :=
  (* (a_s * b_p) *)
  let r := crypto_scalarmult
             (load 0 crypto_box_SECRETKEYBYTES (Client.eph_sec client))
             (load Client.server_eph_pub crypto_box_PUBLICKEYBYTES (Client.mem client)) in
  let client :=
    Client.with_mem (store Client.shared_secret (output r) (Client.mem client))
                    client in
  if failed (status r) then (int_false, auth, client) else
  let r := crypto_sign_ed25519_pk_to_curve25519
             (load 0 crypto_sign_PUBLICKEYBYTES (Client.server_pub client)) in
  let curve_server_pub :=
    store 0 (output r) (uninit crypto_scalarmult_curve25519_BYTES) in
  if failed (status r) then ((-1)%Z, auth, client) else
  (* (a_s * B_p) *)
  let r := crypto_scalarmult
             (load 0 crypto_box_SECRETKEYBYTES (Client.eph_sec client))
             (load 0 crypto_scalarmult_curve25519_BYTES curve_server_pub) in
  let client :=
    Client.with_mem
      (store Client.server_lterm_shared (output r) (Client.mem client)) client in
  if failed (status r) then ((-2)%Z, auth, client) else
  (* K | a_s * b_p | a_s * B_p *)
  let tmp :=
    client_tmp (crypto_auth_KEYBYTES + 2 * crypto_scalarmult_BYTES) client in
  (* hash(a_s * b_p) *)
  let client :=
    Client.with_mem
      (store Client.shared_hash
         (crypto_hash_sha256
            (load Client.shared_secret crypto_scalarmult_BYTES (Client.mem client)))
         (Client.mem client))
      client in
  (* K | B_p | hash(a_s * b_p) *)
  let tmp2 :=
    uninit (crypto_auth_KEYBYTES + crypto_sign_PUBLICKEYBYTES
            + crypto_hash_sha256_BYTES) in
  let tmp2 := memcpy tmp2 0 (Client.app client) 0 crypto_auth_KEYBYTES in
  let tmp2 := memcpy tmp2 crypto_auth_KEYBYTES
                     (Client.server_pub client) 0 crypto_sign_PUBLICKEYBYTES in
  let tmp2 := memcpy tmp2 (crypto_auth_KEYBYTES + crypto_sign_PUBLICKEYBYTES)
                     (Client.mem client) Client.shared_hash
                     crypto_hash_sha256_BYTES in
  (* sign_{A_s}(K | B_p | hash(a_s * b_p)) *)
  let sig :=
    store 0
      (crypto_sign_detached
         (load 0 (crypto_auth_KEYBYTES + crypto_sign_PUBLICKEYBYTES
                  + crypto_hash_sha256_BYTES) tmp2)
         (load 0 crypto_sign_SECRETKEYBYTES (Client.sec client)))
      (uninit crypto_sign_BYTES) in
  (* H = sign_{A_s}(K | B_p | hash(a_s * b_p)) | A_p *)
  let client :=
    Client.with_mem
      (memcpy (Client.mem client) Client.hello sig 0 crypto_sign_BYTES) client in
  let client :=
    Client.with_mem
      (memcpy (Client.mem client) (Client.hello + crypto_sign_BYTES)
              (Client.pub client) 0 crypto_sign_PUBLICKEYBYTES)
      client in
  (* hash(K | a_s * b_p | a_s * B_p) *)
  let box_sec :=
    store 0
      (crypto_hash_sha256
         (load 0 (crypto_auth_KEYBYTES + 2 * crypto_scalarmult_BYTES) tmp))
      (uninit crypto_secretbox_KEYBYTES) in
  (* secretbox_{hash(K | a_s * b_p | a_s * B_p)}(H) *)
  let auth :=
    store 0
      (crypto_secretbox_easy
         (load Client.hello HELLO_BYTES (Client.mem client))
         zero_nonce
         (load 0 crypto_secretbox_KEYBYTES box_sec))
      auth in
  (0%Z, auth, client).

Definition shs1_verify_server_acc (acc : bytes) (client : Client.t)
    : bool * Client.t :=
  let r := crypto_sign_ed25519_sk_to_curve25519
             (load 0 crypto_sign_SECRETKEYBYTES (Client.sec client)) in
  let curve_sec :=
    store 0 (output r) (uninit crypto_scalarmult_curve25519_BYTES) in
  if failed (status r) then (false, client) else
  (* (A_s * b_p) *)
  let r := crypto_scalarmult
             (load 0 crypto_scalarmult_curve25519_BYTES curve_sec)
             (load Client.server_eph_pub crypto_box_PUBLICKEYBYTES (Client.mem client)) in
  let client_lterm_shared :=
    store 0 (output r) (uninit crypto_scalarmult_BYTES) in
  if failed (status r) then (false, client) else
  (* K | a_s * b_p | a_s * B_p | A_s * b_p *)
  let tmp :=
    client_tmp (crypto_auth_KEYBYTES + 3 * crypto_scalarmult_BYTES) client in
  let r := crypto_scalarmult
             (load 0 crypto_scalarmult_curve25519_BYTES curve_sec)
             (load Client.server_eph_pub crypto_box_PUBLICKEYBYTES (Client.mem client)) in
  let tmp :=
    store (crypto_auth_KEYBYTES + 2 * crypto_scalarmult_BYTES) (output r) tmp in
  if failed (status r) then (false, client) else
  (* hash(K | a_s * b_p | a_s * B_p | A_s * b_p),
     reuses the storage in client->shared_secret *)
  let client :=
    Client.with_mem
      (store Client.shared_secret
         (crypto_hash_sha256
            (load 0 (crypto_auth_KEYBYTES + 3 * crypto_scalarmult_BYTES) tmp))
         (Client.mem client))
      client in
  (* K | H | hash(a_s * b_p) *)
  let expected := client_expected client in
  (* reuses the storage of client->hello *)
  let r := crypto_secretbox_open_easy
             (load 0 SHS1_SERVER_ACC_BYTES acc)
             zero_nonce
             (load Client.shared_secret crypto_secretbox_KEYBYTES (Client.mem client)) in
  let client :=
    Client.with_mem (store Client.hello (output r) (Client.mem client)) client in
  if failed (status r) then (false, client) else
  ((crypto_sign_verify_detached
      (load Client.hello crypto_sign_BYTES (Client.mem client))
      (load 0 (crypto_auth_KEYBYTES + HELLO_BYTES + crypto_hash_sha256_BYTES)
            expected)
      (load 0 crypto_sign_PUBLICKEYBYTES (Client.server_pub client))
    =? 0)%Z,
   client).

Definition shs1_client_outcome (padding : nat) (outcome : bytes)
    (client : Client.t) : bytes * Client.t :=
  (* hash(hash(hash(K | a_s * b_p | a_s * B_p | A_s * b_p)) | B_p),
     reuses the storage of client->hello *)
  let client :=
    Client.with_mem
      (store Client.hello
         (crypto_hash_sha256
            (load Client.shared_secret crypto_hash_sha256_BYTES (Client.mem client)))
         (Client.mem client))
      client in
  let client :=
    Client.with_mem
      (memcpy (Client.mem client) (Client.hello + crypto_hash_sha256_BYTES)
              (Client.server_pub client) 0 crypto_sign_PUBLICKEYBYTES)
      client in
  let outcome :=
    store Outcome.encryption_key
      (crypto_hash_sha256
         (load Client.hello (crypto_hash_sha256_BYTES + crypto_sign_PUBLICKEYBYTES)
               (Client.mem client)))
      outcome in
  (* hmac_{K}(b_p) *)
  let outcome :=
    store Outcome.encryption_nonce
      (crypto_auth
         (load Client.server_eph_pub crypto_box_PUBLICKEYBYTES (Client.mem client))
         (load 0 crypto_auth_KEYBYTES (Client.app client)))
      outcome in
  (* hash(hash(hash(K | a_s * b_p | a_s * B_p | A_s * b_p)) | A_p) *)
  let client :=
    Client.with_mem
      (memcpy (Client.mem client) (Client.hello + crypto_hash_sha256_BYTES)
              (Client.pub client) 0 crypto_sign_PUBLICKEYBYTES)
      client in
  let outcome :=
    store (Outcome.decryption_key padding)
      (crypto_hash_sha256
         (load Client.hello (crypto_hash_sha256_BYTES + crypto_sign_PUBLICKEYBYTES)
               (Client.mem client)))
      outcome in
  (* hmac_{K}(a_p) *)
  let outcome :=
    store (Outcome.decryption_nonce padding)
      (crypto_auth
         (load 0 crypto_box_PUBLICKEYBYTES (Client.eph_pub client))
         (load 0 crypto_auth_KEYBYTES (Client.app client)))
      outcome in
  (outcome, client).

Definition shs1_init_server (app pub sec eph_pub eph_sec : bytes)
    (block : bytes) : Server.t :=
  Server.mk app pub sec eph_pub eph_sec block.

Definition shs1_verify_client_challenge (challenge : bytes) (server : Server.t)
    : bool * Server.t :=
  if failed (crypto_auth_verify
               (load 0 crypto_auth_BYTES challenge)
               (load crypto_auth_BYTES crypto_box_PUBLICKEYBYTES challenge)
               (load 0 crypto_auth_KEYBYTES (Server.app server)))
  then (false, server)
  else
    (* a_p *)
    let server :=
      Server.with_mem
        (memcpy (Server.mem server) Server.client_eph_pub
                challenge crypto_auth_BYTES crypto_box_PUBLICKEYBYTES)
        server in
    (true, server).

(** challenge <- hmac_{K}(b_p) | b_p *)
Definition shs1_create_server_challenge (challenge : bytes) (server : Server.t)
    : bytes :=
  let challenge :=
    store 0
      (crypto_auth (load 0 crypto_box_PUBLICKEYBYTES (Server.eph_pub server))
                   (load 0 crypto_auth_KEYBYTES (Server.app server)))
      challenge in
  memcpy challenge crypto_auth_BYTES
         (Server.eph_pub server) 0 crypto_box_PUBLICKEYBYTES.

Definition shs1_verify_client_auth (auth : bytes) (server : Server.t)
    : bool * Server.t :=
  (* later stores K | b_s * a_p | B_s * a_p | b_s * A_p;
     for now, stores K | b_s * a_p *)
  let tmp := uninit (crypto_auth_KEYBYTES + 3 * crypto_scalarmult_BYTES) in
  let tmp := memcpy tmp 0 (Server.app server) 0 crypto_auth_KEYBYTES in
  let r := crypto_scalarmult
             (load 0 crypto_box_SECRETKEYBYTES (Server.eph_sec server))
             (load Server.client_eph_pub crypto_box_PUBLICKEYBYTES (Server.mem server)) in
  let tmp := store crypto_auth_KEYBYTES (output r) tmp in
  if failed (status r) then (false, server) else
  (* the curvified secret key uses the memory of server->shared_hash *)
  let r := crypto_sign_ed25519_sk_to_curve25519
             (load 0 crypto_sign_SECRETKEYBYTES (Server.sec server)) in
  let server :=
    Server.with_mem (store Server.shared_hash (output r) (Server.mem server))
                    server in
  if failed (status r) then (false, server) else
  (* append (B_s * a_p) *)
  let r := crypto_scalarmult
             (load Server.shared_hash crypto_scalarmult_curve25519_BYTES (Server.mem server))
             (load Server.client_eph_pub crypto_box_PUBLICKEYBYTES (Server.mem server)) in
  let tmp :=
    store (crypto_auth_KEYBYTES + crypto_scalarmult_BYTES) (output r) tmp in
  if failed (status r) then (false, server) else
  (* hash(K | b_s * a_p | B_s * a_p), in the memory of server->shared_hash *)
  let server :=
    Server.with_mem
      (store Server.shared_hash
         (crypto_hash_sha256
            (load 0 (crypto_auth_KEYBYTES + 2 * crypto_scalarmult_BYTES) tmp))
         (Server.mem server))
      server in
  (* H = sign_{A_s}(K | B_p | hash(a_s * b_p)) | A_p *)
  let r := crypto_secretbox_open_easy
             (load 0 SHS1_CLIENT_AUTH_BYTES auth)
             zero_nonce
             (load Server.shared_hash crypto_secretbox_KEYBYTES (Server.mem server)) in
  let server :=
    Server.with_mem (store Server.client_hello (output r) (Server.mem server))
                    server in
  if failed (status r) then (false, server) else
  (* A_p *)
  let server :=
    Server.with_mem
      (memcpy (Server.mem server) Server.client_pub
              (Server.mem server) (Server.client_hello + crypto_sign_BYTES)
              crypto_sign_PUBLICKEYBYTES)
      server in
  (* the curvified client key uses the memory of server->shared_hash *)
  let r := crypto_sign_ed25519_pk_to_curve25519
             (load Server.client_pub crypto_sign_PUBLICKEYBYTES (Server.mem server)) in
  let server :=
    Server.with_mem (store Server.shared_hash (output r) (Server.mem server))
                    server in
  if failed (status r) then (false, server) else
  (* append (b_s * A_p) *)
  let r := crypto_scalarmult
             (load 0 crypto_box_SECRETKEYBYTES (Server.eph_sec server))
             (load Server.shared_hash crypto_scalarmult_curve25519_BYTES (Server.mem server)) in
  let tmp :=
    store (crypto_auth_KEYBYTES + 2 * crypto_scalarmult_BYTES) (output r) tmp in
  if failed (status r) then (false, server) else
  (* hash(b_s * a_p) *)
  let server :=
    Server.with_mem
      (store Server.shared_hash
         (crypto_hash_sha256 (load crypto_auth_KEYBYTES crypto_scalarmult_BYTES tmp))
         (Server.mem server))
      server in
  (* K | B_p | hash(a_s * b_p) *)
  let expected :=
    uninit (crypto_auth_KEYBYTES + crypto_sign_PUBLICKEYBYTES
            + crypto_hash_sha256_BYTES) in
  let expected := memcpy expected 0 (Server.app server) 0 crypto_auth_KEYBYTES in
  let expected := memcpy expected crypto_auth_KEYBYTES
                         (Server.pub server) 0 crypto_sign_PUBLICKEYBYTES in
  let expected := memcpy expected (crypto_auth_KEYBYTES + crypto_sign_PUBLICKEYBYTES)
                         (Server.mem server) Server.shared_hash
                         crypto_hash_sha256_BYTES in
  if failed (crypto_sign_verify_detached
               (load Server.client_hello crypto_sign_BYTES (Server.mem server))
               (load 0 (crypto_auth_KEYBYTES + crypto_sign_PUBLICKEYBYTES
                        + crypto_hash_sha256_BYTES) expected)
               (load Server.client_pub crypto_sign_PUBLICKEYBYTES (Server.mem server)))
  then (false, server) else
  (* hash(K | b_s * a_p | B_s * a_p | b_s * A_p) *)
  let server :=
    Server.with_mem
      (store Server.box_sec
         (crypto_hash_sha256
            (load 0 (crypto_auth_KEYBYTES + 3 * crypto_scalarmult_BYTES) tmp))
         (Server.mem server))
      server in
  (true, server).

(** The buffer [to_sign] of [shs1_create_server_acc]: K, then 128 bytes
    copied from [client_hello] on. *)
Definition server_to_sign (server : Server.t) : bytes :=
  let to_sign :=
    uninit (crypto_auth_KEYBYTES + HELLO_BYTES + crypto_hash_sha256_BYTES) in
  let to_sign := memcpy to_sign 0 (Server.app server) 0 crypto_auth_KEYBYTES in
  memcpy to_sign crypto_auth_KEYBYTES
         (Server.mem server) Server.client_hello
         (HELLO_BYTES + crypto_hash_sha256_BYTES).

Definition shs1_create_server_acc (acc : bytes) (server : Server.t)
    : bytes * Server.t :=
  (* K | H | hash(b_s * a_p) *)
  let to_sign := server_to_sign server in
  (* sign_{B_s}(K | H | hash(b_s * a_p)), reuses the storage of
     server->client_hello *)
  let server :=
    Server.with_mem
      (store Server.client_hello
         (crypto_sign_detached
            (load 0 (crypto_auth_KEYBYTES + HELLO_BYTES + crypto_hash_sha256_BYTES)
                  to_sign)
            (load 0 crypto_sign_SECRETKEYBYTES (Server.sec server)))
         (Server.mem server))
      server in
  (* box_{hash(K | b_s * a_p | B_s * a_p | b_s * A_p)}(sign_{B_s}(...)) *)
  let acc :=
    store 0
      (crypto_secretbox_easy
         (load Server.client_hello crypto_sign_BYTES (Server.mem server))
         zero_nonce
         (load Server.box_sec crypto_secretbox_KEYBYTES (Server.mem server)))
      acc in
  (acc, server).

Definition shs1_server_outcome (padding : nat) (outcome : bytes)
    (server : Server.t) : bytes * Server.t :=
  (* reuses the storage of server->client_hello *)
  let server :=
    Server.with_mem
      (store Server.client_hello
         (crypto_hash_sha256
            (load Server.box_sec crypto_hash_sha256_BYTES (Server.mem server)))
         (Server.mem server))
      server in
  let server :=
    Server.with_mem
      (memcpy (Server.mem server) (Server.client_hello + crypto_hash_sha256_BYTES)
              (Server.mem server) Server.client_pub crypto_sign_PUBLICKEYBYTES)
      server in
  let outcome :=
    store Outcome.encryption_key
      (crypto_hash_sha256
         (load Server.client_hello
               (crypto_hash_sha256_BYTES + crypto_sign_PUBLICKEYBYTES)
               (Server.mem server)))
      outcome in
  (* hmac_{K}(a_p) *)
  let outcome :=
    store Outcome.encryption_nonce
      (crypto_auth
         (load Server.client_eph_pub crypto_box_PUBLICKEYBYTES (Server.mem server))
         (load 0 crypto_auth_KEYBYTES (Server.app server)))
      outcome in
  let server :=
    Server.with_mem
      (memcpy (Server.mem server) (Server.client_hello + crypto_hash_sha256_BYTES)
              (Server.pub server) 0 crypto_sign_PUBLICKEYBYTES)
      server in
  let outcome :=
    store (Outcome.decryption_key padding)
      (crypto_hash_sha256
         (load Server.client_hello
               (crypto_hash_sha256_BYTES + crypto_sign_PUBLICKEYBYTES)
               (Server.mem server)))
      outcome in
  (* hmac_{K}(b_p) *)
  let outcome :=
    store (Outcome.decryption_nonce padding)
      (crypto_auth
         (load 0 crypto_box_PUBLICKEYBYTES (Server.eph_pub server))
         (load 0 crypto_auth_KEYBYTES (Server.app server)))
      outcome in
  (outcome, server).

(** The same three buffers filled the way the comments next to the
    copies spell out: one [memcpy] per array. *)
Definition client_tmp_fieldwise (n : nat) (client : Client.t) : bytes :=
  let tmp := uninit n in
  let tmp := memcpy tmp 0 (Client.app client) 0 crypto_auth_KEYBYTES in
  let tmp := memcpy tmp crypto_auth_KEYBYTES
                    (Client.mem client) Client.shared_secret
                    crypto_scalarmult_BYTES in
  memcpy tmp (crypto_auth_KEYBYTES + crypto_scalarmult_BYTES)
         (Client.mem client) Client.server_lterm_shared
         crypto_scalarmult_BYTES.

Definition client_expected_fieldwise (client : Client.t) : bytes :=
  let expected :=
    uninit (crypto_auth_KEYBYTES + HELLO_BYTES + crypto_hash_sha256_BYTES) in
  let expected := memcpy expected 0 (Client.app client) 0 crypto_auth_KEYBYTES in
  let expected := memcpy expected crypto_auth_KEYBYTES
                         (Client.mem client) Client.hello HELLO_BYTES in
  memcpy expected (crypto_auth_KEYBYTES + HELLO_BYTES)
         (Client.mem client) Client.shared_hash crypto_hash_sha256_BYTES.

Definition server_to_sign_fieldwise (server : Server.t) : bytes :=
  let to_sign :=
    uninit (crypto_auth_KEYBYTES + HELLO_BYTES + crypto_hash_sha256_BYTES) in
  let to_sign := memcpy to_sign 0 (Server.app server) 0 crypto_auth_KEYBYTES in
  let to_sign := memcpy to_sign crypto_auth_KEYBYTES
                        (Server.mem server) Server.client_hello HELLO_BYTES in
  memcpy to_sign (crypto_auth_KEYBYTES + HELLO_BYTES)
         (Server.mem server) Server.shared_hash crypto_hash_sha256_BYTES.

(** ** The fallible functions, step by step

    The three functions that can fail, with their local buffers resolved:
    what each returns and what it leaves in the array block (and, for
    [shs1_create_client_auth], in the message buffer) on every path.  They
    are proved equal to the functions above. *)

(** [shs1_create_client_auth] with its local buffers resolved: the value
    it returns, the message buffer and the array block it leaves behind. *)
Definition create_client_auth_steps (auth : bytes) (client : Client.t)
    : Z * bytes * bytes :=
  let m0 := Client.mem client in
  let r1 := crypto_scalarmult (Client.eph_sec client)
              (Client.get_server_eph_pub client) in
  let m1 := store Client.shared_secret (output r1) m0 in
  if failed (status r1) then (int_false, auth, m1) else
  let r2 := crypto_sign_ed25519_pk_to_curve25519 (Client.server_pub client) in
  if failed (status r2) then ((-1)%Z, auth, m1) else
  let r3 := crypto_scalarmult (Client.eph_sec client) (output r2) in
  let m2 := store Client.server_lterm_shared (output r3) m1 in
  if failed (status r3) then ((-2)%Z, auth, m2) else
  let hello :=
    crypto_sign_detached
      (Client.app client ++ Client.server_pub client
       ++ crypto_hash_sha256 (output r1))
      (Client.sec client)
    ++ Client.pub client in
  (0%Z,
   crypto_secretbox_easy hello zero_nonce
     (crypto_hash_sha256 (Client.app client ++ output r1 ++ output r3)),
   output r1 ++ output r3 ++ hello ++ crypto_hash_sha256 (output r1)
   ++ Client.get_server_eph_pub client).

(** [shs1_verify_server_acc] with its local buffers resolved: the value it
    returns and the array block it leaves behind. *)
Definition verify_server_acc_steps (acc : bytes) (client : Client.t)
    : bool * bytes :=
  let m0 := Client.mem client in
  let r1 := crypto_sign_ed25519_sk_to_curve25519 (Client.sec client) in
  if failed (status r1) then (false, m0) else
  let r2 := crypto_scalarmult (output r1) (Client.get_server_eph_pub client) in
  if failed (status r2) then (false, m0) else
  let key :=
    crypto_hash_sha256
      (Client.app client ++ Client.get_shared_secret client
       ++ Client.get_server_lterm_shared client ++ output r2) in
  let r3 := crypto_secretbox_open_easy acc zero_nonce key in
  let m2 :=
    store Client.hello (output r3) (store Client.shared_secret key m0) in
  if failed (status r3) then (false, m2) else
  ((crypto_sign_verify_detached (output r3)
      (Client.app client ++ Client.get_hello client
       ++ Client.get_shared_hash client)
      (Client.server_pub client) =? 0)%Z,
   m2).

(** [shs1_verify_client_auth] with its local buffers resolved: the value
    it returns and the array block it leaves behind. *)
Definition verify_client_auth_steps (auth : bytes) (server : Server.t)
    : bool * bytes :=
  let m0 := Server.mem server in
  let a_p := Server.get_client_eph_pub server in
  let r1 := crypto_scalarmult (Server.eph_sec server) a_p in
  if failed (status r1) then (false, m0) else
  let r2 := crypto_sign_ed25519_sk_to_curve25519 (Server.sec server) in
  let m1 := store Server.shared_hash (output r2) m0 in
  if failed (status r2) then (false, m1) else
  let r3 := crypto_scalarmult (output r2) a_p in
  if failed (status r3) then (false, m1) else
  let key :=
    crypto_hash_sha256 (Server.app server ++ output r1 ++ output r3) in
  let r4 := crypto_secretbox_open_easy auth zero_nonce key in
  let m3 :=
    store Server.client_hello (output r4) (store Server.shared_hash key m1) in
  if failed (status r4) then (false, m3) else
  let A_p := load crypto_sign_BYTES crypto_sign_PUBLICKEYBYTES (output r4) in
  let r5 := crypto_sign_ed25519_pk_to_curve25519 A_p in
  let m5 :=
    store Server.shared_hash (output r5) (store Server.client_pub A_p m3) in
  if failed (status r5) then (false, m5) else
  let r6 := crypto_scalarmult (Server.eph_sec server) (output r5) in
  if failed (status r6) then (false, m5) else
  let m6 := store Server.shared_hash (crypto_hash_sha256 (output r1)) m5 in
  if failed (crypto_sign_verify_detached
               (load 0 crypto_sign_BYTES (output r4))
               (Server.app server ++ Server.pub server
                ++ crypto_hash_sha256 (output r1))
               A_p)
  then (false, m6) else
  (true,
   store Server.box_sec
     (crypto_hash_sha256
        (Server.app server ++ output r1 ++ output r3 ++ output r6))
     m6).

(** The eight operations in protocol order, the four messages carried from
    one side to the other; [None] as soon as an operation reports a
    failure. *)
Definition handshake (padding : nat) (client : Client.t) (server : Server.t)
    : option (bytes * bytes) :=
  let challenge_c :=
    shs1_create_client_challenge (uninit SHS1_CLIENT_CHALLENGE_BYTES) client in
  let r := shs1_verify_client_challenge challenge_c server in
  let server := snd r in
  if negb (fst r) then None else
  let challenge_s :=
    shs1_create_server_challenge (uninit SHS1_SERVER_CHALLENGE_BYTES) server in
  let r := shs1_verify_server_challenge challenge_s client in
  let client := snd r in
  if negb (fst r) then None else
  let r := shs1_create_client_auth (uninit SHS1_CLIENT_AUTH_BYTES) client in
  let auth := snd (fst r) in
  let client := snd r in
  if failed (fst (fst r)) then None else
  let r := shs1_verify_client_auth auth server in
  let server := snd r in
  if negb (fst r) then None else
  let r := shs1_create_server_acc (uninit SHS1_SERVER_ACC_BYTES) server in
  let acc := fst r in
  let server := snd r in
  let r := shs1_verify_server_acc acc client in
  let client := snd r in
  if negb (fst r) then None else
  let outcome_c :=
    fst (shs1_client_outcome padding (uninit (Outcome.size padding)) client) in
  let outcome_s :=
    fst (shs1_server_outcome padding (uninit (Outcome.size padding)) server) in
  Some (outcome_c, outcome_s).

End SHS1.

(** ** Honest sessions *)

Section Legal.

Context {sodium : Sodium} {laws : SodiumLaws sodium}.

(** The inputs of an honest session: one application key, key pairs from
    the generators, the client knowing the server's public key, and the
    two blocks [malloc] returned. *)
Definition legal (K A_p A_s B_p B_s a_p a_s b_p b_s block_c block_s : bytes)
    : Prop :=
  length K = crypto_auth_KEYBYTES /\
  sign_keypair A_p A_s /\ sign_keypair B_p B_s /\
  box_keypair a_p a_s /\ box_keypair b_p b_s /\
  length block_c = Client.size /\ length block_s = Server.size.

End Legal.

(** ** A small model of the facade

    Functions with the shapes and sizes of the libsodium ones, simple
    enough to run: a folding checksum stands for the hash, the MAC and the
    signature, the box is the message behind a 16-byte checksum, and a
    public key is its secret key in the clear.  It serves to run the
    handshake functions on concrete sessions. *)

Module Toy.

Definition fit (n : nat) (l : bytes) : bytes :=
  firstn n (l ++ repeat x00 n).

Definition xor_byte (a b : byte) : byte :=
  match Byte.of_N (N.lxor (Byte.to_N a) (Byte.to_N b)) with
  | Some c => c
  | None => x00
  end.

Fixpoint xor_bytes (a b : bytes) : bytes :=
  match a, b with
  | x :: a', y :: b' => xor_byte x y :: xor_bytes a' b'
  | _, _ => []
  end.

Definition absorb (st : bytes) (b : byte) : bytes :=
  match st with
  | [] => []
  | x :: st' => st' ++ [xor_byte x b]
  end.

Definition digest (m : bytes) : bytes :=
  fold_left absorb m (repeat x00 32).

Definition all_zero (l : bytes) : bool := forallb (Byte.eqb x00) l.

Definition auth (m k : bytes) : bytes := digest (k ++ m).

Definition auth_verify (h m k : bytes) : Z :=
  if bytes_eqb h (auth m k) then 0%Z else (-1)%Z.

Definition scalarmult (n p : bytes) : Z * bytes :=
  (if all_zero n || all_zero p then (-1)%Z else 0%Z, fit 32 (xor_bytes n p)).

Definition pk_to_curve25519 (pk : bytes) : Z * bytes :=
  if all_zero pk then ((-1)%Z, []) else (0%Z, fit 32 pk).

Definition sk_to_curve25519 (sk : bytes) : Z * bytes :=
  (0%Z, fit 32 (skipn 32 sk)).

Definition signature (m pk : bytes) : bytes :=
  digest (pk ++ m) ++ digest (m ++ pk).

Definition sign_detached (m sk : bytes) : bytes :=
  signature m (skipn 32 sk).

Definition sign_verify_detached (sig m pk : bytes) : Z :=
  if bytes_eqb sig (signature m pk) then 0%Z else (-1)%Z.

Definition box_tag (m n k : bytes) : bytes :=
  firstn 16 (digest (k ++ n ++ m)).

Definition secretbox_easy (m n k : bytes) : bytes :=
  box_tag m n k ++ m.

Definition secretbox_open_easy (c n k : bytes) : Z * bytes :=
  let m := skipn 16 c in
  if bytes_eqb (firstn 16 c) (box_tag m n k) then (0%Z, m) else ((-1)%Z, []).

(** The key pairs of the model. *)
Definition is_box_keypair (pk sk : bytes) : bool :=
  bytes_eqb pk sk && (length sk =? 32) && negb (all_zero sk).

Definition is_sign_keypair (pk sk : bytes) : bool :=
  bytes_eqb pk (skipn 32 sk) && (length sk =? 64) && negb (all_zero pk).

End Toy.

(** ** A facade whose MAC ignores its key

    The functions of the small model, except that the tag is the checksum
    of the message alone.  A tag made under one key then verifies under
    every key. *)

Module KeyBlind.

Definition auth (m k : bytes) : bytes := Toy.digest m.

Definition auth_verify (h m k : bytes) : Z :=
  if bytes_eqb h (auth m k) then 0%Z else (-1)%Z.

End KeyBlind.

(** * Properties *)

(** ** Reads and writes *)

Lemma length_load off n m :
  off + n <= length m -> length (load off n m) = n.
Proof.
  intros H. unfold load. rewrite length_firstn, length_skipn. lia.
Qed.

Lemma length_store off src m :
  off + length src <= length m -> length (store off src m) = length m.
Proof.
  intros H. unfold store.
  rewrite !length_app, length_firstn, length_skipn. lia.
Qed.

Lemma length_uninit n : length (uninit n) = n.
Proof. apply repeat_length. Qed.

Lemma load_all n m : length m = n -> load 0 n m = m.
Proof.
  intros H. unfold load. simpl. apply firstn_all2. lia.
Qed.

(** A read of [a + b] bytes is a read of [a] bytes followed by a read of
    the [b] bytes behind them. *)
Lemma load_split off a b m :
  load off (a + b) m = load off a m ++ load (off + a) b m.
Proof.
  unfold load.
  rewrite <- (firstn_skipn a (firstn (a + b) (skipn off m))).
  rewrite firstn_firstn, Nat.min_l by lia. f_equal.
  rewrite skipn_firstn_comm, skipn_skipn.
  f_equal; [lia | f_equal; lia].
Qed.

(** Reading inside the range a write has just covered. *)
Lemma load_store_inside off src m off' n :
  off <= length m ->
  off <= off' -> off' + n <= off + length src ->
  load off' n (store off src m) = load (off' - off) n src.
Proof.
  intros Hm H1 H2. unfold load, store.
  rewrite skipn_app, length_firstn, Nat.min_l by lia.
  rewrite (skipn_all2 (firstn off m)) by (rewrite length_firstn; lia).
  simpl. rewrite skipn_app, firstn_app.
  rewrite length_skipn.
  replace (n - (length src - (off' - off))) with 0 by lia.
  simpl. apply app_nil_r.
Qed.

Lemma load_store_same off src m n :
  off <= length m -> n = length src ->
  load off n (store off src m) = src.
Proof.
  intros Hm ->. rewrite load_store_inside by lia.
  rewrite Nat.sub_diag. apply load_all. reflexivity.
Qed.

(** Reading a range a write did not touch. *)
Lemma load_store_before off src m off' n :
  off <= length m -> off' + n <= off ->
  load off' n (store off src m) = load off' n m.
Proof.
  intros Hm H. unfold load, store.
  rewrite skipn_app, firstn_app.
  rewrite length_skipn, !length_firstn, Nat.min_l by lia.
  replace (n - (off - off')) with 0 by lia. simpl. rewrite app_nil_r.
  rewrite skipn_firstn_comm, firstn_firstn. f_equal. lia.
Qed.

Lemma load_store_after off src m off' n :
  off + length src <= length m -> off + length src <= off' ->
  load off' n (store off src m) = load off' n m.
Proof.
  intros Hm H. unfold load, store. f_equal.
  rewrite app_assoc, skipn_app.
  rewrite (skipn_all2 (firstn off m ++ src))
    by (rewrite length_app, length_firstn; lia).
  rewrite length_app, length_firstn, Nat.min_l by lia.
  simpl. rewrite skipn_skipn. f_equal. lia.
Qed.

(** A write that exactly covers a buffer replaces it. *)
Lemma store_all src m : length src = length m -> store 0 src m = src.
Proof.
  intros H. unfold store. simpl.
  rewrite skipn_all2 by lia. apply app_nil_r.
Qed.

(** The bytes of a buffer, cut at an offset. *)
Lemma load_cut off m :
  off <= length m -> m = load 0 off m ++ load off (length m - off) m.
Proof.
  intros H. unfold load. simpl.
  rewrite (firstn_all2 (skipn off m)) by (rewrite length_skipn; lia).
  symmetry. apply firstn_skipn.
Qed.

Lemma load_zero_all off n m : off = 0 -> length m = n -> load off n m = m.
Proof. intros -> H. now apply load_all. Qed.

Lemma load_app_l n a b : length a = n -> load 0 n (a ++ b) = a.
Proof.
  intros H. unfold load. simpl.
  rewrite firstn_app, firstn_all2 by lia.
  replace (n - length a) with 0 by lia. simpl. apply app_nil_r.
Qed.

Lemma load_app_r off n a b :
  length a <= off -> load off n (a ++ b) = load (off - length a) n b.
Proof.
  intros H. unfold load. rewrite skipn_app.
  rewrite (skipn_all2 a) by lia. reflexivity.
Qed.

Lemma load_app_l0 off n a b :
  off = 0 -> length a = n -> load off n (a ++ b) = a.
Proof. intros -> H. now apply load_app_l. Qed.

Lemma load_load off n off' n' m :
  off + n <= n' -> load off n (load off' n' m) = load (off' + off) n m.
Proof.
  intros H. unfold load.
  rewrite skipn_firstn_comm, firstn_firstn, skipn_skipn.
  f_equal; [lia | f_equal; lia].
Qed.

Lemma load_zero off n m : off = 0 -> load off n m = firstn n m.
Proof. now intros ->. Qed.

Lemma load_split_at off n m k :
  off < k -> k < off + n ->
  load off n m = load off (k - off) m ++ load k (off + n - k) m.
Proof.
  intros H1 H2. replace n with ((k - off) + (off + n - k)) at 1 by lia.
  rewrite load_split. do 2 f_equal. lia.
Qed.

Lemma load_uninit off k n : off + k <= n -> load off k (uninit n) = uninit k.
Proof.
  intros H. unfold load, uninit.
  replace n with (off + (k + (n - off - k))) by lia.
  rewrite !repeat_app, skipn_app, repeat_length, Nat.sub_diag.
  rewrite skipn_all2 by (rewrite repeat_length; lia). simpl.
  rewrite firstn_app, repeat_length, Nat.sub_diag.
  rewrite firstn_all2 by (rewrite repeat_length; lia). simpl.
  apply app_nil_r.
Qed.

Lemma add_sub_same a b : a + b - a = b.
Proof. lia. Qed.

Lemma failed_0 : failed 0 = false.
Proof. reflexivity. Qed.

Lemma failed_false rc : failed rc = false <-> rc = 0%Z.
Proof.
  unfold failed. rewrite negb_false_iff. apply Z.eqb_eq.
Qed.

Lemma failed_true rc : failed rc = true <-> rc <> 0%Z.
Proof.
  unfold failed. rewrite negb_true_iff. apply Z.eqb_neq.
Qed.

(** ** Proof automation for the layouts *)

Ltac proj :=
  cbn [status output fst snd
       Client.mem Client.with_mem Client.app Client.pub Client.sec
       Client.eph_pub Client.eph_sec Client.server_pub
       Server.mem Server.with_mem Server.app Server.pub Server.sec
       Server.eph_pub Server.eph_sec] in *.

Ltac getters :=
  unfold Client.get_shared_secret, Client.get_server_lterm_shared,
    Client.get_hello, Client.get_shared_hash, Client.get_server_eph_pub,
    Server.get_client_hello, Server.get_shared_hash,
    Server.get_client_eph_pub, Server.get_client_pub, Server.get_box_sec,
    Outcome.get_encryption_key, Outcome.get_encryption_nonce,
    Outcome.get_decryption_key, Outcome.get_decryption_nonce in *.

Ltac sizes :=
  unfold SHS1_CLIENT_CHALLENGE_BYTES, SHS1_SERVER_CHALLENGE_BYTES,
    SHS1_CLIENT_AUTH_BYTES, SHS1_SERVER_ACC_BYTES,
    Outcome.size, Outcome.decryption_nonce, Outcome.decryption_key,
    Outcome.encryption_nonce, Outcome.encryption_key,
    Client.size, Client.server_eph_pub, Client.shared_hash, Client.hello,
    Client.server_lterm_shared, Client.shared_secret,
    Server.size, Server.box_sec, Server.client_pub, Server.client_eph_pub,
    Server.shared_hash, Server.client_hello,
    HELLO_BYTES,
    crypto_auth_BYTES, crypto_auth_KEYBYTES, crypto_box_PUBLICKEYBYTES,
    crypto_box_SECRETKEYBYTES, crypto_box_NONCEBYTES, crypto_sign_BYTES,
    crypto_sign_PUBLICKEYBYTES, crypto_sign_SECRETKEYBYTES,
    crypto_scalarmult_BYTES, crypto_scalarmult_curve25519_BYTES,
    crypto_hash_sha256_BYTES, crypto_secretbox_KEYBYTES,
    crypto_secretbox_NONCEBYTES, crypto_secretbox_MACBYTES in *.

(** [len] settles a goal about the lengths of buffers. *)
Ltac len_step :=
  match goal with
  | |- context [length (uninit ?n)] => rewrite (length_uninit n)
  | |- context [length zero_nonce] =>
      change (length zero_nonce) with crypto_box_NONCEBYTES
  | |- context [length (crypto_auth ?m ?k)] => rewrite (crypto_auth_length m k)
  | |- context [length (crypto_hash_sha256 ?m)] =>
      rewrite (crypto_hash_sha256_length m)
  | |- context [length (crypto_sign_detached ?m ?k)] =>
      rewrite (crypto_sign_detached_length m k)
  | |- context [length (crypto_secretbox_easy ?m ?n ?k)] =>
      rewrite (crypto_secretbox_easy_length m n k)
  | |- context [length (?a ++ ?b)] => rewrite (length_app a b)
  | |- context [length (store ?o ?s ?m)] => rewrite (@length_store o s m) by len
  | |- context [length (load ?o ?n ?m)] => rewrite (@length_load o n m) by len
  end
with len := unfold memcpy; repeat len_step; sizes; lia.

(** [mem_step] pushes one read through the write below it. *)
Ltac mem_step :=
  match goal with
  | |- context [load ?o ?n (store ?o' ?s ?m)] =>
      first [ rewrite (@load_store_same o' s m n) by len
            | rewrite (@load_store_before o' s m o n) by len
            | rewrite (@load_store_after o' s m o n) by len
            | rewrite (@load_store_inside o' s m o n) by len
            | rewrite (@load_split_at o n (store o' s m) o') by len
            | rewrite (@load_split_at o n (store o' s m) (o' + length s))
                by len ]
  | |- context [load ?o ?n (load ?o' ?n' ?m)] =>
      rewrite (@load_load o n o' n' m) by len
  | |- context [load ?o ?n (?a ++ ?b)] =>
      first [ rewrite (@load_app_l0 o n a b) by len
            | rewrite (@load_app_r o n a b) by len ]
  | |- context [load ?o ?n ?m] => rewrite (@load_zero_all o n m) by len
  end.

Ltac mem_simpl := unfold memcpy; repeat mem_step.

Lemma bytes_cut2 a b m x y :
  length m = a + b -> load 0 a m = x -> load a b m = y -> m = x ++ y.
Proof.
  intros Hm <- <-. rewrite (load_cut a m) at 1 by lia.
  do 2 f_equal. lia.
Qed.

Lemma bytes_cut3 a b c m x y z :
  length m = a + b + c ->
  load 0 a m = x -> load a b m = y -> load (a + b) c m = z ->
  m = x ++ y ++ z.
Proof.
  intros Hm Hx <- <-. apply (@bytes_cut2 a (b + c)); [lia | assumption |].
  apply load_split.
Qed.

Lemma bytes_cut4 a b c d m x y z w :
  length m = a + b + c + d ->
  load 0 a m = x -> load a b m = y -> load (a + b) c m = z ->
  load (a + b + c) d m = w ->
  m = x ++ y ++ z ++ w.
Proof.
  intros Hm Hx Hy <- <-. apply (@bytes_cut3 a b (c + d)); try assumption; [lia|].
  apply load_split.
Qed.

Lemma bytes_cut5 a b c d e m x y z w v :
  length m = a + b + c + d + e ->
  load 0 a m = x -> load a b m = y -> load (a + b) c m = z ->
  load (a + b + c) d m = w -> load (a + b + c + d) e m = v ->
  m = x ++ y ++ z ++ w ++ v.
Proof.
  intros Hm Hx Hy Hz <- <-.
  apply (bytes_cut4 a b c (d + e)); try assumption; [lia|].
  apply load_split.
Qed.

Lemma load_eq2 off n m a b x y :
  n = a + b -> load off a m = x -> load (off + a) b m = y ->
  load off n m = x ++ y.
Proof. intros -> <- <-. apply load_split. Qed.

Lemma load_eq3 off n m a b c x y z :
  n = a + b + c ->
  load off a m = x -> load (off + a) b m = y -> load (off + a + b) c m = z ->
  load off n m = x ++ y ++ z.
Proof.
  intros -> Hx <- <-. apply (load_eq2 off _ m a (b + c)); [lia | assumption |].
  apply load_split.
Qed.

(** A buffer, or a read, is the concatenation of its parts. *)
Ltac cut2 a b :=
  apply (bytes_cut2 a b); [len | mem_simpl; try reflexivity ..].
Ltac cut3 a b c :=
  apply (bytes_cut3 a b c); [len | mem_simpl; try reflexivity ..].
Ltac cut5 a b c d e :=
  apply (bytes_cut5 a b c d e); [len | mem_simpl; try reflexivity ..].
Ltac read2 a b :=
  apply (load_eq2 _ _ _ a b); [sizes; lia | mem_simpl; try reflexivity ..].
Ltac read3 a b c :=
  apply (load_eq3 _ _ _ a b c); [sizes; lia | mem_simpl; try reflexivity ..].

Lemma Client_wf_spec c :
  Client.wf c = true <->
  length (Client.app c) = crypto_auth_KEYBYTES /\
  length (Client.pub c) = crypto_sign_PUBLICKEYBYTES /\
  length (Client.sec c) = crypto_sign_SECRETKEYBYTES /\
  length (Client.eph_pub c) = crypto_box_PUBLICKEYBYTES /\
  length (Client.eph_sec c) = crypto_box_SECRETKEYBYTES /\
  length (Client.server_pub c) = crypto_sign_PUBLICKEYBYTES /\
  length (Client.mem c) = Client.size.
Proof.
  unfold Client.wf. rewrite !andb_true_iff, !Nat.eqb_eq. tauto.
Qed.

Lemma Server_wf_spec s :
  Server.wf s = true <->
  length (Server.app s) = crypto_auth_KEYBYTES /\
  length (Server.pub s) = crypto_sign_PUBLICKEYBYTES /\
  length (Server.sec s) = crypto_sign_SECRETKEYBYTES /\
  length (Server.eph_pub s) = crypto_box_PUBLICKEYBYTES /\
  length (Server.eph_sec s) = crypto_box_SECRETKEYBYTES /\
  length (Server.mem s) = Server.size.
Proof.
  unfold Server.wf. rewrite !andb_true_iff, !Nat.eqb_eq. tauto.
Qed.

Ltac wf_client H :=
  let Ha := fresh "Happ" in let Hp := fresh "Hpub" in
  let Hs := fresh "Hsec" in let Hep := fresh "Heph_pub" in
  let Hes := fresh "Heph_sec" in let Hsp := fresh "Hserver_pub" in
  let Hm := fresh "Hmem" in
  apply Client_wf_spec in H;
  destruct H as (Ha & Hp & Hs & Hep & Hes & Hsp & Hm).

Ltac wf_server H :=
  let Ha := fresh "Happ" in let Hp := fresh "Hpub" in
  let Hs := fresh "Hsec" in let Hep := fresh "Heph_pub" in
  let Hes := fresh "Heph_sec" in let Hm := fresh "Hmem" in
  apply Server_wf_spec in H;
  destruct H as (Ha & Hp & Hs & Hep & Hes & Hm).

Lemma Client_with_mem_twice m m' c :
  Client.with_mem m (Client.with_mem m' c) = Client.with_mem m c.
Proof. reflexivity. Qed.

Lemma Server_with_mem_twice m m' s :
  Server.with_mem m (Server.with_mem m' s) = Server.with_mem m s.
Proof. reflexivity. Qed.

Lemma Client_with_mem_mem c : Client.with_mem (Client.mem c) c = c.
Proof. now destruct c. Qed.

Lemma Server_with_mem_mem s : Server.with_mem (Server.mem s) s = s.
Proof. now destruct s. Qed.

Lemma Client_wf_with_mem m c :
  Client.wf c = true -> length m = Client.size ->
  Client.wf (Client.with_mem m c) = true.
Proof.
  intros H Hm. apply Client_wf_spec in H. apply Client_wf_spec. proj. tauto.
Qed.

Lemma Server_wf_with_mem m s :
  Server.wf s = true -> length m = Server.size ->
  Server.wf (Server.with_mem m s) = true.
Proof.
  intros H Hm. apply Server_wf_spec in H. apply Server_wf_spec. proj. tauto.
Qed.

Section Challenge.

Context {sodium : Sodium}.

Lemma create_client_challenge_eq challenge client :
  Client.wf client = true ->
  length challenge = SHS1_CLIENT_CHALLENGE_BYTES ->
  shs1_create_client_challenge challenge client
  = crypto_auth (Client.eph_pub client) (Client.app client)
    ++ Client.eph_pub client.
Proof.
  intros Hwf Hc. wf_client Hwf. unfold shs1_create_client_challenge.
  cut2 32 32.
Qed.

Lemma create_server_challenge_eq challenge server :
  Server.wf server = true ->
  length challenge = SHS1_SERVER_CHALLENGE_BYTES ->
  shs1_create_server_challenge challenge server
  = crypto_auth (Server.eph_pub server) (Server.app server)
    ++ Server.eph_pub server.
Proof.
  intros Hwf Hc. wf_server Hwf. unfold shs1_create_server_challenge.
  cut2 32 32.
Qed.

Lemma verify_server_challenge_success tag pk client :
  Client.wf client = true ->
  length tag = crypto_auth_BYTES -> length pk = crypto_box_PUBLICKEYBYTES ->
  crypto_auth_verify tag pk (Client.app client) = 0%Z ->
  shs1_verify_server_challenge (tag ++ pk) client
  = (true,
     Client.with_mem
       (load 0 Client.server_eph_pub (Client.mem client) ++ pk) client).
Proof.
  intros Hwf Ht Hp Hv. wf_client Hwf. unfold shs1_verify_server_challenge.
  mem_simpl. rewrite Hv, failed_0. do 2 f_equal.
  cut2 192 32.
Qed.

Lemma verify_client_challenge_success tag pk server :
  Server.wf server = true ->
  length tag = crypto_auth_BYTES -> length pk = crypto_box_PUBLICKEYBYTES ->
  crypto_auth_verify tag pk (Server.app server) = 0%Z ->
  shs1_verify_client_challenge (tag ++ pk) server
  = (true,
     Server.with_mem
       (load 0 Server.client_eph_pub (Server.mem server) ++ pk
        ++ load Server.client_pub
             (crypto_sign_PUBLICKEYBYTES + crypto_hash_sha256_BYTES)
             (Server.mem server))
       server).
Proof.
  intros Hwf Ht Hp Hv. wf_server Hwf. unfold shs1_verify_client_challenge.
  mem_simpl. rewrite Hv, failed_0. do 2 f_equal.
  cut3 128 32 64.
Qed.

End Challenge.

(** ** Adjacent arrays

    One read across the boundary of two arrays that follow each other in
    a struct is the two arrays, one after the other. *)

Lemma Client_shared_secret_adjacent m :
  load Client.shared_secret (2 * crypto_scalarmult_BYTES) m
  = load Client.shared_secret crypto_scalarmult_BYTES m
    ++ load Client.server_lterm_shared crypto_scalarmult_BYTES m.
Proof. apply (load_split Client.shared_secret 32 32). Qed.

Lemma Client_hello_adjacent m :
  load Client.hello (HELLO_BYTES + crypto_hash_sha256_BYTES) m
  = load Client.hello HELLO_BYTES m
    ++ load Client.shared_hash crypto_hash_sha256_BYTES m.
Proof. apply load_split. Qed.

Lemma Server_client_hello_adjacent m :
  load Server.client_hello (HELLO_BYTES + crypto_hash_sha256_BYTES) m
  = load Server.client_hello HELLO_BYTES m
    ++ load Server.shared_hash crypto_hash_sha256_BYTES m.
Proof. apply load_split. Qed.

(** ** What the primitives leave in their buffers *)

Section Primitives.

Context {sodium : Sodium}.

Lemma crypto_scalarmult_eq_length n p q :
  crypto_scalarmult n p = (0%Z, q) -> length q = crypto_scalarmult_BYTES.
Proof.
  intros H. pose proof (crypto_scalarmult_length n p) as L.
  rewrite H in L. now apply L.
Qed.

Lemma pk_to_curve25519_eq_length pk q :
  crypto_sign_ed25519_pk_to_curve25519 pk = (0%Z, q) ->
  length q = crypto_scalarmult_curve25519_BYTES.
Proof.
  intros H. pose proof (crypto_sign_ed25519_pk_to_curve25519_length pk) as L.
  rewrite H in L. now apply L.
Qed.

Lemma sk_to_curve25519_eq_length sk q :
  crypto_sign_ed25519_sk_to_curve25519 sk = (0%Z, q) ->
  length q = crypto_scalarmult_curve25519_BYTES.
Proof.
  intros H. pose proof (crypto_sign_ed25519_sk_to_curve25519_length sk) as L.
  rewrite H in L. now apply L.
Qed.

Lemma secretbox_open_easy_eq_length c n k m :
  crypto_secretbox_open_easy c n k = (0%Z, m) ->
  length m = length c - crypto_secretbox_MACBYTES.
Proof.
  intros H. pose proof (crypto_secretbox_open_easy_length c n k) as L.
  rewrite H in L. now apply L.
Qed.

Lemma failed_status_cases (r : Z * bytes) :
  (failed (status r) = true /\ status r <> 0%Z) \/
  (failed (status r) = false /\ exists q, r = (0%Z, q)).
Proof.
  destruct r as [rc q]. cbn [status fst]. destruct (failed rc) eqn:F.
  - left. split; [reflexivity|]. now apply failed_true.
  - right. split; [reflexivity|]. apply failed_false in F. subst. now exists q.
Qed.

End Primitives.

(** Running a function one binding at a time: [let_step] brings the value
    of the outermost binding to normal form before it enters the body,
    [if_step] splits on the status a check inspects. *)
Ltac note_length E :=
  lazymatch type of E with
  | crypto_scalarmult _ _ = _ =>
      pose proof (crypto_scalarmult_eq_length _ _ _ E)
  | crypto_sign_ed25519_pk_to_curve25519 _ = _ =>
      pose proof (pk_to_curve25519_eq_length _ _ E)
  | crypto_sign_ed25519_sk_to_curve25519 _ = _ =>
      pose proof (sk_to_curve25519_eq_length _ _ E)
  | crypto_secretbox_open_easy _ _ _ = _ =>
      pose proof (secretbox_open_easy_eq_length _ _ _ _ E)
  end.

Ltac use_known :=
  repeat match goal with
         | H : ?l = (0%Z, _) |- _ => rewrite H
         end.

Ltac normal :=
  getters; proj; mem_simpl;
  repeat match goal with
         | |- context [load Client.shared_secret
                         (2 * crypto_scalarmult_BYTES) (Client.mem ?c)] =>
             rewrite (Client_shared_secret_adjacent (Client.mem c))
         | |- context [load Client.hello
                         (HELLO_BYTES + crypto_hash_sha256_BYTES)
                         (Client.mem ?c)] =>
             rewrite (Client_hello_adjacent (Client.mem c))
         | |- context [load Server.client_hello
                         (HELLO_BYTES + crypto_hash_sha256_BYTES)
                         (Server.mem ?c)] =>
             rewrite (Server_client_hello_adjacent (Server.mem c))
         end;
  rewrite <- ?app_assoc, ?add_sub_same, ?Nat.sub_diag,
    ?Client_with_mem_twice, ?Server_with_mem_twice;
  use_known; proj.

Ltac let_step :=
  lazymatch goal with
  | |- (let x := ?v in @?b x) = ?rhs =>
      let E := fresh "E" in
      eassert (E : v = _); [ normal; reflexivity | ];
      lazymatch type of E with
      | _ = ?nf =>
          transitivity (b nf); [ exact (f_equal b E) | clear E; cbv beta ]
      end
  end.

Ltac if_step :=
  lazymatch goal with
  | |- (if failed (status (0%Z, ?q)) then _ else _) = _ =>
      change (failed (status (0%Z, q))) with false; cbv iota
  | |- (if failed (status ?r) then _ else _) = _ =>
      let F := fresh "F" in let q := fresh "q" in let E := fresh "E" in
      destruct (failed_status_cases r) as [[F _] | [F [q E]]];
      rewrite F; cbv iota;
      [ | try rewrite E; note_length E;
          change (output (0%Z, q)) with q; change (status (0%Z, q)) with 0%Z ]
  | |- (if failed ?rc then _ else _) = _ =>
      let E := fresh "E" in
      eassert (E : rc = _); [ normal; reflexivity | ];
      try rewrite E; clear E;
      lazymatch goal with
      | |- (if failed ?rc' then _ else _) = _ =>
          let F := fresh "F" in
          destruct (failed rc') eqn:F; cbv iota
      end
  end.

Ltac close_leaf unfold_steps :=
  normal; unfold_steps; getters;
  repeat (use_known; proj; rewrite ?failed_0;
          try match goal with F : failed _ = _ |- _ => rewrite F end);
  rewrite ?Client_with_mem_mem, ?Server_with_mem_mem;
  try reflexivity.

Ltac run_step :=
  lazymatch goal with
  | |- (let x := ?v in @?b x) = _ => let_step
  | |- _ => if_step
  end.

(** ** The client's steps *)

Section ClientSteps.

Context {sodium : Sodium}.

Lemma create_client_auth_success auth client ss cpk sls :
  Client.wf client = true ->
  length auth = SHS1_CLIENT_AUTH_BYTES ->
  crypto_scalarmult (Client.eph_sec client) (Client.get_server_eph_pub client)
  = (0%Z, ss) ->
  crypto_sign_ed25519_pk_to_curve25519 (Client.server_pub client) = (0%Z, cpk) ->
  crypto_scalarmult (Client.eph_sec client) cpk = (0%Z, sls) ->
  let hello :=
    crypto_sign_detached
      (Client.app client ++ Client.server_pub client ++ crypto_hash_sha256 ss)
      (Client.sec client)
    ++ Client.pub client in
  shs1_create_client_auth auth client
  = (0%Z,
     crypto_secretbox_easy hello zero_nonce
       (crypto_hash_sha256 (Client.app client ++ ss ++ sls)),
     Client.with_mem
       (ss ++ sls ++ hello ++ crypto_hash_sha256 ss
        ++ Client.get_server_eph_pub client)
       client).
Proof.
  intros Hwf Hauth Hss Hcpk Hsls hello. wf_client Hwf.
  pose proof (crypto_scalarmult_eq_length _ _ _ Hss) as Lss.
  pose proof (pk_to_curve25519_eq_length _ _ Hcpk) as Lcpk.
  pose proof (crypto_scalarmult_eq_length _ _ _ Hsls) as Lsls.
  getters. subst hello.
  cbv beta delta [shs1_create_client_auth client_tmp].
  repeat run_step.
  rewrite store_all by len. do 2 f_equal.
  cut5 32 32 96 32 32.
Qed.

Lemma verify_server_acc_success acc client csk cls sig :
  Client.wf client = true ->
  length acc = SHS1_SERVER_ACC_BYTES ->
  crypto_sign_ed25519_sk_to_curve25519 (Client.sec client) = (0%Z, csk) ->
  crypto_scalarmult csk (Client.get_server_eph_pub client) = (0%Z, cls) ->
  let key :=
    crypto_hash_sha256
      (Client.app client ++ Client.get_shared_secret client
       ++ Client.get_server_lterm_shared client ++ cls) in
  crypto_secretbox_open_easy acc zero_nonce key = (0%Z, sig) ->
  shs1_verify_server_acc acc client
  = ((crypto_sign_verify_detached sig
        (Client.app client ++ Client.get_hello client
         ++ Client.get_shared_hash client)
        (Client.server_pub client) =? 0)%Z,
     Client.with_mem
       (key ++ Client.get_server_lterm_shared client
        ++ sig
        ++ load (Client.hello + crypto_sign_BYTES) crypto_sign_PUBLICKEYBYTES
             (Client.mem client)
        ++ Client.get_shared_hash client
        ++ Client.get_server_eph_pub client)
       client).
Proof.
  intros Hwf Hacc Hcsk Hcls key Hsig. wf_client Hwf.
  pose proof (sk_to_curve25519_eq_length _ _ Hcsk) as Lcsk.
  pose proof (crypto_scalarmult_eq_length _ _ _ Hcls) as Lcls.
  pose proof (secretbox_open_easy_eq_length _ _ _ _ Hsig) as Lsig.
  rewrite Hacc in Lsig. subst key. getters.
  cbv beta delta [shs1_verify_server_acc client_tmp client_expected].
  repeat run_step. normal. do 2 f_equal.
  cut5 32 32 64 32 64. read2 32 32.
Qed.

Lemma verify_server_acc_eq_steps acc client :
  Client.wf client = true ->
  length acc = SHS1_SERVER_ACC_BYTES ->
  shs1_verify_server_acc acc client
  = (fst (verify_server_acc_steps acc client),
     Client.with_mem (snd (verify_server_acc_steps acc client)) client).
Proof.
  intros Hwf Hacc. wf_client Hwf.
  cbv beta delta [shs1_verify_server_acc client_tmp client_expected].
  repeat run_step;
    close_leaf ltac:(cbv beta zeta delta [verify_server_acc_steps]).
Qed.

Lemma create_client_auth_eq_steps auth client :
  Client.wf client = true ->
  length auth = SHS1_CLIENT_AUTH_BYTES ->
  shs1_create_client_auth auth client
  = (fst (create_client_auth_steps auth client),
     Client.with_mem (snd (create_client_auth_steps auth client)) client).
Proof.
  intros Hwf Hauth. wf_client Hwf.
  cbv beta delta [shs1_create_client_auth client_tmp].
  repeat run_step;
    close_leaf ltac:(cbv beta zeta delta [create_client_auth_steps]).
  rewrite store_all by len. do 2 f_equal.
  cut5 32 32 96 32 32.
Qed.

Lemma client_outcome_fields padding outcome client :
  Client.wf client = true ->
  Outcome.size padding <= length outcome ->
  let o := fst (shs1_client_outcome padding outcome client) in
  let hashed := crypto_hash_sha256 (Client.get_shared_secret client) in
  Outcome.get_encryption_key o
  = crypto_hash_sha256 (hashed ++ Client.server_pub client) /\
  Outcome.get_encryption_nonce o
  = firstn crypto_secretbox_NONCEBYTES
      (crypto_auth (Client.get_server_eph_pub client) (Client.app client)) /\
  Outcome.get_decryption_key padding o
  = crypto_hash_sha256 (hashed ++ Client.pub client) /\
  Outcome.get_decryption_nonce padding o
  = firstn crypto_secretbox_NONCEBYTES
      (crypto_auth (Client.eph_pub client) (Client.app client)).
Proof.
  intros Hwf Ho o hashed. subst o hashed. wf_client Hwf. getters.
  unfold shs1_client_outcome. proj. mem_simpl.
  split; [|split; [|split]].
  - reflexivity.
  - apply load_zero. sizes. lia.
  - reflexivity.
  - apply load_zero. sizes. lia.
Qed.

End ClientSteps.

(** ** The server's steps *)

Section ServerSteps.

Context {sodium : Sodium}.

Lemma verify_client_auth_eq_steps auth server :
  Server.wf server = true ->
  length auth = SHS1_CLIENT_AUTH_BYTES ->
  shs1_verify_client_auth auth server
  = (fst (verify_client_auth_steps auth server),
     Server.with_mem (snd (verify_client_auth_steps auth server)) server).
Proof.
  intros Hwf Hauth. wf_server Hwf.
  cbv beta delta [shs1_verify_client_auth].
  repeat run_step;
    close_leaf ltac:(cbv beta zeta delta [verify_client_auth_steps]).
Qed.

Lemma create_server_acc_eq acc server :
  Server.wf server = true ->
  length acc = SHS1_SERVER_ACC_BYTES ->
  let sig :=
    crypto_sign_detached
      (Server.app server ++ Server.get_client_hello server
       ++ Server.get_shared_hash server)
      (Server.sec server) in
  shs1_create_server_acc acc server
  = (crypto_secretbox_easy sig zero_nonce (Server.get_box_sec server),
     Server.with_mem (store Server.client_hello sig (Server.mem server))
       server).
Proof.
  intros Hwf Hacc sig. subst sig. wf_server Hwf.
  cbv beta delta [shs1_create_server_acc server_to_sign].
  repeat run_step. normal. rewrite store_all by len. reflexivity.
Qed.

Lemma server_outcome_fields padding outcome server :
  Server.wf server = true ->
  Outcome.size padding <= length outcome ->
  let o := fst (shs1_server_outcome padding outcome server) in
  let hashed := crypto_hash_sha256 (Server.get_box_sec server) in
  Outcome.get_encryption_key o
  = crypto_hash_sha256 (hashed ++ Server.get_client_pub server) /\
  Outcome.get_encryption_nonce o
  = firstn crypto_secretbox_NONCEBYTES
      (crypto_auth (Server.get_client_eph_pub server) (Server.app server)) /\
  Outcome.get_decryption_key padding o
  = crypto_hash_sha256 (hashed ++ Server.pub server) /\
  Outcome.get_decryption_nonce padding o
  = firstn crypto_secretbox_NONCEBYTES
      (crypto_auth (Server.eph_pub server) (Server.app server)).
Proof.
  intros Hwf Ho o hashed. subst o hashed. wf_server Hwf. getters.
  unfold shs1_server_outcome. proj. mem_simpl.
  split; [|split; [|split]].
  - reflexivity.
  - apply load_zero. sizes. lia.
  - reflexivity.
  - apply load_zero. sizes. lia.
Qed.

End ServerSteps.

(** ** The messages *)

Section Messages.

Context {sodium : Sodium}.

(** C7: [shs1_create_client_challenge] writes the 64 bytes
    HMAC(K, a_p) || a_p and [shs1_create_server_challenge] the 64 bytes
    HMAC(K, b_p) || b_p: the 32-byte tag of the role's own ephemeral
    public key under the application key, then that key. *)
Theorem challenge_is_tag_then_key cbuf sbuf client server :
  Client.wf client = true ->
  Server.wf server = true ->
  length cbuf = SHS1_CLIENT_CHALLENGE_BYTES ->
  length sbuf = SHS1_SERVER_CHALLENGE_BYTES ->
  let c := shs1_create_client_challenge cbuf client in
  let s := shs1_create_server_challenge sbuf server in
  c = crypto_auth (Client.eph_pub client) (Client.app client)
      ++ Client.eph_pub client /\
  s = crypto_auth (Server.eph_pub server) (Server.app server)
      ++ Server.eph_pub server /\
  length c = 64 /\ length s = 64 /\
  length (crypto_auth (Client.eph_pub client) (Client.app client)) = 32 /\
  length (crypto_auth (Server.eph_pub server) (Server.app server)) = 32.
Proof.
  intros Hc Hs Lc Ls c s. subst c s.
  rewrite (create_client_challenge_eq _ _ Hc Lc).
  rewrite (create_server_challenge_eq _ _ Hs Ls).
  wf_client Hc. wf_server Hs.
  repeat split; len.
Qed.

(** C9: when [shs1_verify_server_challenge] or
    [shs1_verify_client_challenge] returns false, the state it was given
    is unchanged: the peer's ephemeral key is copied only behind the check
    of the tag. *)
Theorem failed_challenge_keeps_state challenge client server :
  (fst (shs1_verify_server_challenge challenge client) = false ->
   snd (shs1_verify_server_challenge challenge client) = client) /\
  (fst (shs1_verify_client_challenge challenge server) = false ->
   snd (shs1_verify_client_challenge challenge server) = server).
Proof.
  unfold shs1_verify_server_challenge, shs1_verify_client_challenge.
  split;
    match goal with
    | |- context [if failed ?rc then _ else _] => destruct (failed rc)
    end; cbn [fst snd]; intros H; first [discriminate H | reflexivity].
Qed.

(** C4: when its three fallible steps succeed, [shs1_create_client_auth]
    returns 0 and fills the 112-byte buffer with
    secretbox(hello, 24 zero bytes, SHA256(K || a_s*b_p || a_s*B_p)), where
    hello is the 96 bytes sign(A_s, K || B_p || SHA256(a_s*b_p)) || A_p. *)
Theorem create_client_auth_message auth client :
  Client.wf client = true ->
  length auth = SHS1_CLIENT_AUTH_BYTES ->
  let r1 := crypto_scalarmult (Client.eph_sec client)
              (Client.get_server_eph_pub client) in
  let r2 := crypto_sign_ed25519_pk_to_curve25519 (Client.server_pub client) in
  let r3 := crypto_scalarmult (Client.eph_sec client) (output r2) in
  status r1 = 0%Z -> status r2 = 0%Z -> status r3 = 0%Z ->
  let shared_secret := output r1 in
  let server_lterm_shared := output r3 in
  let hello :=
    crypto_sign_detached
      (Client.app client ++ Client.server_pub client
       ++ crypto_hash_sha256 shared_secret)
      (Client.sec client)
    ++ Client.pub client in
  let box_key :=
    crypto_hash_sha256
      (Client.app client ++ shared_secret ++ server_lterm_shared) in
  fst (shs1_create_client_auth auth client)
  = (0%Z, crypto_secretbox_easy hello zero_nonce box_key) /\
  length hello = 96 /\
  length (crypto_secretbox_easy hello zero_nonce box_key) = 112 /\
  zero_nonce = repeat x00 24.
Proof.
  intros Hwf Hauth r1 r2 r3 S1 S2 S3 ss sls hello box_key.
  rewrite (create_client_auth_eq_steps _ _ Hwf Hauth). cbn [fst].
  unfold create_client_auth_steps. fold r1 r2 r3.
  apply failed_false in S1, S2, S3. rewrite S1, S2, S3. cbn [fst].
  subst hello box_key ss sls. wf_client Hwf.
  repeat split; len.
Qed.

(** C2 (what the code does): when the ephemeral Diffie-Hellman of
    [shs1_create_client_auth] fails, the function returns [false], which
    is the [int] 0 it also returns on success, and leaves the message
    buffer as it was; the two later failures return -1 and -2. *)
Theorem create_client_auth_return_value auth client :
  Client.wf client = true ->
  length auth = SHS1_CLIENT_AUTH_BYTES ->
  let r1 := crypto_scalarmult (Client.eph_sec client)
              (Client.get_server_eph_pub client) in
  let r2 := crypto_sign_ed25519_pk_to_curve25519 (Client.server_pub client) in
  let r3 := crypto_scalarmult (Client.eph_sec client) (output r2) in
  let rc := fst (fst (shs1_create_client_auth auth client)) in
  (status r1 <> 0%Z ->
   rc = 0%Z /\ snd (fst (shs1_create_client_auth auth client)) = auth) /\
  (status r1 = 0%Z -> status r2 <> 0%Z -> rc = (-1)%Z) /\
  (status r1 = 0%Z -> status r2 = 0%Z -> status r3 <> 0%Z -> rc = (-2)%Z) /\
  (status r1 = 0%Z -> status r2 = 0%Z -> status r3 = 0%Z -> rc = 0%Z).
Proof.
  intros Hwf Hauth r1 r2 r3 rc. subst rc.
  rewrite (create_client_auth_eq_steps _ _ Hwf Hauth). cbn [fst].
  unfold create_client_auth_steps. fold r1 r2 r3.
  repeat split; intros;
    repeat match goal with
           | H : status _ = 0%Z |- _ => apply failed_false in H; rewrite H
           | H : status _ <> 0%Z |- _ => apply failed_true in H; rewrite H
           end; reflexivity.
Qed.

(** C6: the nonces of an outcome are the first 24 bytes of an HMAC tag
    under K: for the client, [encryption_nonce] is that of b_p and
    [decryption_nonce] that of a_p; for the server, [encryption_nonce] is
    that of a_p and [decryption_nonce] that of b_p. *)
Theorem outcome_nonces_are_tag_prefixes padding oc os client server :
  Client.wf client = true ->
  Server.wf server = true ->
  Outcome.size padding <= length oc ->
  Outcome.size padding <= length os ->
  let K_c := Client.app client in
  let K_s := Server.app server in
  let outcome_c := fst (shs1_client_outcome padding oc client) in
  let outcome_s := fst (shs1_server_outcome padding os server) in
  Outcome.get_encryption_nonce outcome_c
  = firstn 24 (crypto_auth (Client.get_server_eph_pub client) K_c) /\
  Outcome.get_decryption_nonce padding outcome_c
  = firstn 24 (crypto_auth (Client.eph_pub client) K_c) /\
  Outcome.get_encryption_nonce outcome_s
  = firstn 24 (crypto_auth (Server.get_client_eph_pub server) K_s) /\
  Outcome.get_decryption_nonce padding outcome_s
  = firstn 24 (crypto_auth (Server.eph_pub server) K_s).
Proof.
  intros Hc Hs Lc Ls K_c K_s outcome_c outcome_s.
  destruct (client_outcome_fields padding oc client Hc Lc) as (_ & E1 & _ & E2).
  destruct (server_outcome_fields padding os server Hs Ls) as (_ & E3 & _ & E4).
  repeat split; assumption.
Qed.

(** C10: the copies that take two adjacent arrays in one [memcpy] (64
    bytes from [shared_secret] on, 128 bytes from [hello] or
    [client_hello] on) build the same buffers as one copy per array:
    K || shared_secret || server_lterm_shared and
    K || hello || shared_hash. *)
Theorem adjacent_copies_are_fieldwise n client server :
  Client.wf client = true ->
  Server.wf server = true ->
  crypto_auth_KEYBYTES + 2 * crypto_scalarmult_BYTES <= n ->
  client_tmp n client = client_tmp_fieldwise n client /\
  load 0 (crypto_auth_KEYBYTES + 2 * crypto_scalarmult_BYTES)
       (client_tmp n client)
  = Client.app client ++ Client.get_shared_secret client
    ++ Client.get_server_lterm_shared client /\
  client_expected client = client_expected_fieldwise client /\
  client_expected client
  = Client.app client ++ Client.get_hello client
    ++ Client.get_shared_hash client /\
  server_to_sign server = server_to_sign_fieldwise server /\
  server_to_sign server
  = Server.app server ++ Server.get_client_hello server
    ++ Server.get_shared_hash server.
Proof.
  intros Hc Hs Hn. wf_client Hc. wf_server Hs. getters.
  assert (Hn' : n = 32 + 32 + 32 + (n - 96)) by (sizes; lia).
  unfold client_tmp, client_tmp_fieldwise, client_expected,
    client_expected_fieldwise, server_to_sign, server_to_sign_fieldwise,
    memcpy.
  split; [|split; [|split; [|split; [|split]]]].
  - transitivity
      (Client.app client
       ++ load Client.shared_secret crypto_scalarmult_BYTES (Client.mem client)
       ++ load Client.server_lterm_shared crypto_scalarmult_BYTES
            (Client.mem client)
       ++ uninit (n - 96)); [|symmetry].
    all: apply (bytes_cut4 32 32 32 (n - 96)); [len | mem_simpl ..].
    all: try reflexivity.
    all: try (rewrite Client_shared_secret_adjacent; mem_simpl; reflexivity).
    all: apply load_uninit; lia.
  - rewrite Client_shared_secret_adjacent. read3 32 32 32. f_equal; len.
  - transitivity
      (Client.app client
       ++ load Client.hello HELLO_BYTES (Client.mem client)
       ++ load Client.shared_hash crypto_hash_sha256_BYTES (Client.mem client));
      [|symmetry].
    all: apply (bytes_cut3 32 96 32); [len | mem_simpl ..].
    all: try reflexivity.
    all: rewrite ?Client_hello_adjacent; mem_simpl; try reflexivity.
    all: f_equal; len.
  - rewrite Client_hello_adjacent. cut3 32 96 32. all: f_equal; len.
  - transitivity
      (Server.app server
       ++ load Server.client_hello HELLO_BYTES (Server.mem server)
       ++ load Server.shared_hash crypto_hash_sha256_BYTES (Server.mem server));
      [|symmetry].
    all: apply (bytes_cut3 32 96 32); [len | mem_simpl ..].
    all: try reflexivity.
    all: rewrite ?Server_client_hello_adjacent; mem_simpl; try reflexivity.
    all: f_equal; len.
  - rewrite Server_client_hello_adjacent. cut3 32 96 32. all: f_equal; len.
Qed.

(** C5 (amended): [shs1_verify_server_acc] returns true if and only if
    the conversion of A_s succeeds, the multiplication against b_p
    succeeds, the 80-byte message opens under the zero nonce with key
    SHA256(K || shared_secret || server_lterm_shared || client_lterm_shared),
    and the 64-byte signature found in it verifies under B_p over
    K || hello || shared_hash, which is 160 bytes long. *)
Theorem verify_server_acc_iff acc client :
  Client.wf client = true ->
  length acc = SHS1_SERVER_ACC_BYTES ->
  let r1 := crypto_sign_ed25519_sk_to_curve25519 (Client.sec client) in
  let r2 := crypto_scalarmult (output r1) (Client.get_server_eph_pub client) in
  let client_lterm_shared := output r2 in
  let final_box_key :=
    crypto_hash_sha256
      (Client.app client ++ Client.get_shared_secret client
       ++ Client.get_server_lterm_shared client ++ client_lterm_shared) in
  let r3 := crypto_secretbox_open_easy acc zero_nonce final_box_key in
  let server_sig := output r3 in
  let expected :=
    Client.app client ++ Client.get_hello client
    ++ Client.get_shared_hash client in
  (fst (shs1_verify_server_acc acc client) = true <->
   status r1 = 0%Z /\ status r2 = 0%Z /\ status r3 = 0%Z /\
   crypto_sign_verify_detached server_sig expected (Client.server_pub client)
   = 0%Z) /\
  length expected = 160 /\
  (status r3 = 0%Z -> length server_sig = 64).
Proof.
  intros Hwf Hacc r1 r2 cls key r3 sig expected.
  rewrite (verify_server_acc_eq_steps _ _ Hwf Hacc). cbn [fst].
  unfold verify_server_acc_steps. fold r1 r2. fold cls. fold key. fold r3.
  fold sig. fold expected.
  split; [|split].
  - rewrite <- !failed_false.
    destruct (failed (status r1)); cbn [fst];
      [split; [discriminate | intros (H & _); discriminate H]|].
    destruct (failed (status r2)); cbn [fst];
      [split; [discriminate | intros (_ & H & _); discriminate H]|].
    destruct (failed (status r3)); cbn [fst];
      [split; [discriminate | intros (_ & _ & H & _); discriminate H]|].
    unfold failed. rewrite negb_false_iff. tauto.
  - subst expected. wf_client Hwf. getters. len.
  - intros S3. subst sig r3.
    rewrite crypto_secretbox_open_easy_length by exact S3. len.
Qed.

(** C3 (amended): [shs1_verify_client_auth] returns true if and only if
    every step succeeds: the scalar multiplications and key conversions,
    the opening of the 112-byte message under the zero nonce with key
    SHA256(K || shared_secret || client_eph_lterm_shared), and the check of
    the first 64 bytes of the opened hello as a signature by the key in
    its last 32 bytes over K || B_p || SHA256(shared_secret).  [box_sec] is
    written on success only, and is then SHA256(K || shared_secret ||
    client_eph_lterm_shared || lterm_eph_client_shared).  [client_pub] is
    set to the last 32 bytes of the opened hello as soon as the message
    opens, also when a later step fails; it is unchanged when the message
    does not open. *)
Theorem verify_client_auth_iff auth server :
  Server.wf server = true ->
  length auth = SHS1_CLIENT_AUTH_BYTES ->
  let a_p := Server.get_client_eph_pub server in
  let r1 := crypto_scalarmult (Server.eph_sec server) a_p in
  let shared_secret := output r1 in
  let r2 := crypto_sign_ed25519_sk_to_curve25519 (Server.sec server) in
  let r3 := crypto_scalarmult (output r2) a_p in
  let client_eph_lterm_shared := output r3 in
  let r4 :=
    crypto_secretbox_open_easy auth zero_nonce
      (crypto_hash_sha256
         (Server.app server ++ shared_secret ++ client_eph_lterm_shared)) in
  let hello := output r4 in
  let A_p_client := load 64 32 hello in
  let r5 := crypto_sign_ed25519_pk_to_curve25519 A_p_client in
  let r6 := crypto_scalarmult (Server.eph_sec server) (output r5) in
  let lterm_eph_client_shared := output r6 in
  let verified :=
    crypto_sign_verify_detached (load 0 64 hello)
      (Server.app server ++ Server.pub server
       ++ crypto_hash_sha256 shared_secret)
      A_p_client in
  let opens :=
    status r1 = 0%Z /\ status r2 = 0%Z /\ status r3 = 0%Z /\
    status r4 = 0%Z in
  let res := shs1_verify_client_auth auth server in
  (fst res = true <->
   opens /\ status r5 = 0%Z /\ status r6 = 0%Z /\ verified = 0%Z) /\
  (fst res = true ->
   Server.get_box_sec (snd res)
   = crypto_hash_sha256
       (Server.app server ++ shared_secret ++ client_eph_lterm_shared
        ++ lterm_eph_client_shared)) /\
  (fst res = false -> Server.get_box_sec (snd res) = Server.get_box_sec server) /\
  (opens -> Server.get_client_pub (snd res) = A_p_client) /\
  (~ opens -> Server.get_client_pub (snd res) = Server.get_client_pub server).
Proof.
  intros Hwf Hauth a_p r1 ss r2 r3 els r4 hello A_p r5 r6 lec verified opens res.
  subst res. rewrite (verify_client_auth_eq_steps _ _ Hwf Hauth).
  cbn [fst snd]. unfold verify_client_auth_steps. wf_server Hwf.
  fold a_p. fold r1. fold ss. fold r2. fold r3. fold els. fold r4. fold hello.
  change (load crypto_sign_BYTES crypto_sign_PUBLICKEYBYTES hello) with A_p.
  fold r5. fold r6. fold lec.
  change (crypto_sign_verify_detached (load 0 crypto_sign_BYTES hello)
            (Server.app server ++ Server.pub server ++ crypto_hash_sha256 ss)
            A_p) with verified.
  pose proof (crypto_sign_ed25519_sk_to_curve25519_bound (Server.sec server))
    as B2.
  pose proof (crypto_secretbox_open_easy_bound auth zero_nonce
                (crypto_hash_sha256 (Server.app server ++ ss ++ els))) as B4.
  pose proof (crypto_secretbox_open_easy_length auth zero_nonce
                (crypto_hash_sha256 (Server.app server ++ ss ++ els))) as L4.
  pose proof (crypto_sign_ed25519_pk_to_curve25519_bound A_p) as B5.
  fold r2 in B2. fold r4 in B4, L4. fold hello in B4, L4. fold r5 in B5.
  rewrite Hauth in B4, L4.
  assert (LA : status r4 = 0%Z -> length A_p = 32).
  { intros S4. subst A_p. apply L4 in S4. len. }
  subst opens. rewrite <- !failed_false in *.
  destruct (failed (status r1)) eqn:F1; cbn [fst snd];
    [ |destruct (failed (status r2)) eqn:F2; cbn [fst snd];
    [ |destruct (failed (status r3)) eqn:F3; cbn [fst snd];
    [ |destruct (failed (status r4)) eqn:F4; cbn [fst snd];
    [ |destruct (failed (status r5)) eqn:F5; cbn [fst snd];
    [ |destruct (failed (status r6)) eqn:F6; cbn [fst snd];
    [ |destruct (failed verified) eqn:F7; cbn [fst snd] ]]]]]].
  all: try specialize (LA eq_refl); try specialize (L4 eq_refl).
  all: getters; proj.
  all: refine (conj _ (conj _ (conj _ (conj _ _)))).
  all: try solve [intuition congruence].
  all: intros; try discriminate.
  all: try solve [exfalso; intuition congruence].
  all: mem_simpl; reflexivity.
Qed.

End Messages.

(** ** Honest and dishonest runs *)

Section Runs.

Context {sodium : Sodium} {laws : SodiumLaws sodium}.


Lemma handshake_run padding K A_p A_s B_p B_s a_p a_s b_p b_s block_c block_s :
  legal K A_p A_s B_p B_s a_p a_s b_p b_s block_c block_s ->
  let client := shs1_init_client K A_p A_s a_p a_s B_p block_c in
  let server := shs1_init_server K B_p B_s b_p b_s block_s in
  exists N M,
    handshake padding client server
    = Some (fst (shs1_client_outcome padding (uninit (Outcome.size padding))
                   (Client.with_mem N client)),
            fst (shs1_server_outcome padding (uninit (Outcome.size padding))
                   (Server.with_mem M server))) /\
    length N = Client.size /\ length M = Server.size /\
    load Client.shared_secret crypto_scalarmult_BYTES N
    = load Server.box_sec crypto_hash_sha256_BYTES M /\
    load Client.server_eph_pub crypto_box_PUBLICKEYBYTES N = b_p /\
    load Server.client_eph_pub crypto_box_PUBLICKEYBYTES M = a_p /\
    load Server.client_pub crypto_sign_PUBLICKEYBYTES M = A_p.
Proof.
  intros (HK & HA & HB & Ha & Hb & Hbc & Hbs) client server.
  destruct (sign_keypair_length _ _ HA) as [LAp LAs].
  destruct (sign_keypair_length _ _ HB) as [LBp LBs].
  destruct (box_keypair_length _ _ Ha) as [Lap Las].
  destruct (box_keypair_length _ _ Hb) as [Lbp Lbs].
  assert (Hwfc : Client.wf client = true).
  { apply Client_wf_spec. cbn. tauto. }
  assert (Hwfs : Server.wf server = true).
  { apply Server_wf_spec. cbn. tauto. }
  assert (Ic : Client.app client = K /\ Client.pub client = A_p
               /\ Client.sec client = A_s /\ Client.eph_pub client = a_p
               /\ Client.eph_sec client = a_s /\ Client.server_pub client = B_p)
    by (repeat split).
  assert (Is : Server.app server = K /\ Server.pub server = B_p
               /\ Server.sec server = B_s /\ Server.eph_pub server = b_p
               /\ Server.eph_sec server = b_s)
    by (repeat split).
  destruct Ic as (Ic1 & Ic2 & Ic3 & Ic4 & Ic5 & Ic6).
  destruct Is as (Is1 & Is2 & Is3 & Is4 & Is5).
  (* the Diffie-Hellman values both sides agree on *)
  destruct (crypto_scalarmult_agree _ _ _ _ Ha Hb) as (q & Eab & Eba).
  destruct (sign_keypair_to_curve25519 _ _ HB) as (cBp & cBs & EcBp & EcBs & HcB).
  destruct (sign_keypair_to_curve25519 _ _ HA) as (cAp & cAs & EcAp & EcAs & HcA).
  destruct (crypto_scalarmult_agree _ _ _ _ Ha HcB) as (q2 & EaB & EBa).
  destruct (crypto_scalarmult_agree _ _ _ _ HcA Hb) as (q3 & EAb & EbA).
  pose proof (crypto_scalarmult_eq_length _ _ _ Eab) as Lq.
  pose proof (crypto_scalarmult_eq_length _ _ _ EaB) as Lq2.
  pose proof (crypto_scalarmult_eq_length _ _ _ EAb) as Lq3.
  pose proof (pk_to_curve25519_eq_length _ _ EcBp) as LcBp.
  pose proof (pk_to_curve25519_eq_length _ _ EcAp) as LcAp.
  pose proof (sk_to_curve25519_eq_length _ _ EcBs) as LcBs.
  pose proof (sk_to_curve25519_eq_length _ _ EcAs) as LcAs.
  (* 1. the client's challenge *)
  assert (S1 : shs1_create_client_challenge
                 (uninit SHS1_CLIENT_CHALLENGE_BYTES) client
               = crypto_auth a_p K ++ a_p).
  { rewrite create_client_challenge_eq by (assumption || len). reflexivity. }
  (* 2. the server accepts it *)
  set (M1 := load 0 Server.client_eph_pub block_s ++ a_p
             ++ load Server.client_pub
                  (crypto_sign_PUBLICKEYBYTES + crypto_hash_sha256_BYTES)
                  block_s).
  assert (S2 : shs1_verify_client_challenge (crypto_auth a_p K ++ a_p) server
               = (true, Server.with_mem M1 server)).
  { apply verify_client_challenge_success; try assumption; try len.
    apply crypto_auth_verify_spec. reflexivity. }
  assert (LM1 : length M1 = Server.size) by (subst M1; len).
  assert (GM1 : load Server.client_eph_pub crypto_box_PUBLICKEYBYTES M1 = a_p)
    by (subst M1; mem_simpl; reflexivity).
  clearbody M1.
  assert (Hwfs1 : Server.wf (Server.with_mem M1 server) = true)
    by (apply Server_wf_with_mem; assumption).
  (* 3. the server's challenge *)
  assert (S3 : shs1_create_server_challenge
                 (uninit SHS1_SERVER_CHALLENGE_BYTES) (Server.with_mem M1 server)
               = crypto_auth b_p K ++ b_p).
  { rewrite create_server_challenge_eq by (assumption || len). reflexivity. }
  (* 4. the client accepts it *)
  set (N1 := load 0 Client.server_eph_pub block_c ++ b_p).
  assert (S4 : shs1_verify_server_challenge (crypto_auth b_p K ++ b_p) client
               = (true, Client.with_mem N1 client)).
  { apply verify_server_challenge_success; try assumption; try len.
    apply crypto_auth_verify_spec. reflexivity. }
  assert (LN1 : length N1 = Client.size) by (subst N1; len).
  assert (GN1 : load Client.server_eph_pub crypto_box_PUBLICKEYBYTES N1 = b_p)
    by (subst N1; mem_simpl; reflexivity).
  clearbody N1.
  assert (Hwfc1 : Client.wf (Client.with_mem N1 client) = true)
    by (apply Client_wf_with_mem; assumption).
  (* 5. the client's auth *)
  set (hello := crypto_sign_detached (K ++ B_p ++ crypto_hash_sha256 q) A_s
                ++ A_p).
  set (K1 := crypto_hash_sha256 (K ++ q ++ q2)).
  set (auth := crypto_secretbox_easy hello zero_nonce K1).
  set (N2 := q ++ q2 ++ hello ++ crypto_hash_sha256 q ++ b_p).
  assert (S5 : shs1_create_client_auth (uninit SHS1_CLIENT_AUTH_BYTES)
                 (Client.with_mem N1 client)
               = (0%Z, auth, Client.with_mem N2 client)).
  { rewrite (create_client_auth_success _ _ q cBp q2); try assumption; try len.
    - getters. proj. rewrite GN1. reflexivity.
    - getters. proj. rewrite GN1. exact Eab. }
  assert (Lhello : length hello = HELLO_BYTES) by (subst hello; len).
  assert (Lauth : length auth = SHS1_CLIENT_AUTH_BYTES) by (subst auth; len).
  assert (LN2 : length N2 = Client.size) by (subst N2; len).
  assert (GN2 : load Client.shared_secret crypto_scalarmult_BYTES N2 = q
                /\ load Client.server_lterm_shared crypto_scalarmult_BYTES N2
                   = q2
                /\ load Client.hello HELLO_BYTES N2 = hello
                /\ load Client.shared_hash crypto_hash_sha256_BYTES N2
                   = crypto_hash_sha256 q
                /\ load Client.server_eph_pub crypto_box_PUBLICKEYBYTES N2
                   = b_p).
  { subst N2. repeat split; mem_simpl; reflexivity. }
  destruct GN2 as (G2a & G2b & G2c & G2d & G2e).
  clearbody N2.
  assert (Hwfc2 : Client.wf (Client.with_mem N2 client) = true)
    by (apply Client_wf_with_mem; assumption).
  (* 6. the server accepts it *)
  set (K2 := crypto_hash_sha256 (K ++ q ++ q2 ++ q3)).
  assert (Hsig : load 0 crypto_sign_BYTES hello
                 = crypto_sign_detached (K ++ B_p ++ crypto_hash_sha256 q) A_s)
    by (subst hello; mem_simpl; reflexivity).
  assert (HAp : load crypto_sign_BYTES crypto_sign_PUBLICKEYBYTES hello = A_p)
    by (subst hello; mem_simpl; reflexivity).
  set (M3 :=
         store Server.box_sec K2
           (store Server.shared_hash (crypto_hash_sha256 q)
              (store Server.shared_hash cAp
                 (store Server.client_pub A_p
                    (store Server.client_hello hello
                       (store Server.shared_hash K1
                          (store Server.shared_hash cBs M1))))))).
  assert (S6 : shs1_verify_client_auth auth (Server.with_mem M1 server)
               = (true, Server.with_mem M3 server)).
  { rewrite verify_client_auth_eq_steps by assumption.
    unfold verify_client_auth_steps. getters. proj.
    rewrite Is1, Is2, Is3, Is5.
    rewrite GM1, Eba. proj. rewrite failed_0.
    rewrite EcBs. proj. rewrite failed_0.
    rewrite EBa. proj. rewrite failed_0.
    fold K1. unfold auth. rewrite crypto_secretbox_open_easy_spec. proj.
    rewrite failed_0, HAp, Hsig.
    rewrite EcAp. proj. rewrite failed_0.
    rewrite EbA. proj. rewrite failed_0.
    rewrite (crypto_sign_verify_detached_spec _ _ _ HA), failed_0.
    reflexivity. }
  assert (LM3 : length M3 = Server.size) by (subst M3 K1 K2; len).
  assert (GM3 : load Server.client_hello HELLO_BYTES M3 = hello
                /\ load Server.shared_hash crypto_hash_sha256_BYTES M3
                   = crypto_hash_sha256 q
                /\ load Server.client_eph_pub crypto_box_PUBLICKEYBYTES M3
                   = a_p
                /\ load Server.client_pub crypto_sign_PUBLICKEYBYTES M3 = A_p
                /\ load Server.box_sec crypto_hash_sha256_BYTES M3 = K2).
  { subst M3 K1 K2. repeat split; mem_simpl; try reflexivity; assumption. }
  destruct GM3 as (G3a & G3b & G3c & G3d & G3e).
  clearbody M3.
  assert (Hwfs3 : Server.wf (Server.with_mem M3 server) = true)
    by (apply Server_wf_with_mem; assumption).
  (* 7. the server's acc *)
  set (sig := crypto_sign_detached (K ++ hello ++ crypto_hash_sha256 q) B_s).
  set (acc := crypto_secretbox_easy sig zero_nonce K2).
  set (M4 := store Server.client_hello sig M3).
  assert (S7 : shs1_create_server_acc (uninit SHS1_SERVER_ACC_BYTES)
                 (Server.with_mem M3 server)
               = (acc, Server.with_mem M4 server)).
  { rewrite create_server_acc_eq by (assumption || len).
    getters. proj. rewrite Is1, Is3, G3a, G3b, G3e. reflexivity. }
  assert (Lacc : length acc = SHS1_SERVER_ACC_BYTES) by (subst acc sig; len).
  assert (LM4 : length M4 = Server.size) by (subst M4 sig; len).
  assert (GM4 : load Server.client_eph_pub crypto_box_PUBLICKEYBYTES M4 = a_p
                /\ load Server.client_pub crypto_sign_PUBLICKEYBYTES M4 = A_p
                /\ load Server.box_sec crypto_hash_sha256_BYTES M4 = K2).
  { subst M4 sig. repeat split; mem_simpl; assumption. }
  destruct GM4 as (G4a & G4b & G4c).
  clearbody M4.
  (* 8. the client accepts it *)
  set (N3 := K2 ++ q2 ++ sig
             ++ load (Client.hello + crypto_sign_BYTES)
                  crypto_sign_PUBLICKEYBYTES N2
             ++ crypto_hash_sha256 q ++ b_p).
  assert (S8 : shs1_verify_server_acc acc (Client.with_mem N2 client)
               = (true, Client.with_mem N3 client)).
  { rewrite (verify_server_acc_success _ _ cAs q3 sig); try assumption.
    - getters. proj. rewrite Ic1, Ic6, G2a, G2b, G2c, G2d, G2e.
      unfold sig at 1.
      rewrite (crypto_sign_verify_detached_spec _ _ _ HB). reflexivity.
    - getters. proj. rewrite G2e. exact EAb.
    - getters. proj. rewrite Ic1, G2a, G2b. fold K2.
      apply crypto_secretbox_open_easy_spec. }
  assert (LN3 : length N3 = Client.size) by (subst N3 K2 sig; len).
  assert (GN3 : load Client.shared_secret crypto_scalarmult_BYTES N3 = K2
                /\ load Client.server_eph_pub crypto_box_PUBLICKEYBYTES N3
                   = b_p).
  { subst N3 K2 sig. split; mem_simpl; reflexivity. }
  destruct GN3 as (G5a & G5b).
  clearbody N3.
  (* the whole run *)
  exists N3, M4. split; [|repeat split; congruence].
  unfold handshake.
  rewrite S1, S2. cbn [fst snd negb].
  rewrite S3, S4. cbn [fst snd negb].
  rewrite S5. cbn [fst snd negb]. rewrite failed_0.
  rewrite S6. cbn [fst snd negb].
  rewrite S7. cbn [fst snd negb].
  rewrite S8. cbn [fst snd negb].
  reflexivity.
Qed.

(** C1: for every legal set of inputs the eight operations, run in
    protocol order, all succeed, and the two outcomes are equal and
    crossed: each side's encryption key and nonce are the other side's
    decryption key and nonce. *)
Theorem handshake_interoperates
    padding K A_p A_s B_p B_s a_p a_s b_p b_s block_c block_s :
  legal K A_p A_s B_p B_s a_p a_s b_p b_s block_c block_s ->
  let client := shs1_init_client K A_p A_s a_p a_s B_p block_c in
  let server := shs1_init_server K B_p B_s b_p b_s block_s in
  exists outcome_c outcome_s,
    handshake padding client server = Some (outcome_c, outcome_s) /\
    Outcome.get_encryption_key outcome_c
    = Outcome.get_decryption_key padding outcome_s /\
    Outcome.get_decryption_key padding outcome_c
    = Outcome.get_encryption_key outcome_s /\
    Outcome.get_encryption_nonce outcome_c
    = Outcome.get_decryption_nonce padding outcome_s /\
    Outcome.get_decryption_nonce padding outcome_c
    = Outcome.get_encryption_nonce outcome_s.
Proof.
  intros Hlegal client server.
  destruct (handshake_run padding _ _ _ _ _ _ _ _ _ _ _ Hlegal)
    as (N & M & Hrun & LN & LM & Hkey & Hbp & Hap & HAp).
  fold client server in Hrun.
  destruct Hlegal as (HK & HA & HB & Ha & Hb & Hbc & Hbs).
  destruct (sign_keypair_length _ _ HA) as [LAp LAs].
  destruct (sign_keypair_length _ _ HB) as [LBp LBs].
  destruct (box_keypair_length _ _ Ha) as [Lap Las].
  destruct (box_keypair_length _ _ Hb) as [Lbp Lbs].
  assert (Hwfc : Client.wf (Client.with_mem N client) = true).
  { apply Client_wf_spec. cbn. tauto. }
  assert (Hwfs : Server.wf (Server.with_mem M server) = true).
  { apply Server_wf_spec. cbn. tauto. }
  assert (Lo : Outcome.size padding <= length (uninit (Outcome.size padding)))
    by (rewrite length_uninit; lia).
  destruct (client_outcome_fields padding _ _ Hwfc Lo) as (C1 & C2 & C3 & C4).
  destruct (server_outcome_fields padding _ _ Hwfs Lo) as (D1 & D2 & D3 & D4).
  eexists. eexists. split; [exact Hrun|].
  rewrite C1, C2, C3, C4, D1, D2, D3, D4.
  getters. proj. rewrite Hkey, Hbp, Hap, HAp.
  repeat split.
Qed.

End Runs.

(** * Further properties

    The rest of what the twelve functions do: the accept message and the
    keys of the outcomes, the state each function leaves behind, the
    bounds of the buffers, and the bytes that are never read. *)

(** ** Reads and writes across buffers

    What the remaining functions need besides the lemmas above: writes
    that may run past the end of their buffer, and reads inside one part
    of a concatenation. *)

Lemma length_store_max off src m :
  off <= length m ->
  length (store off src m) = Nat.max (length m) (off + length src).
Proof.
  intros H. unfold store.
  rewrite !length_app, length_firstn, length_skipn. lia.
Qed.

Lemma store_zero_app src a rest :
  length src = length a -> store 0 src (a ++ rest) = src ++ rest.
Proof.
  intros H. unfold store. cbn [firstn app Nat.add]. f_equal.
  rewrite H, skipn_app, skipn_all, Nat.sub_diag. reflexivity.
Qed.

Lemma load_app_in_l off n a b :
  off + n <= length a -> load off n (a ++ b) = load off n a.
Proof.
  intros H. unfold load. rewrite skipn_app, firstn_app, length_skipn.
  replace (n - (length a - off)) with 0 by lia.
  simpl. apply app_nil_r.
Qed.

Ltac mem_more :=
  unfold memcpy;
  repeat first
    [ mem_step
    | match goal with
      | |- context [load ?o ?n (?a ++ ?b)] =>
          rewrite (@load_app_in_l o n a b) by len
      end ].

(** [mem_done] settles an equation between two reads. *)
Ltac mem_done := mem_more; first [reflexivity | f_equal; len].

Ltac cut4 a b c d :=
  apply (bytes_cut4 a b c d); [len | mem_simpl; try reflexivity ..].

(** Splitting on the status the next check of the goal inspects. *)
Ltac split_check :=
  match goal with
  | |- context [if failed ?rc then _ else _] =>
      let F := fresh "F" in destruct (failed rc) eqn:F; cbn [fst snd]
  end.

(** ** The outcome functions, resolved *)

Section Outcomes.

Context {sodium : Sodium}.

Lemma client_outcome_eq padding outcome client :
  Client.wf client = true ->
  let h := crypto_hash_sha256 (Client.get_shared_secret client) in
  let K := Client.app client in
  shs1_client_outcome padding outcome client
  = (store (Outcome.decryption_nonce padding)
       (crypto_auth (Client.eph_pub client) K)
       (store (Outcome.decryption_key padding)
          (crypto_hash_sha256 (h ++ Client.pub client))
          (store Outcome.encryption_nonce
             (crypto_auth (Client.get_server_eph_pub client) K)
             (store Outcome.encryption_key
                (crypto_hash_sha256 (h ++ Client.server_pub client))
                outcome))),
     Client.with_mem
       (load 0 Client.hello (Client.mem client) ++ h ++ Client.pub client
        ++ load (Client.hello + 64) 96 (Client.mem client))
       client).
Proof.
  intros Hwf h K. subst h K. wf_client Hwf. getters.
  unfold shs1_client_outcome. proj. mem_simpl.
  apply (f_equal2 pair); [reflexivity|].
  apply (f_equal (fun m => Client.with_mem m client)).
  cut4 64 32 32 96.
Qed.

Lemma server_outcome_eq padding outcome server :
  Server.wf server = true ->
  let h := crypto_hash_sha256 (Server.get_box_sec server) in
  let K := Server.app server in
  shs1_server_outcome padding outcome server
  = (store (Outcome.decryption_nonce padding)
       (crypto_auth (Server.eph_pub server) K)
       (store (Outcome.decryption_key padding)
          (crypto_hash_sha256 (h ++ Server.pub server))
          (store Outcome.encryption_nonce
             (crypto_auth (Server.get_client_eph_pub server) K)
             (store Outcome.encryption_key
                (crypto_hash_sha256 (h ++ Server.get_client_pub server))
                outcome))),
     Server.with_mem
       (h ++ Server.pub server ++ load 64 160 (Server.mem server))
       server).
Proof.
  intros Hwf h K. subst h K. wf_server Hwf. getters.
  unfold shs1_server_outcome. proj. mem_simpl.
  apply (f_equal2 pair); [reflexivity|].
  apply (f_equal (fun m => Server.with_mem m server)).
  cut3 32 32 160.
Qed.

(** The four writes of an outcome function, on a buffer that holds an
    outcome: the first three stay inside it, the last one ends 32 bytes
    behind the start of [decryption_nonce]. *)
Lemma outcome_stores_length padding (o a b c d : bytes) :
  Outcome.size padding <= length o ->
  length a = 32 -> length b = 32 -> length c = 32 -> length d = 32 ->
  let o3 :=
    store (Outcome.decryption_key padding) b
      (store Outcome.encryption_nonce c (store Outcome.encryption_key d o)) in
  length o3 = length o /\
  length (store (Outcome.decryption_nonce padding) a o3)
  = Nat.max (length o) (Outcome.decryption_nonce padding + 32).
Proof.
  intros Lo La Lb Lc Ld o3. subst o3.
  assert (L1 : length (store Outcome.encryption_key d o)
               = Nat.max (length o) 32)
    by (rewrite length_store_max; sizes; lia).
  assert (L2 : length (store Outcome.encryption_nonce c
                         (store Outcome.encryption_key d o))
               = Nat.max (length o) 64)
    by (rewrite length_store_max; rewrite L1; sizes; lia).
  assert (L3 : length (store (Outcome.decryption_key padding) b
                         (store Outcome.encryption_nonce c
                            (store Outcome.encryption_key d o)))
               = length o)
    by (rewrite length_store_max; rewrite L2; sizes; lia).
  split; [exact L3|].
  rewrite length_store_max; rewrite L3; sizes; lia.
Qed.

End Outcomes.

(** ** The block the fallible functions leave behind *)

Section StepLengths.

Context {sodium : Sodium}.

Lemma create_client_auth_steps_length auth client :
  Client.wf client = true ->
  length (snd (create_client_auth_steps auth client)) = Client.size.
Proof.
  intros Hwf. wf_client Hwf. unfold create_client_auth_steps. getters.
  set (r1 := crypto_scalarmult _ _).
  set (r2 := crypto_sign_ed25519_pk_to_curve25519 _).
  set (r3 := crypto_scalarmult _ (output r2)).
  pose proof (crypto_scalarmult_bound (Client.eph_sec client)
                (load Client.server_eph_pub crypto_box_PUBLICKEYBYTES
                   (Client.mem client))) as B1.
  pose proof (crypto_scalarmult_length (Client.eph_sec client)
                (load Client.server_eph_pub crypto_box_PUBLICKEYBYTES
                   (Client.mem client))) as L1.
  pose proof (crypto_scalarmult_bound (Client.eph_sec client) (output r2)) as B3.
  pose proof (crypto_scalarmult_length (Client.eph_sec client) (output r2)) as L3.
  fold r1 in B1, L1. fold r3 in B3, L3.
  rewrite <- failed_false in L1, L3.
  destruct (failed (status r1)); cbn [snd]; [len|].
  destruct (failed (status r2)); cbn [snd]; [len|].
  destruct (failed (status r3)); cbn [snd]; [len|].
  specialize (L1 eq_refl). specialize (L3 eq_refl). len.
Qed.

Lemma verify_server_acc_steps_length acc client :
  Client.wf client = true ->
  length acc = SHS1_SERVER_ACC_BYTES ->
  length (snd (verify_server_acc_steps acc client)) = Client.size.
Proof.
  intros Hwf Hacc. wf_client Hwf. unfold verify_server_acc_steps. getters.
  set (r1 := crypto_sign_ed25519_sk_to_curve25519 _).
  set (r2 := crypto_scalarmult _ _).
  set (key := crypto_hash_sha256 _).
  set (r3 := crypto_secretbox_open_easy _ _ _).
  pose proof (crypto_secretbox_open_easy_bound acc zero_nonce key) as B3.
  fold r3 in B3. rewrite Hacc in B3.
  assert (Lkey : length key = 32) by (subst key; len).
  destruct (failed (status r1)); cbn [snd]; [len|].
  destruct (failed (status r2)); cbn [snd]; [len|].
  destruct (failed (status r3)); cbn [snd]; len.
Qed.

Lemma verify_client_auth_steps_length auth server :
  Server.wf server = true ->
  length auth = SHS1_CLIENT_AUTH_BYTES ->
  length (snd (verify_client_auth_steps auth server)) = Server.size.
Proof.
  intros Hwf Hauth. wf_server Hwf. unfold verify_client_auth_steps. getters.
  set (a_p := load Server.client_eph_pub _ _).
  set (r1 := crypto_scalarmult _ a_p).
  set (r2 := crypto_sign_ed25519_sk_to_curve25519 _).
  set (r3 := crypto_scalarmult _ a_p).
  set (key := crypto_hash_sha256 _).
  set (r4 := crypto_secretbox_open_easy _ _ _).
  set (A_p := load crypto_sign_BYTES crypto_sign_PUBLICKEYBYTES (output r4)).
  set (r5 := crypto_sign_ed25519_pk_to_curve25519 _).
  set (r6 := crypto_scalarmult _ (output r5)).
  pose proof (crypto_sign_ed25519_sk_to_curve25519_bound (Server.sec server))
    as B2.
  pose proof (crypto_secretbox_open_easy_bound auth zero_nonce key) as B4.
  pose proof (crypto_secretbox_open_easy_length auth zero_nonce key) as L4.
  pose proof (crypto_sign_ed25519_pk_to_curve25519_bound A_p) as B5.
  fold r2 in B2. fold r4 in B4, L4. fold r5 in B5. rewrite Hauth in B4, L4.
  rewrite <- failed_false in L4.
  assert (Lkey : length key = 32) by (subst key; len).
  assert (LA : failed (status r4) = false -> length A_p = 32).
  { intros F. subst A_p. apply L4 in F. len. }
  destruct (failed (status r1)); cbn [snd]; [len|].
  destruct (failed (status r2)); cbn [snd]; [len|].
  destruct (failed (status r3)); cbn [snd]; [len|].
  destruct (failed (status r4)); cbn [snd]; [len|].
  specialize (LA eq_refl). specialize (L4 eq_refl).
  destruct (failed (status r5)); cbn [snd]; [len|].
  destruct (failed (status r6)); cbn [snd]; [len|].
  split_check; len.
Qed.

End StepLengths.

(** ** The outcomes *)

Section OutcomeProperties.

Context {sodium : Sodium}.

(** X3: the keys of an outcome are two hashes over 64 bytes, the hash of
    the 32 bytes the role keeps as box key followed by a long-term public
    key.  The client reads the box key from [shared_secret], encrypts
    under the server's key B_p and decrypts under its own A_p; the server
    reads it from [box_sec], encrypts under [client_pub] and decrypts
    under its own B_p. *)
Theorem outcome_keys padding oc os client server :
  Client.wf client = true ->
  Server.wf server = true ->
  Outcome.size padding <= length oc ->
  Outcome.size padding <= length os ->
  let outcome_c := fst (shs1_client_outcome padding oc client) in
  let outcome_s := fst (shs1_server_outcome padding os server) in
  let hc := crypto_hash_sha256 (Client.get_shared_secret client) in
  let hs := crypto_hash_sha256 (Server.get_box_sec server) in
  Outcome.get_encryption_key outcome_c
  = crypto_hash_sha256 (hc ++ Client.server_pub client) /\
  Outcome.get_decryption_key padding outcome_c
  = crypto_hash_sha256 (hc ++ Client.pub client) /\
  Outcome.get_encryption_key outcome_s
  = crypto_hash_sha256 (hs ++ Server.get_client_pub server) /\
  Outcome.get_decryption_key padding outcome_s
  = crypto_hash_sha256 (hs ++ Server.pub server) /\
  length (hc ++ Client.server_pub client) = 64 /\
  length (hs ++ Server.pub server) = 64.
Proof.
  intros Hc Hs Lc Ls outcome_c outcome_s hc hs.
  destruct (client_outcome_fields padding oc client Hc Lc) as (E1 & _ & E2 & _).
  destruct (server_outcome_fields padding os server Hs Ls) as (E3 & _ & E4 & _).
  wf_client Hc. wf_server Hs. subst hc hs.
  repeat split; try assumption; len.
Qed.

(** X4: the last write of an outcome function puts the whole 32-byte tag
    at the start of the 24-byte field [decryption_nonce]: the function
    writes up to 32 bytes behind the start of that field, which is 8 bytes
    past the end of an outcome that has no padding behind it. *)
Theorem outcome_tag_runs_over_nonce padding oc os client server :
  Client.wf client = true ->
  Server.wf server = true ->
  Outcome.size padding <= length oc ->
  Outcome.size padding <= length os ->
  let outcome_c := fst (shs1_client_outcome padding oc client) in
  let outcome_s := fst (shs1_server_outcome padding os server) in
  load (Outcome.decryption_nonce padding) crypto_auth_BYTES outcome_c
  = crypto_auth (Client.eph_pub client) (Client.app client) /\
  load (Outcome.decryption_nonce padding) crypto_auth_BYTES outcome_s
  = crypto_auth (Server.eph_pub server) (Server.app server) /\
  length outcome_c
  = Nat.max (length oc) (Outcome.decryption_nonce padding + crypto_auth_BYTES) /\
  length outcome_s
  = Nat.max (length os) (Outcome.decryption_nonce padding + crypto_auth_BYTES) /\
  (padding < 8 -> length oc = Outcome.size padding ->
   length outcome_c = Outcome.size padding + (8 - padding)).
Proof.
  intros Hc Hs Lc Ls outcome_c outcome_s. subst outcome_c outcome_s.
  rewrite (client_outcome_eq padding oc client Hc).
  rewrite (server_outcome_eq padding os server Hs).
  cbn [fst]. wf_client Hc. wf_server Hs.
  assert (La : forall m k, length (crypto_auth m k) = 32)
    by (intros; apply crypto_auth_length).
  assert (Lh : forall m, length (crypto_hash_sha256 m) = 32)
    by (intros; apply crypto_hash_sha256_length).
  match goal with
  | |- context [store (Outcome.decryption_nonce padding) ?a
                  (store (Outcome.decryption_key padding) ?b
                     (store Outcome.encryption_nonce ?c
                        (store Outcome.encryption_key ?d oc)))] =>
      destruct (outcome_stores_length padding oc a b c d) as [C3 C4]; auto
  end.
  match goal with
  | |- context [store (Outcome.decryption_nonce padding) ?a
                  (store (Outcome.decryption_key padding) ?b
                     (store Outcome.encryption_nonce ?c
                        (store Outcome.encryption_key ?d os)))] =>
      destruct (outcome_stores_length padding os a b c d) as [S3 S4]; auto
  end.
  refine (conj _ (conj _ (conj _ (conj _ _)))).
  - apply load_store_same; [rewrite C3; sizes; lia | now rewrite La].
  - apply load_store_same; [rewrite S3; sizes; lia | now rewrite La].
  - exact C4.
  - exact S4.
  - intros Hp Ho. rewrite C4. sizes. lia.
Qed.

(** X5: an outcome function uses the first 64 bytes of [hello] (of
    [client_hello] on the server) as scratch space: afterwards they hold
    the hash of the box key followed by the role's own long-term public
    key.  The 32 bytes behind them and every other array of the state are
    as before. *)
Theorem outcome_reuses_hello padding oc os client server :
  Client.wf client = true ->
  Server.wf server = true ->
  let client' := snd (shs1_client_outcome padding oc client) in
  let server' := snd (shs1_server_outcome padding os server) in
  Client.get_hello client'
  = crypto_hash_sha256 (Client.get_shared_secret client) ++ Client.pub client
    ++ load (Client.hello + 64) 32 (Client.mem client) /\
  Client.get_shared_secret client' = Client.get_shared_secret client /\
  Client.get_server_lterm_shared client'
  = Client.get_server_lterm_shared client /\
  Client.get_shared_hash client' = Client.get_shared_hash client /\
  Client.get_server_eph_pub client' = Client.get_server_eph_pub client /\
  Server.get_client_hello server'
  = crypto_hash_sha256 (Server.get_box_sec server) ++ Server.pub server
    ++ load (Server.client_hello + 64) 32 (Server.mem server) /\
  Server.get_shared_hash server' = Server.get_shared_hash server /\
  Server.get_client_eph_pub server' = Server.get_client_eph_pub server /\
  Server.get_client_pub server' = Server.get_client_pub server /\
  Server.get_box_sec server' = Server.get_box_sec server.
Proof.
  intros Hc Hs client' server'. subst client' server'.
  rewrite (client_outcome_eq padding oc client Hc).
  rewrite (server_outcome_eq padding os server Hs).
  cbn [snd]. wf_client Hc. wf_server Hs. getters. proj.
  refine (conj _ (conj _ (conj _ (conj _ (conj _
            (conj _ (conj _ (conj _ (conj _ _))))))))).
  all: try solve [mem_done].
  - read3 32 32 32; mem_done.
  - read3 32 32 32; mem_done.
Qed.

(** X6: an outcome can be taken again: on the state an outcome function
    leaves behind, the function fills any buffer exactly as it would have
    filled it the first time, and leaves that state as it is. *)
Theorem outcome_is_repeatable padding o1 o2 client server :
  Client.wf client = true ->
  Server.wf server = true ->
  let client' := snd (shs1_client_outcome padding o1 client) in
  let server' := snd (shs1_server_outcome padding o1 server) in
  shs1_client_outcome padding o2 client'
  = (fst (shs1_client_outcome padding o2 client), client') /\
  shs1_server_outcome padding o2 server'
  = (fst (shs1_server_outcome padding o2 server), server').
Proof.
  intros Hc Hs client' server'. subst client' server'.
  rewrite (client_outcome_eq padding o1 client Hc).
  rewrite (client_outcome_eq padding o2 client Hc).
  rewrite (server_outcome_eq padding o1 server Hs).
  rewrite (server_outcome_eq padding o2 server Hs).
  cbn [fst snd].
  pose proof Hc as Hc'. pose proof Hs as Hs'. wf_client Hc'. wf_server Hs'.
  split.
  - rewrite client_outcome_eq by (apply Client_wf_with_mem; [assumption | len]).
    getters. proj.
    match goal with
    | |- context [Client.with_mem ?M client] =>
        assert (G1 : load Client.shared_secret crypto_scalarmult_BYTES M
                     = load Client.shared_secret crypto_scalarmult_BYTES
                         (Client.mem client)) by mem_done;
        assert (G2 : load Client.server_eph_pub crypto_box_PUBLICKEYBYTES M
                     = load Client.server_eph_pub crypto_box_PUBLICKEYBYTES
                         (Client.mem client)) by mem_done
    end.
    rewrite G1, G2.
    apply (f_equal2 pair); [reflexivity|].
    apply (f_equal (fun m => Client.with_mem m client)).
    cut4 64 32 32 96; mem_done.
  - rewrite server_outcome_eq by (apply Server_wf_with_mem; [assumption | len]).
    getters. proj.
    match goal with
    | |- context [Server.with_mem ?M server] =>
        assert (G1 : load Server.box_sec crypto_hash_sha256_BYTES M
                     = load Server.box_sec crypto_hash_sha256_BYTES
                         (Server.mem server)) by mem_done;
        assert (G2 : load Server.client_pub crypto_sign_PUBLICKEYBYTES M
                     = load Server.client_pub crypto_sign_PUBLICKEYBYTES
                         (Server.mem server)) by mem_done;
        assert (G3 : load Server.client_eph_pub crypto_box_PUBLICKEYBYTES M
                     = load Server.client_eph_pub crypto_box_PUBLICKEYBYTES
                         (Server.mem server)) by mem_done
    end.
    rewrite G1, G2, G3.
    apply (f_equal2 pair); [reflexivity|].
    apply (f_equal (fun m => Server.with_mem m server)).
    cut3 32 32 160; mem_done.
Qed.

End OutcomeProperties.

(** ** The accept message *)

Section Accept.

Context {sodium : Sodium}.

(** X1: [shs1_create_server_acc] fills the 80-byte buffer with
    secretbox(sig, 24 zero bytes, box_sec), where sig is the 64-byte
    signature by B_s over the 160 bytes K || client_hello || shared_hash. *)
Theorem create_server_acc_message acc server :
  Server.wf server = true ->
  length acc = SHS1_SERVER_ACC_BYTES ->
  let to_sign :=
    Server.app server ++ Server.get_client_hello server
    ++ Server.get_shared_hash server in
  let sig := crypto_sign_detached to_sign (Server.sec server) in
  fst (shs1_create_server_acc acc server)
  = crypto_secretbox_easy sig zero_nonce (Server.get_box_sec server) /\
  length to_sign = 160 /\
  length sig = 64 /\
  length (fst (shs1_create_server_acc acc server)) = 80.
Proof.
  intros Hwf Hacc to_sign sig.
  pose proof (create_server_acc_eq acc server Hwf Hacc) as E. cbv zeta in E.
  fold to_sign in E. fold sig in E. rewrite E. cbn [fst].
  subst sig to_sign. wf_server Hwf. getters.
  split; [reflexivity|]. repeat split; len.
Qed.

(** X2: [shs1_create_server_acc] keeps the signature it has made in the
    first 64 bytes of [client_hello] and changes nothing else: the block
    of arrays is the signature followed by the old block from byte 64 on,
    so [client_eph_pub], [client_pub] and [box_sec], which
    [shs1_server_outcome] reads, are as before. *)
Theorem create_server_acc_state acc server :
  Server.wf server = true ->
  length acc = SHS1_SERVER_ACC_BYTES ->
  let sig :=
    crypto_sign_detached
      (Server.app server ++ Server.get_client_hello server
       ++ Server.get_shared_hash server)
      (Server.sec server) in
  let server' := snd (shs1_create_server_acc acc server) in
  server'
  = Server.with_mem (sig ++ skipn crypto_sign_BYTES (Server.mem server))
      server /\
  Server.get_client_eph_pub server' = Server.get_client_eph_pub server /\
  Server.get_client_pub server' = Server.get_client_pub server /\
  Server.get_box_sec server' = Server.get_box_sec server.
Proof.
  intros Hwf Hacc sig server'. subst server'.
  pose proof (create_server_acc_eq acc server Hwf Hacc) as E. cbv zeta in E.
  fold sig in E. rewrite E. cbn [snd]. clear E.
  assert (Lsig : length sig = 64) by (subst sig; apply crypto_sign_detached_length).
  wf_server Hwf. split.
  - f_equal. unfold store, Server.client_hello. cbn [firstn app Nat.add].
    now rewrite Lsig.
  - getters. proj. repeat split; mem_done.
Qed.

(** X7: taking the server's outcome after the accept message has been
    made gives the outcome it would have given before: the signature
    [shs1_create_server_acc] leaves in [client_hello] is not read. *)
Theorem server_outcome_after_acc padding outcome acc server :
  Server.wf server = true ->
  length acc = SHS1_SERVER_ACC_BYTES ->
  fst (shs1_server_outcome padding outcome
         (snd (shs1_create_server_acc acc server)))
  = fst (shs1_server_outcome padding outcome server).
Proof.
  intros Hs Hacc.
  pose proof (create_server_acc_eq acc server Hs Hacc) as E. cbv zeta in E.
  rewrite E. cbn [snd]. clear E.
  pose proof Hs as Hs'. wf_server Hs'.
  set (M := store Server.client_hello _ (Server.mem server)).
  assert (LM : length M = Server.size) by (subst M; len).
  assert (G1 : load Server.box_sec crypto_hash_sha256_BYTES M
               = load Server.box_sec crypto_hash_sha256_BYTES
                   (Server.mem server)) by (subst M; mem_done).
  assert (G2 : load Server.client_pub crypto_sign_PUBLICKEYBYTES M
               = load Server.client_pub crypto_sign_PUBLICKEYBYTES
                   (Server.mem server)) by (subst M; mem_done).
  assert (G3 : load Server.client_eph_pub crypto_box_PUBLICKEYBYTES M
               = load Server.client_eph_pub crypto_box_PUBLICKEYBYTES
                   (Server.mem server)) by (subst M; mem_done).
  rewrite server_outcome_eq by (apply Server_wf_with_mem; assumption).
  rewrite (server_outcome_eq padding outcome server Hs).
  cbn [fst]. getters. proj. rewrite G1, G2, G3. reflexivity.
Qed.

(** X8: the other order gives another message.  Once
    [shs1_server_outcome] has run, [client_hello] starts with its scratch
    bytes, and the signature inside the accept message is over
    K || SHA256(box_sec) || B_p || (bytes 64..95 of client_hello) ||
    shared_hash instead of K || client_hello || shared_hash. *)
Theorem create_server_acc_after_outcome padding outcome acc server :
  Server.wf server = true ->
  length acc = SHS1_SERVER_ACC_BYTES ->
  let server' := snd (shs1_server_outcome padding outcome server) in
  fst (shs1_create_server_acc acc server')
  = crypto_secretbox_easy
      (crypto_sign_detached
         (Server.app server
          ++ (crypto_hash_sha256 (Server.get_box_sec server)
              ++ Server.pub server
              ++ load (Server.client_hello + crypto_sign_BYTES)
                   crypto_sign_PUBLICKEYBYTES (Server.mem server))
          ++ Server.get_shared_hash server)
         (Server.sec server))
      zero_nonce (Server.get_box_sec server).
Proof.
  intros Hs Hacc server'. subst server'.
  rewrite (server_outcome_eq padding outcome server Hs). cbn [snd].
  pose proof Hs as Hs'. wf_server Hs'.
  pose proof (create_server_acc_eq acc
                (Server.with_mem
                   (crypto_hash_sha256 (Server.get_box_sec server)
                    ++ Server.pub server ++ load 64 160 (Server.mem server))
                   server)) as E.
  cbv zeta in E. rewrite E; [|apply Server_wf_with_mem; [assumption | len]
                             |assumption].
  cbn [fst]. getters. proj.
  f_equal; [|mem_done]. f_equal. f_equal. f_equal; [|mem_done].
  read3 32 32 32; mem_done.
Qed.

End Accept.

(** ** The challenges *)

Section ChallengeState.

Context {sodium : Sodium}.

(** X9: a challenge is accepted exactly when its first 32 bytes verify as
    the tag of its last 32 bytes under K; nothing else is asked of those
    32 bytes.  They then become [server_eph_pub] (on the server,
    [client_eph_pub]), and the rest of the block of arrays is as before. *)
Theorem verify_challenge_stores_key challenge client server :
  Client.wf client = true ->
  Server.wf server = true ->
  length challenge = SHS1_CLIENT_CHALLENGE_BYTES ->
  let tag := load 0 crypto_auth_BYTES challenge in
  let pk := load crypto_auth_BYTES crypto_box_PUBLICKEYBYTES challenge in
  let rc := shs1_verify_server_challenge challenge client in
  let rs := shs1_verify_client_challenge challenge server in
  (fst rc = true <-> crypto_auth_verify tag pk (Client.app client) = 0%Z) /\
  (fst rc = true ->
   Client.mem (snd rc)
   = load 0 Client.server_eph_pub (Client.mem client) ++ pk) /\
  (fst rs = true <-> crypto_auth_verify tag pk (Server.app server) = 0%Z) /\
  (fst rs = true ->
   Server.mem (snd rs)
   = load 0 Server.client_eph_pub (Server.mem server) ++ pk
     ++ load Server.client_pub
          (crypto_sign_PUBLICKEYBYTES + crypto_hash_sha256_BYTES)
          (Server.mem server)).
Proof.
  intros Hc Hs Lc tag pk rc rs. subst rc rs.
  unfold shs1_verify_server_challenge, shs1_verify_client_challenge.
  wf_client Hc. wf_server Hs. mem_simpl. fold tag pk.
  assert (Lpk : length pk = 32) by (subst pk; len).
  rewrite <- !failed_false.
  destruct (failed (crypto_auth_verify tag pk (Client.app client)));
    destruct (failed (crypto_auth_verify tag pk (Server.app server)));
    cbn [fst snd]; proj.
  all: refine (conj _ (conj _ (conj _ _))).
  all: try solve [split; congruence]; try discriminate; intros _.
  all: unfold memcpy; fold pk.
  all: match goal with
       | |- context [Client.mem] => cut2 192 32
       | |- context [Server.mem] => cut3 128 32 64
       end.
Qed.

End ChallengeState.

Section ChallengeRuns.

Context {sodium : Sodium} {laws : SodiumLaws sodium}.

(** X10: between two sides that hold the same application key, the
    challenge one side creates is accepted by the other, which then holds
    the sender's ephemeral public key; whether the keys of either side
    are key pairs plays no role. *)
Theorem challenge_round_trip cbuf sbuf client server :
  Client.wf client = true ->
  Server.wf server = true ->
  length cbuf = SHS1_CLIENT_CHALLENGE_BYTES ->
  length sbuf = SHS1_SERVER_CHALLENGE_BYTES ->
  Client.app client = Server.app server ->
  let rs :=
    shs1_verify_client_challenge
      (shs1_create_client_challenge cbuf client) server in
  let rc :=
    shs1_verify_server_challenge
      (shs1_create_server_challenge sbuf server) client in
  fst rs = true /\
  Server.get_client_eph_pub (snd rs) = Client.eph_pub client /\
  fst rc = true /\
  Client.get_server_eph_pub (snd rc) = Server.eph_pub server.
Proof.
  intros Hc Hs Lc Ls HK rs rc. subst rs rc.
  rewrite (create_client_challenge_eq _ _ Hc Lc).
  rewrite (create_server_challenge_eq _ _ Hs Ls).
  pose proof Hc as Hc'. pose proof Hs as Hs'. wf_client Hc'. wf_server Hs'.
  rewrite verify_client_challenge_success; try assumption; try len;
    [|rewrite HK; now apply crypto_auth_verify_spec].
  rewrite verify_server_challenge_success; try assumption; try len;
    [|rewrite <- HK; now apply crypto_auth_verify_spec].
  cbn [fst snd]. getters. proj.
  repeat split; mem_done.
Qed.

(** X11: a client rejects the challenge of a server that made it with
    another application key, the MAC telling the two keys apart on the
    server's ephemeral key; the client's state is then as it was. *)
Theorem wrong_app_key_rejects_server_challenge buf client server :
  Client.wf client = true ->
  Server.wf server = true ->
  length buf = SHS1_SERVER_CHALLENGE_BYTES ->
  crypto_auth (Server.eph_pub server) (Client.app client)
  <> crypto_auth (Server.eph_pub server) (Server.app server) ->
  shs1_verify_server_challenge
    (shs1_create_server_challenge buf server) client
  = (false, client).
Proof.
  intros Hc Hs Hbuf Htag.
  rewrite (create_server_challenge_eq _ _ Hs Hbuf).
  wf_client Hc. wf_server Hs.
  unfold shs1_verify_server_challenge. mem_simpl.
  split_check; [reflexivity|].
  exfalso. apply failed_false, crypto_auth_verify_spec in F.
  apply Htag. symmetry. exact F.
Qed.

End ChallengeRuns.

(** ** The state stays inside the struct *)

Section Bounds.

Context {sodium : Sodium}.

(** X12: no client function writes outside the arrays of
    [struct SHS1_Client]: given messages of the declared sizes, every
    function that changes the state leaves a block of arrays of the same
    224 bytes, on its failing paths too, whatever the primitives write
    into their output buffers before they report a failure. *)
Theorem client_state_stays_in_bounds
    challenge auth acc padding outcome client :
  Client.wf client = true ->
  length challenge = SHS1_SERVER_CHALLENGE_BYTES ->
  length auth = SHS1_CLIENT_AUTH_BYTES ->
  length acc = SHS1_SERVER_ACC_BYTES ->
  Client.wf (snd (shs1_verify_server_challenge challenge client)) = true /\
  Client.wf (snd (shs1_create_client_auth auth client)) = true /\
  Client.wf (snd (shs1_verify_server_acc acc client)) = true /\
  Client.wf (snd (shs1_client_outcome padding outcome client)) = true.
Proof.
  intros Hwf Lch Lauth Lacc.
  rewrite (create_client_auth_eq_steps _ _ Hwf Lauth).
  rewrite (verify_server_acc_eq_steps _ _ Hwf Lacc).
  rewrite (client_outcome_eq padding outcome client Hwf). cbn [snd].
  pose proof (create_client_auth_steps_length auth client Hwf) as L1.
  pose proof (verify_server_acc_steps_length acc client Hwf Lacc) as L2.
  refine (conj _ (conj _ (conj _ _))).
  - unfold shs1_verify_server_challenge.
    split_check; [assumption|].
    apply Client_wf_with_mem; [assumption|].
    wf_client Hwf. len.
  - now apply Client_wf_with_mem.
  - now apply Client_wf_with_mem.
  - apply Client_wf_with_mem; [assumption|]. wf_client Hwf. len.
Qed.

(** X13: no server function writes outside the arrays of
    [struct SHS1_Server]: given messages of the declared sizes, every
    function that changes the state leaves a block of arrays of the same
    224 bytes, on its failing paths too. *)
Theorem server_state_stays_in_bounds
    challenge auth acc padding outcome server :
  Server.wf server = true ->
  length challenge = SHS1_CLIENT_CHALLENGE_BYTES ->
  length auth = SHS1_CLIENT_AUTH_BYTES ->
  length acc = SHS1_SERVER_ACC_BYTES ->
  Server.wf (snd (shs1_verify_client_challenge challenge server)) = true /\
  Server.wf (snd (shs1_verify_client_auth auth server)) = true /\
  Server.wf (snd (shs1_create_server_acc acc server)) = true /\
  Server.wf (snd (shs1_server_outcome padding outcome server)) = true.
Proof.
  intros Hwf Lch Lauth Lacc.
  rewrite (verify_client_auth_eq_steps _ _ Hwf Lauth).
  pose proof (create_server_acc_eq acc server Hwf Lacc) as E. cbv zeta in E.
  rewrite E. clear E.
  rewrite (server_outcome_eq padding outcome server Hwf). cbn [snd].
  pose proof (verify_client_auth_steps_length auth server Hwf Lauth) as L1.
  refine (conj _ (conj _ (conj _ _))).
  - unfold shs1_verify_client_challenge.
    split_check; [assumption|].
    apply Server_wf_with_mem; [assumption|].
    wf_server Hwf. len.
  - now apply Server_wf_with_mem.
  - apply Server_wf_with_mem; [assumption|]. wf_server Hwf. len.
  - apply Server_wf_with_mem; [assumption|]. wf_server Hwf. len.
Qed.

End Bounds.

(** ** The client's state around its auth message *)

Section ClientState.

Context {sodium : Sodium}.

(** X14: when one of the three fallible steps of
    [shs1_create_client_auth] fails, the message buffer is left as it was,
    and so are [hello], [shared_hash] and [server_eph_pub]: only
    [shared_secret] and [server_lterm_shared] may have been written. *)
Theorem create_client_auth_failure_keeps_buffer auth client :
  Client.wf client = true ->
  length auth = SHS1_CLIENT_AUTH_BYTES ->
  let r1 := crypto_scalarmult (Client.eph_sec client)
              (Client.get_server_eph_pub client) in
  let r2 := crypto_sign_ed25519_pk_to_curve25519 (Client.server_pub client) in
  let r3 := crypto_scalarmult (Client.eph_sec client) (output r2) in
  let res := shs1_create_client_auth auth client in
  status r1 <> 0%Z \/ status r2 <> 0%Z \/ status r3 <> 0%Z ->
  snd (fst res) = auth /\
  Client.get_hello (snd res) = Client.get_hello client /\
  Client.get_shared_hash (snd res) = Client.get_shared_hash client /\
  Client.get_server_eph_pub (snd res) = Client.get_server_eph_pub client.
Proof.
  intros Hwf Hauth r1 r2 r3 res Hfail. subst res.
  rewrite (create_client_auth_eq_steps _ _ Hwf Hauth). cbn [fst snd].
  unfold create_client_auth_steps. fold r1 r2 r3.
  pose proof (crypto_scalarmult_bound (Client.eph_sec client)
                (Client.get_server_eph_pub client)) as B1.
  pose proof (crypto_scalarmult_bound (Client.eph_sec client) (output r2)) as B3.
  fold r1 in B1. fold r3 in B3.
  wf_client Hwf.
  destruct (failed (status r1)) eqn:F1; cbn [fst snd];
    [ |destruct (failed (status r2)) eqn:F2; cbn [fst snd];
    [ |destruct (failed (status r3)) eqn:F3; cbn [fst snd] ]].
  4: { exfalso. apply failed_false in F1, F2, F3. tauto. }
  all: getters; proj; repeat split; mem_done.
Qed.

(** X15: when its three fallible steps succeed,
    [shs1_create_client_auth] leaves every array of the client state
    defined: [shared_secret] is a_s*b_p, [server_lterm_shared] is
    a_s*curve(B_p), [hello] is sign(A_s, K || B_p || SHA256(a_s*b_p)) || A_p,
    [shared_hash] is SHA256(a_s*b_p), and [server_eph_pub] is as before. *)
Theorem create_client_auth_state auth client :
  Client.wf client = true ->
  length auth = SHS1_CLIENT_AUTH_BYTES ->
  let r1 := crypto_scalarmult (Client.eph_sec client)
              (Client.get_server_eph_pub client) in
  let r2 := crypto_sign_ed25519_pk_to_curve25519 (Client.server_pub client) in
  let r3 := crypto_scalarmult (Client.eph_sec client) (output r2) in
  let client' := snd (shs1_create_client_auth auth client) in
  status r1 = 0%Z -> status r2 = 0%Z -> status r3 = 0%Z ->
  Client.get_shared_secret client' = output r1 /\
  Client.get_server_lterm_shared client' = output r3 /\
  Client.get_hello client'
  = crypto_sign_detached
      (Client.app client ++ Client.server_pub client
       ++ crypto_hash_sha256 (output r1))
      (Client.sec client)
    ++ Client.pub client /\
  Client.get_shared_hash client' = crypto_hash_sha256 (output r1) /\
  Client.get_server_eph_pub client' = Client.get_server_eph_pub client.
Proof.
  intros Hwf Hauth r1 r2 r3 client' S1 S2 S3. subst client'.
  rewrite (create_client_auth_eq_steps _ _ Hwf Hauth). cbn [snd].
  unfold create_client_auth_steps. fold r1 r2 r3.
  pose proof (crypto_scalarmult_length _ _ S1) as L1.
  pose proof (crypto_scalarmult_length _ _ S3) as L3.
  fold r1 in L1. fold r3 in L3.
  apply failed_false in S1, S2, S3. rewrite S1, S2, S3. cbn [snd].
  wf_client Hwf. getters. proj.
  repeat split; mem_done.
Qed.

(** X16: [shs1_verify_server_acc] leaves the state as it was when the
    conversion of A_s or the multiplication against b_p fails.  Once both
    have succeeded it has overwritten [shared_secret] with the final box
    key, whether the message then opens or not and whether the signature
    then verifies or not; when the message opens, the first 64 bytes of
    [hello] hold the signature found in it.  [server_lterm_shared],
    [shared_hash] and [server_eph_pub] are as before. *)
Theorem verify_server_acc_state acc client :
  Client.wf client = true ->
  length acc = SHS1_SERVER_ACC_BYTES ->
  let r1 := crypto_sign_ed25519_sk_to_curve25519 (Client.sec client) in
  let r2 := crypto_scalarmult (output r1) (Client.get_server_eph_pub client) in
  let final_box_key :=
    crypto_hash_sha256
      (Client.app client ++ Client.get_shared_secret client
       ++ Client.get_server_lterm_shared client ++ output r2) in
  let r3 := crypto_secretbox_open_easy acc zero_nonce final_box_key in
  let client' := snd (shs1_verify_server_acc acc client) in
  (status r1 <> 0%Z \/ status r2 <> 0%Z -> client' = client) /\
  (status r1 = 0%Z -> status r2 = 0%Z ->
   Client.get_shared_secret client' = final_box_key /\
   Client.get_server_lterm_shared client'
   = Client.get_server_lterm_shared client /\
   Client.get_shared_hash client' = Client.get_shared_hash client /\
   Client.get_server_eph_pub client' = Client.get_server_eph_pub client /\
   (status r3 = 0%Z ->
    Client.get_hello client'
    = output r3
      ++ load (Client.hello + crypto_sign_BYTES) crypto_sign_PUBLICKEYBYTES
           (Client.mem client))).
Proof.
  intros Hwf Hacc r1 r2 key r3 client'. subst client'.
  rewrite (verify_server_acc_eq_steps _ _ Hwf Hacc). cbn [snd].
  unfold verify_server_acc_steps. fold r1 r2. fold key. fold r3.
  pose proof (crypto_secretbox_open_easy_bound acc zero_nonce key) as B3.
  pose proof (crypto_secretbox_open_easy_length acc zero_nonce key) as L3.
  fold r3 in B3, L3. rewrite Hacc in B3, L3.
  assert (Lkey : length key = 32) by (subst key; apply crypto_hash_sha256_length).
  rewrite <- !failed_false. rewrite <- failed_false in L3.
  pose proof Hwf as Hwf'. wf_client Hwf'.
  destruct (failed (status r1)) eqn:F1; cbn [snd];
    [ |destruct (failed (status r2)) eqn:F2; cbn [snd]].
  - split; [intros _; apply Client_with_mem_mem | discriminate].
  - split; [intros _; apply Client_with_mem_mem | discriminate].
  - split; [intros [H|H]; now elim H|]. intros _ _.
    destruct (failed (status r3)) eqn:F3; cbn [snd]; getters; proj.
    + refine (conj _ (conj _ (conj _ (conj _ _)))); try discriminate; mem_done.
    + specialize (L3 eq_refl).
      refine (conj _ (conj _ (conj _ (conj _ _)))); try mem_done.
      intros _. read2 64 32; mem_done.
Qed.

(** X17: the outcome a client takes after [shs1_verify_server_acc] has
    returned true: with final_box_key = SHA256(K || shared_secret ||
    server_lterm_shared || A_s*b_p), as that function computed it, the
    encryption key is SHA256(SHA256(final_box_key) || B_p), the decryption
    key SHA256(SHA256(final_box_key) || A_p), and the nonces are the first
    24 bytes of the tags of b_p and of a_p under K. *)
Theorem client_outcome_after_acc padding outcome acc client :
  Client.wf client = true ->
  length acc = SHS1_SERVER_ACC_BYTES ->
  Outcome.size padding <= length outcome ->
  let r1 := crypto_sign_ed25519_sk_to_curve25519 (Client.sec client) in
  let r2 := crypto_scalarmult (output r1) (Client.get_server_eph_pub client) in
  let final_box_key :=
    crypto_hash_sha256
      (Client.app client ++ Client.get_shared_secret client
       ++ Client.get_server_lterm_shared client ++ output r2) in
  let res := shs1_verify_server_acc acc client in
  let o := fst (shs1_client_outcome padding outcome (snd res)) in
  fst res = true ->
  Outcome.get_encryption_key o
  = crypto_hash_sha256
      (crypto_hash_sha256 final_box_key ++ Client.server_pub client) /\
  Outcome.get_decryption_key padding o
  = crypto_hash_sha256
      (crypto_hash_sha256 final_box_key ++ Client.pub client) /\
  Outcome.get_encryption_nonce o
  = firstn crypto_secretbox_NONCEBYTES
      (crypto_auth (Client.get_server_eph_pub client) (Client.app client)) /\
  Outcome.get_decryption_nonce padding o
  = firstn crypto_secretbox_NONCEBYTES
      (crypto_auth (Client.eph_pub client) (Client.app client)).
Proof.
  intros Hwf Hacc Ho r1 r2 key res o Hres. subst o res.
  pose proof (verify_server_acc_steps_length acc client Hwf Hacc) as Lm.
  revert Hres Lm. rewrite (verify_server_acc_eq_steps _ _ Hwf Hacc).
  cbn [fst snd]. unfold verify_server_acc_steps. fold r1 r2. fold key.
  set (r3 := crypto_secretbox_open_easy acc zero_nonce key).
  pose proof (crypto_secretbox_open_easy_length acc zero_nonce key) as L3.
  fold r3 in L3. rewrite Hacc, <- failed_false in L3.
  assert (Lkey : length key = 32) by (subst key; apply crypto_hash_sha256_length).
  destruct (failed (status r1)); cbn [fst snd]; [discriminate|].
  destruct (failed (status r2)); cbn [fst snd]; [discriminate|].
  destruct (failed (status r3)); cbn [fst snd]; [discriminate|].
  intros _ Lm. specialize (L3 eq_refl).
  match goal with
  | |- context [Client.with_mem ?M client] =>
      destruct (client_outcome_fields padding outcome (Client.with_mem M client))
        as (E1 & E2 & E3 & E4);
      [apply Client_wf_with_mem; assumption | assumption |];
      assert (G1 : load Client.shared_secret crypto_scalarmult_BYTES M = key)
        by (wf_client Hwf; mem_done);
      assert (G2 : load Client.server_eph_pub crypto_box_PUBLICKEYBYTES M
                   = load Client.server_eph_pub crypto_box_PUBLICKEYBYTES
                       (Client.mem client))
        by (wf_client Hwf; mem_done)
  end.
  rewrite E1, E2, E3, E4. clear E1 E2 E3 E4.
  getters. proj. rewrite G1, G2. repeat split.
Qed.

End ClientState.

(** ** The server's state around the auth message *)

Section ServerState.

Context {sodium : Sodium}.

(** X18: [shs1_verify_client_auth] never changes [client_eph_pub], and
    leaves the whole state as it was when the first multiplication
    fails.  When it returns true, [client_hello] holds the 96 bytes found
    in the message and [shared_hash] holds SHA256(b_s*a_p): what
    [shs1_create_server_acc] signs. *)
Theorem verify_client_auth_state auth server :
  Server.wf server = true ->
  length auth = SHS1_CLIENT_AUTH_BYTES ->
  let a_p := Server.get_client_eph_pub server in
  let r1 := crypto_scalarmult (Server.eph_sec server) a_p in
  let r2 := crypto_sign_ed25519_sk_to_curve25519 (Server.sec server) in
  let r3 := crypto_scalarmult (output r2) a_p in
  let r4 :=
    crypto_secretbox_open_easy auth zero_nonce
      (crypto_hash_sha256 (Server.app server ++ output r1 ++ output r3)) in
  let res := shs1_verify_client_auth auth server in
  Server.get_client_eph_pub (snd res) = a_p /\
  (status r1 <> 0%Z -> snd res = server) /\
  (fst res = true ->
   Server.get_client_hello (snd res) = output r4 /\
   Server.get_shared_hash (snd res) = crypto_hash_sha256 (output r1)).
Proof.
  intros Hwf Hauth a_p r1 r2 r3 r4 res. subst res.
  rewrite (verify_client_auth_eq_steps _ _ Hwf Hauth).
  cbn [fst snd]. unfold verify_client_auth_steps.
  fold a_p. fold r1. fold r2. fold r3. fold r4.
  set (A_p := load crypto_sign_BYTES crypto_sign_PUBLICKEYBYTES (output r4)).
  set (r5 := crypto_sign_ed25519_pk_to_curve25519 A_p).
  set (r6 := crypto_scalarmult (Server.eph_sec server) (output r5)).
  pose proof (crypto_sign_ed25519_sk_to_curve25519_bound (Server.sec server))
    as B2.
  pose proof (crypto_secretbox_open_easy_bound auth zero_nonce
                (crypto_hash_sha256
                   (Server.app server ++ output r1 ++ output r3))) as B4.
  pose proof (crypto_secretbox_open_easy_length auth zero_nonce
                (crypto_hash_sha256
                   (Server.app server ++ output r1 ++ output r3))) as L4.
  pose proof (crypto_sign_ed25519_pk_to_curve25519_bound A_p) as B5.
  fold r2 in B2. fold r4 in B4, L4. fold r5 in B5. rewrite Hauth in B4, L4.
  set (key := crypto_hash_sha256 (Server.app server ++ output r1 ++ output r3)).
  assert (Lkey : length key = 32) by (subst key; apply crypto_hash_sha256_length).
  assert (LA : status r4 = 0%Z -> length A_p = 32).
  { intros S4. subst A_p. apply L4 in S4. len. }
  rewrite <- failed_false in L4, LA. rewrite <- failed_true.
  pose proof Hwf as Hwf'. wf_server Hwf'. subst a_p.
  destruct (failed (status r1)) eqn:F1; cbn [fst snd];
    [ |destruct (failed (status r2)) eqn:F2; cbn [fst snd];
    [ |destruct (failed (status r3)) eqn:F3; cbn [fst snd];
    [ |destruct (failed (status r4)) eqn:F4; cbn [fst snd];
    [ |destruct (failed (status r5)) eqn:F5; cbn [fst snd];
    [ |destruct (failed (status r6)) eqn:F6; cbn [fst snd];
    [ |split_check ]]]]]].
  all: try specialize (LA eq_refl); try specialize (L4 eq_refl).
  all: getters; proj.
  all: refine (conj _ (conj _ _)).
  all: try discriminate.
  all: try solve [intros _; apply Server_with_mem_mem].
  all: try solve [mem_done].
  intros _. split; mem_done.
Qed.

(** X19: the outcome a server takes after [shs1_verify_client_auth] has
    returned true: with box_sec = SHA256(K || b_s*a_p || B_s*a_p ||
    b_s*curve(A_p)), A_p being the last 32 bytes of the opened hello, the
    encryption key is SHA256(SHA256(box_sec) || A_p), the decryption key
    SHA256(SHA256(box_sec) || B_p), and the nonces are the first 24 bytes
    of the tags of a_p and of b_p under K. *)
Theorem server_outcome_after_auth padding outcome auth server :
  Server.wf server = true ->
  length auth = SHS1_CLIENT_AUTH_BYTES ->
  Outcome.size padding <= length outcome ->
  let a_p := Server.get_client_eph_pub server in
  let r1 := crypto_scalarmult (Server.eph_sec server) a_p in
  let r2 := crypto_sign_ed25519_sk_to_curve25519 (Server.sec server) in
  let r3 := crypto_scalarmult (output r2) a_p in
  let r4 :=
    crypto_secretbox_open_easy auth zero_nonce
      (crypto_hash_sha256 (Server.app server ++ output r1 ++ output r3)) in
  let A_p_client :=
    load crypto_sign_BYTES crypto_sign_PUBLICKEYBYTES (output r4) in
  let r5 := crypto_sign_ed25519_pk_to_curve25519 A_p_client in
  let r6 := crypto_scalarmult (Server.eph_sec server) (output r5) in
  let box_sec :=
    crypto_hash_sha256
      (Server.app server ++ output r1 ++ output r3 ++ output r6) in
  let res := shs1_verify_client_auth auth server in
  let o := fst (shs1_server_outcome padding outcome (snd res)) in
  fst res = true ->
  Outcome.get_encryption_key o
  = crypto_hash_sha256 (crypto_hash_sha256 box_sec ++ A_p_client) /\
  Outcome.get_decryption_key padding o
  = crypto_hash_sha256 (crypto_hash_sha256 box_sec ++ Server.pub server) /\
  Outcome.get_encryption_nonce o
  = firstn crypto_secretbox_NONCEBYTES (crypto_auth a_p (Server.app server)) /\
  Outcome.get_decryption_nonce padding o
  = firstn crypto_secretbox_NONCEBYTES
      (crypto_auth (Server.eph_pub server) (Server.app server)).
Proof.
  intros Hwf Hauth Ho a_p r1 r2 r3 r4 A_p r5 r6 box_sec res o Hres.
  subst o res.
  pose proof (verify_client_auth_steps_length auth server Hwf Hauth) as Lm.
  revert Hres Lm. rewrite (verify_client_auth_eq_steps _ _ Hwf Hauth).
  cbn [fst snd]. unfold verify_client_auth_steps.
  fold a_p. fold r1. fold r2. fold r3. fold r4. fold A_p. fold r5. fold r6.
  fold box_sec.
  pose proof (crypto_sign_ed25519_sk_to_curve25519_bound (Server.sec server))
    as B2.
  pose proof (crypto_secretbox_open_easy_length auth zero_nonce
                (crypto_hash_sha256
                   (Server.app server ++ output r1 ++ output r3))) as L4.
  pose proof (crypto_sign_ed25519_pk_to_curve25519_bound A_p) as B5.
  fold r2 in B2. fold r4 in L4. fold r5 in B5. rewrite Hauth in L4.
  set (key := crypto_hash_sha256 (Server.app server ++ output r1 ++ output r3)).
  assert (Lkey : length key = 32) by (subst key; apply crypto_hash_sha256_length).
  assert (Lbox : length box_sec = 32)
    by (subst box_sec; apply crypto_hash_sha256_length).
  assert (LA : status r4 = 0%Z -> length A_p = 32).
  { intros S4. subst A_p. apply L4 in S4. len. }
  rewrite <- failed_false in L4, LA.
  destruct (failed (status r1)); cbn [fst snd]; [discriminate|].
  destruct (failed (status r2)); cbn [fst snd]; [discriminate|].
  destruct (failed (status r3)); cbn [fst snd]; [discriminate|].
  destruct (failed (status r4)); cbn [fst snd]; [discriminate|].
  destruct (failed (status r5)); cbn [fst snd]; [discriminate|].
  destruct (failed (status r6)); cbn [fst snd]; [discriminate|].
  split_check; [discriminate|].
  intros _ Lm. specialize (L4 eq_refl). specialize (LA eq_refl).
  match goal with
  | |- context [Server.with_mem ?M server] =>
      destruct (server_outcome_fields padding outcome (Server.with_mem M server))
        as (E1 & E2 & E3 & E4);
      [apply Server_wf_with_mem; assumption | assumption |];
      assert (G1 : load Server.box_sec crypto_hash_sha256_BYTES M = box_sec)
        by (wf_server Hwf; mem_done);
      assert (G2 : load Server.client_pub crypto_sign_PUBLICKEYBYTES M = A_p)
        by (wf_server Hwf; mem_done);
      assert (G3 : load Server.client_eph_pub crypto_box_PUBLICKEYBYTES M = a_p)
        by (wf_server Hwf; subst a_p; getters; mem_done)
  end.
  rewrite E1, E2, E3, E4. clear E1 E2 E3 E4.
  getters. proj. rewrite G1, G2, G3. repeat split.
Qed.

End ServerState.

(** ** The message buffers *)

Section Buffers.

Context {sodium : Sodium}.

(** X20: the verifying functions read the bytes of their message and no
    more: 64 bytes of a challenge, 112 of an auth message, 80 of an accept
    message.  What follows them in the buffer changes neither the result
    nor the state. *)
Theorem verify_reads_its_message_only challenge auth acc rest client server :
  length challenge = SHS1_CLIENT_CHALLENGE_BYTES ->
  length auth = SHS1_CLIENT_AUTH_BYTES ->
  length acc = SHS1_SERVER_ACC_BYTES ->
  shs1_verify_server_challenge (challenge ++ rest) client
  = shs1_verify_server_challenge challenge client /\
  shs1_verify_client_challenge (challenge ++ rest) server
  = shs1_verify_client_challenge challenge server /\
  shs1_verify_client_auth (auth ++ rest) server
  = shs1_verify_client_auth auth server /\
  shs1_verify_server_acc (acc ++ rest) client
  = shs1_verify_server_acc acc client.
Proof.
  intros Lch Lauth Lacc.
  assert (E1 : load 0 crypto_auth_BYTES (challenge ++ rest)
               = load 0 crypto_auth_BYTES challenge)
    by (apply load_app_in_l; len).
  assert (E2 : load crypto_auth_BYTES crypto_box_PUBLICKEYBYTES
                 (challenge ++ rest)
               = load crypto_auth_BYTES crypto_box_PUBLICKEYBYTES challenge)
    by (apply load_app_in_l; len).
  assert (E3 : load 0 SHS1_CLIENT_AUTH_BYTES (auth ++ rest)
               = load 0 SHS1_CLIENT_AUTH_BYTES auth)
    by (apply load_app_in_l; len).
  assert (E4 : load 0 SHS1_SERVER_ACC_BYTES (acc ++ rest)
               = load 0 SHS1_SERVER_ACC_BYTES acc)
    by (apply load_app_in_l; len).
  refine (conj _ (conj _ (conj _ _))).
  - unfold shs1_verify_server_challenge, memcpy. now rewrite E1, E2.
  - unfold shs1_verify_client_challenge, memcpy. now rewrite E1, E2.
  - cbv beta delta [shs1_verify_client_auth]. now rewrite E3.
  - cbv beta delta [shs1_verify_server_acc]. now rewrite E4.
Qed.

(** X21: the creating functions write the bytes of their message and no
    more: in a longer buffer, what follows the 64, 112 or 80 bytes of the
    message is left as it was, on the failing paths of
    [shs1_create_client_auth] too, and the state and the value returned
    are those of the call on a buffer of the exact size. *)
Theorem create_writes_its_message_only
    cbuf sbuf abuf accbuf rest client server :
  Client.wf client = true ->
  Server.wf server = true ->
  length cbuf = SHS1_CLIENT_CHALLENGE_BYTES ->
  length sbuf = SHS1_SERVER_CHALLENGE_BYTES ->
  length abuf = SHS1_CLIENT_AUTH_BYTES ->
  length accbuf = SHS1_SERVER_ACC_BYTES ->
  shs1_create_client_challenge (cbuf ++ rest) client
  = shs1_create_client_challenge cbuf client ++ rest /\
  shs1_create_server_challenge (sbuf ++ rest) server
  = shs1_create_server_challenge sbuf server ++ rest /\
  shs1_create_client_auth (abuf ++ rest) client
  = (let r := shs1_create_client_auth abuf client in
     (fst (fst r), snd (fst r) ++ rest, snd r)) /\
  shs1_create_server_acc (accbuf ++ rest) server
  = (let r := shs1_create_server_acc accbuf server in
     (fst r ++ rest, snd r)).
Proof.
  intros Hc Hs Lc Ls La Lacc.
  rewrite (create_client_challenge_eq _ _ Hc Lc).
  rewrite (create_server_challenge_eq _ _ Hs Ls).
  rewrite (create_client_auth_eq_steps _ _ Hc La).
  pose proof (create_server_acc_eq accbuf server Hs Lacc) as E.
  cbv zeta in E. rewrite E. clear E. cbv zeta. cbn [fst snd].
  pose proof Hc as Hc'. pose proof Hs as Hs'. wf_client Hc'. wf_server Hs'.
  refine (conj _ (conj _ (conj _ _))).
  - unfold shs1_create_client_challenge. rewrite <- app_assoc.
    cut3 32 32 (length rest); mem_done.
  - unfold shs1_create_server_challenge. rewrite <- app_assoc.
    cut3 32 32 (length rest); mem_done.
  - cbv beta delta [shs1_create_client_auth client_tmp].
    repeat run_step;
      close_leaf ltac:(cbv beta zeta delta [create_client_auth_steps]).
    rewrite store_zero_app by len. do 2 f_equal.
    cut5 32 32 96 32 32.
  - cbv beta delta [shs1_create_server_acc server_to_sign].
    repeat run_step. normal. rewrite store_zero_app by len. reflexivity.
Qed.

End Buffers.

(** ** Arrays that were never written *)

Section Stale.

Context {sodium : Sodium}.

(** Of the block of arrays, the auth steps read the peer's ephemeral key
    before anything else is written. *)
Lemma create_client_auth_steps_peer auth client block :
  load Client.server_eph_pub crypto_box_PUBLICKEYBYTES block
  = Client.get_server_eph_pub client ->
  fst (create_client_auth_steps auth (Client.with_mem block client))
  = fst (create_client_auth_steps auth client).
Proof.
  intros E. unfold create_client_auth_steps. getters. proj. rewrite E.
  repeat split_check; reflexivity.
Qed.

Lemma verify_client_auth_steps_peer auth server block :
  load Server.client_eph_pub crypto_box_PUBLICKEYBYTES block
  = Server.get_client_eph_pub server ->
  fst (verify_client_auth_steps auth (Server.with_mem block server))
  = fst (verify_client_auth_steps auth server).
Proof.
  intros E. unfold verify_client_auth_steps. getters. proj. rewrite E.
  repeat split_check; reflexivity.
Qed.

Lemma verify_client_auth_steps_block auth server block :
  Server.wf server = true ->
  length auth = SHS1_CLIENT_AUTH_BYTES ->
  length block = Server.size ->
  load Server.client_eph_pub crypto_box_PUBLICKEYBYTES block
  = Server.get_client_eph_pub server ->
  fst (verify_client_auth_steps auth server) = true ->
  snd (verify_client_auth_steps auth (Server.with_mem block server))
  = snd (verify_client_auth_steps auth server).
Proof.
  intros Hs Lauth Ls Es.
  unfold verify_client_auth_steps. getters. proj. rewrite Es.
  set (a_p := load Server.client_eph_pub _ (Server.mem server)).
  set (r1 := crypto_scalarmult (Server.eph_sec server) a_p).
  set (r2 := crypto_sign_ed25519_sk_to_curve25519 _).
  set (r3 := crypto_scalarmult (output r2) a_p).
  set (r4 := crypto_secretbox_open_easy _ _ _).
  set (A_p := load crypto_sign_BYTES crypto_sign_PUBLICKEYBYTES (output r4)).
  set (r5 := crypto_sign_ed25519_pk_to_curve25519 A_p).
  set (r6 := crypto_scalarmult (Server.eph_sec server) (output r5)).
  pose proof (crypto_scalarmult_length (Server.eph_sec server) a_p) as L1.
  pose proof (crypto_sign_ed25519_sk_to_curve25519_length (Server.sec server))
    as L2.
  pose proof (crypto_secretbox_open_easy_length auth zero_nonce
                (crypto_hash_sha256
                   (Server.app server ++ output r1 ++ output r3))) as L4.
  pose proof (crypto_sign_ed25519_pk_to_curve25519_length A_p) as L5.
  fold r1 in L1. fold r2 in L2. fold r4 in L4. fold r5 in L5.
  rewrite Lauth in L4. rewrite <- failed_false in L1, L2, L4, L5.
  destruct (failed (status r1)); cbn [fst snd]; [discriminate|].
  destruct (failed (status r2)); cbn [fst snd]; [discriminate|].
  destruct (failed (status r3)); cbn [fst snd]; [discriminate|].
  destruct (failed (status r4)); cbn [fst snd]; [discriminate|].
  destruct (failed (status r5)); cbn [fst snd]; [discriminate|].
  destruct (failed (status r6)); cbn [fst snd]; [discriminate|].
  split_check; [discriminate|].
  intros _. specialize (L1 eq_refl). specialize (L2 eq_refl).
  specialize (L4 eq_refl). specialize (L5 eq_refl).
  assert (LA : length A_p = 32) by (subst A_p; len).
  wf_server Hs.
  transitivity
    (output r4 ++ crypto_hash_sha256 (output r1) ++ a_p ++ A_p
     ++ crypto_hash_sha256
          (Server.app server ++ output r1 ++ output r3 ++ output r6));
    [|symmetry].
  all: apply (bytes_cut5 96 32 32 32 32); [len | ..].
  all: mem_more; try reflexivity.
  exact Es.
Qed.

(** X22: of the block of arrays, [shs1_create_client_auth] and
    [shs1_verify_client_auth] read only the peer's ephemeral key: on two
    states that agree on it and on the input buffers they return the same
    value and produce the same message, whatever the other arrays hold,
    and a successful [shs1_verify_client_auth] leaves the same state. *)
Theorem auth_ignores_stale_arrays auth client server block_c block_s :
  Client.wf client = true ->
  Server.wf server = true ->
  length auth = SHS1_CLIENT_AUTH_BYTES ->
  length block_c = Client.size ->
  length block_s = Server.size ->
  load Client.server_eph_pub crypto_box_PUBLICKEYBYTES block_c
  = Client.get_server_eph_pub client ->
  load Server.client_eph_pub crypto_box_PUBLICKEYBYTES block_s
  = Server.get_client_eph_pub server ->
  let rc := shs1_create_client_auth auth client in
  let rc' := shs1_create_client_auth auth (Client.with_mem block_c client) in
  let rs := shs1_verify_client_auth auth server in
  let rs' := shs1_verify_client_auth auth (Server.with_mem block_s server) in
  fst rc' = fst rc /\
  fst rs' = fst rs /\
  (fst rs = true -> snd rs' = snd rs).
Proof.
  intros Hc Hs Lauth Lc Ls Ec Es rc rc' rs rs'. subst rc rc' rs rs'.
  assert (Hc' : Client.wf (Client.with_mem block_c client) = true)
    by (apply Client_wf_with_mem; assumption).
  assert (Hs' : Server.wf (Server.with_mem block_s server) = true)
    by (apply Server_wf_with_mem; assumption).
  rewrite (create_client_auth_eq_steps _ _ Hc Lauth).
  rewrite (create_client_auth_eq_steps _ _ Hc' Lauth).
  rewrite (verify_client_auth_eq_steps _ _ Hs Lauth).
  rewrite (verify_client_auth_eq_steps _ _ Hs' Lauth).
  cbn [fst snd].
  refine (conj _ (conj _ _)).
  - now apply create_client_auth_steps_peer.
  - now apply verify_client_auth_steps_peer.
  - intros Hok.
    rewrite (verify_client_auth_steps_block auth server block_s) by assumption.
    reflexivity.
Qed.

(** X23: what [malloc] left in the block a state was made of does not
    show.  Two states made by [shs1_init_client] (by [shs1_init_server])
    from the same inputs and two different blocks accept the same
    challenges, and after an accepted challenge they produce the same auth
    message with the same return value (they give the same verdict on an
    auth message). *)
Theorem malloc_block_is_never_read
    K A_p A_s a_p a_s B_p B_s b_p b_s block_c block_c' block_s block_s'
    challenge auth :
  let c := shs1_init_client K A_p A_s a_p a_s B_p block_c in
  let c' := shs1_init_client K A_p A_s a_p a_s B_p block_c' in
  let s := shs1_init_server K B_p B_s b_p b_s block_s in
  let s' := shs1_init_server K B_p B_s b_p b_s block_s' in
  Client.wf c = true -> Client.wf c' = true ->
  Server.wf s = true -> Server.wf s' = true ->
  length challenge = SHS1_CLIENT_CHALLENGE_BYTES ->
  length auth = SHS1_CLIENT_AUTH_BYTES ->
  let vc := shs1_verify_server_challenge challenge c in
  let vc' := shs1_verify_server_challenge challenge c' in
  let vs := shs1_verify_client_challenge challenge s in
  let vs' := shs1_verify_client_challenge challenge s' in
  fst vc' = fst vc /\
  fst vs' = fst vs /\
  (fst vc = true ->
   fst (shs1_create_client_auth auth (snd vc'))
   = fst (shs1_create_client_auth auth (snd vc))) /\
  (fst vs = true ->
   fst (shs1_verify_client_auth auth (snd vs'))
   = fst (shs1_verify_client_auth auth (snd vs))).
Proof.
  intros c c' s s' Hc Hc' Hs Hs' Lch Lauth vc vc' vs vs'.
  subst vc vc' vs vs'.
  unfold shs1_verify_server_challenge, shs1_verify_client_challenge.
  change (Client.app c') with (Client.app c).
  change (Server.app s') with (Server.app s).
  pose proof Hc as Wc. pose proof Hc' as Wc'.
  pose proof Hs as Ws. pose proof Hs' as Ws'.
  wf_client Wc. wf_client Wc'. wf_server Ws. wf_server Ws'.
  refine (conj _ (conj _ (conj _ _))).
  - split_check; reflexivity.
  - split_check; reflexivity.
  - split_check; [discriminate|]. intros _.
    set (M := memcpy (Client.mem c) _ _ _ _).
    set (M' := memcpy (Client.mem c') _ _ _ _).
    assert (LM : length M = Client.size) by (subst M; len).
    assert (LM' : length M' = Client.size) by (subst M'; len).
    assert (EM : load Client.server_eph_pub crypto_box_PUBLICKEYBYTES M'
                 = load Client.server_eph_pub crypto_box_PUBLICKEYBYTES M).
    { subst M M'. mem_more. reflexivity. }
    rewrite !create_client_auth_eq_steps
      by (assumption || (apply Client_wf_with_mem; assumption)).
    cbn [fst].
    change (Client.with_mem M' c')
      with (Client.with_mem M' (Client.with_mem M c)).
    now apply create_client_auth_steps_peer.
  - split_check; [discriminate|]. intros _.
    set (M := memcpy (Server.mem s) _ _ _ _).
    set (M' := memcpy (Server.mem s') _ _ _ _).
    assert (LM : length M = Server.size) by (subst M; len).
    assert (LM' : length M' = Server.size) by (subst M'; len).
    assert (EM : load Server.client_eph_pub crypto_box_PUBLICKEYBYTES M'
                 = load Server.client_eph_pub crypto_box_PUBLICKEYBYTES M).
    { subst M M'. mem_more. reflexivity. }
    rewrite !verify_client_auth_eq_steps
      by (assumption || (apply Server_wf_with_mem; assumption)).
    cbn [fst].
    change (Server.with_mem M' s')
      with (Server.with_mem M' (Server.with_mem M s)).
    now apply verify_client_auth_steps_peer.
Qed.

End Stale.

(** * Concrete runs *)

(** ** The small model is a facade *)

Section ToyLaws.

Import Toy.

Lemma bytes_eqb_eq a b : bytes_eqb a b = true <-> a = b.
Proof.
  revert b. induction a as [|x a IH]; intros [|y b]; simpl;
    try (split; [discriminate | discriminate]); [tauto|].
  rewrite andb_true_iff, IH. split.
  - intros [H ->]. apply byte_dec_bl in H. now subst.
  - intros H. injection H as -> ->. split; [now apply byte_dec_lb | reflexivity].
Qed.

Lemma bytes_eqb_refl a : bytes_eqb a a = true.
Proof. now apply bytes_eqb_eq. Qed.

Lemma length_fit n l : length (fit n l) = n.
Proof.
  unfold fit. rewrite length_firstn, length_app, repeat_length. lia.
Qed.

Lemma fit_exact n l : length l = n -> fit n l = l.
Proof.
  intros H. unfold fit. rewrite firstn_app, firstn_all2 by lia.
  replace (n - length l) with 0 by lia. simpl. apply app_nil_r.
Qed.

Lemma length_absorb st b : length (absorb st b) = length st.
Proof.
  destruct st; simpl; [reflexivity|]. rewrite length_app. simpl. lia.
Qed.

Lemma length_digest m : length (digest m) = 32.
Proof.
  unfold digest. generalize (repeat_length x00 32).
  generalize (repeat x00 32). induction m as [|b m IH]; intros st Hst; simpl.
  - exact Hst.
  - apply IH. now rewrite length_absorb.
Qed.

Lemma xor_byte_comm a b : xor_byte a b = xor_byte b a.
Proof. unfold xor_byte. now rewrite N.lxor_comm. Qed.

Lemma xor_bytes_comm a b : xor_bytes a b = xor_bytes b a.
Proof.
  revert b. induction a as [|x a IH]; intros [|y b]; simpl; try reflexivity.
  now rewrite xor_byte_comm, IH.
Qed.

Lemma length_box_tag m n k : length (box_tag m n k) = 16.
Proof.
  unfold box_tag. rewrite length_firstn, length_digest. reflexivity.
Qed.

#[export] Instance toy_sodium : Sodium.
Proof.
  refine {|
    crypto_auth := auth;
    crypto_auth_verify := auth_verify;
    crypto_scalarmult := scalarmult;
    crypto_sign_ed25519_pk_to_curve25519 := pk_to_curve25519;
    crypto_sign_ed25519_sk_to_curve25519 := sk_to_curve25519;
    crypto_hash_sha256 := digest;
    crypto_sign_detached := sign_detached;
    crypto_sign_verify_detached := sign_verify_detached;
    crypto_secretbox_easy := secretbox_easy;
    crypto_secretbox_open_easy := secretbox_open_easy
  |}.
  - intros. apply length_digest.
  - intros. apply length_digest.
  - intros. unfold sign_detached, signature.
    now rewrite length_app, !length_digest.
  - intros. unfold secretbox_easy.
    rewrite length_app, length_box_tag. unfold crypto_secretbox_MACBYTES. lia.
  - intros. simpl. now rewrite length_fit.
  - intros. simpl. now rewrite length_fit.
  - intros. unfold pk_to_curve25519. destruct (all_zero pk); simpl.
    + unfold crypto_scalarmult_curve25519_BYTES. lia.
    + now rewrite length_fit.
  - intros pk. unfold pk_to_curve25519. destruct (all_zero pk); simpl.
    + discriminate.
    + intros _. now rewrite length_fit.
  - intros. simpl. now rewrite length_fit.
  - intros. simpl. now rewrite length_fit.
  - intros. unfold secretbox_open_easy, output, crypto_secretbox_MACBYTES.
    destruct (bytes_eqb _ _); cbn [snd length]; [|lia].
    rewrite length_skipn. lia.
  - intros c n k.
    unfold secretbox_open_easy, output, status, crypto_secretbox_MACBYTES.
    destruct (bytes_eqb _ _); cbn [fst snd]; [|discriminate].
    intros _. now rewrite length_skipn.
Defined.

End ToyLaws.

Section ToyHonest.

Import Toy.

#[export] Instance toy_laws : SodiumLaws toy_sodium.
Proof.
  refine {|
    box_keypair := fun pk sk => is_box_keypair pk sk = true;
    sign_keypair := fun pk sk => is_sign_keypair pk sk = true
  |}.
  - intros pk sk H. unfold is_box_keypair in H.
    rewrite !andb_true_iff, bytes_eqb_eq, Nat.eqb_eq in H.
    destruct H as [[-> H] _]. now split.
  - intros pk sk H. unfold is_sign_keypair in H.
    rewrite !andb_true_iff, bytes_eqb_eq, Nat.eqb_eq in H.
    destruct H as [[-> H] _]. split; [|exact H].
    rewrite length_skipn, H. reflexivity.
  - intros h m k. simpl. unfold auth_verify.
    destruct (bytes_eqb h (auth m k)) eqn:E.
    + apply bytes_eqb_eq in E. tauto.
    + split; [discriminate|]. intros ->. now rewrite bytes_eqb_refl in E.
  - intros m n k. simpl. unfold secretbox_open_easy, secretbox_easy.
    rewrite skipn_app, firstn_app, length_box_tag.
    rewrite skipn_all2, firstn_all2 by (rewrite length_box_tag; lia).
    simpl. rewrite app_nil_r, bytes_eqb_refl. reflexivity.
  - intros pk sk m H. simpl. unfold is_sign_keypair in H.
    rewrite !andb_true_iff, bytes_eqb_eq in H. destruct H as [[-> _] _].
    unfold sign_verify_detached, sign_detached. now rewrite bytes_eqb_refl.
  - intros p1 s1 p2 s2 H1 H2. unfold is_box_keypair in H1, H2.
    rewrite !andb_true_iff, bytes_eqb_eq, negb_true_iff in H1, H2.
    destruct H1 as [[-> _] Z1], H2 as [[-> _] Z2].
    exists (fit 32 (xor_bytes s1 s2)). simpl. unfold scalarmult.
    rewrite Z1, Z2. simpl. split; [reflexivity|].
    now rewrite (xor_bytes_comm s2 s1).
  - intros pk sk H. unfold is_sign_keypair in H.
    rewrite !andb_true_iff, bytes_eqb_eq, Nat.eqb_eq, negb_true_iff in H.
    destruct H as [[-> Hl] Hz].
    assert (Hpk : length (skipn 32 sk) = 32) by (rewrite length_skipn; lia).
    exists (skipn 32 sk), (skipn 32 sk).
    cbn [crypto_sign_ed25519_pk_to_curve25519
         crypto_sign_ed25519_sk_to_curve25519 toy_sodium].
    unfold pk_to_curve25519, sk_to_curve25519. rewrite Hz.
    rewrite !fit_exact by exact Hpk. repeat split.
    unfold is_box_keypair. now rewrite bytes_eqb_refl, Hpk, Hz.
Defined.

End ToyHonest.




(** ** Concrete sessions

    Sessions of the small model: an honest one, one whose server is sent
    the all-zero point, and one whose client claims A_p without its secret
    key. *)

Module Session.

Definition K : bytes := repeat x01 32.
Definition K' : bytes := repeat x02 32.
Definition A_p : bytes := repeat x0a 32.
Definition A_s : bytes := repeat xa0 32 ++ A_p.
Definition B_p : bytes := repeat x0b 32.
Definition B_s : bytes := repeat xb0 32 ++ B_p.
Definition a_p : bytes := repeat x03 32.
Definition a_s : bytes := a_p.
Definition b_p : bytes := repeat x05 32.
Definition b_s : bytes := b_p.
(* a secret key that does not belong to A_p *)
Definition E_s : bytes := repeat xe0 32 ++ repeat x0e 32.

Definition client : Client.t :=
  shs1_init_client K A_p A_s a_p a_s B_p (uninit Client.size).
Definition server : Server.t :=
  shs1_init_server K B_p B_s b_p b_s (uninit Server.size).
Definition server' : Server.t :=
  shs1_init_server K' B_p B_s b_p b_s (uninit Server.size).
Definition impostor : Client.t :=
  shs1_init_client K A_p E_s a_p a_s B_p (uninit Client.size).

(** The honest run, operation by operation. *)
Definition challenge_c : bytes :=
  shs1_create_client_challenge (uninit SHS1_CLIENT_CHALLENGE_BYTES) client.
Definition server1 : Server.t :=
  snd (shs1_verify_client_challenge challenge_c server).
Definition challenge_s : bytes :=
  shs1_create_server_challenge (uninit SHS1_SERVER_CHALLENGE_BYTES) server1.
Definition client1 : Client.t :=
  snd (shs1_verify_server_challenge challenge_s client).
Definition auth : bytes :=
  snd (fst (shs1_create_client_auth (uninit SHS1_CLIENT_AUTH_BYTES) client1)).
Definition client2 : Client.t :=
  snd (shs1_create_client_auth (uninit SHS1_CLIENT_AUTH_BYTES) client1).
Definition server2 : Server.t := snd (shs1_verify_client_auth auth server1).
Definition acc : bytes :=
  fst (shs1_create_server_acc (uninit SHS1_SERVER_ACC_BYTES) server2).
Definition server3 : Server.t :=
  snd (shs1_create_server_acc (uninit SHS1_SERVER_ACC_BYTES) server2).
Definition client3 : Client.t := snd (shs1_verify_server_acc acc client2).

(** A challenge made without the application key. *)
Definition forged_challenge : bytes := repeat x00 32 ++ repeat x07 32.

(** The client after a challenge that carries the all-zero point. *)
Definition zero_point : bytes := repeat x00 32.
Definition low_order_challenge : bytes :=
  crypto_auth zero_point K ++ zero_point.
Definition client_low : Client.t :=
  snd (shs1_verify_server_challenge low_order_challenge client).

(** The auth message of the impostor. *)
Definition impostor1 : Client.t :=
  snd (shs1_verify_server_challenge challenge_s impostor).
Definition impostor_auth : bytes :=
  snd (fst (shs1_create_client_auth (uninit SHS1_CLIENT_AUTH_BYTES) impostor1)).

End Session.

Example honest_run_checks :
  fst (shs1_verify_client_challenge Session.challenge_c Session.server) = true /\
  fst (shs1_verify_server_challenge Session.challenge_s Session.client) = true /\
  fst (fst (shs1_create_client_auth (uninit SHS1_CLIENT_AUTH_BYTES)
              Session.client1)) = 0%Z /\
  fst (shs1_verify_client_auth Session.auth Session.server1) = true /\
  fst (shs1_verify_server_acc Session.acc Session.client2) = true.
Proof. vm_compute. repeat split. Qed.

Example low_order_point_is_accepted_as_challenge :
  fst (shs1_verify_server_challenge Session.low_order_challenge Session.client)
  = true /\
  Client.get_server_eph_pub Session.client_low = Session.zero_point /\
  status (crypto_scalarmult (Client.eph_sec Session.client_low)
            (Client.get_server_eph_pub Session.client_low)) = (-1)%Z.
Proof. vm_compute. repeat split. Qed.

Example impostor_run_checks :
  fst (fst (shs1_create_client_auth (uninit SHS1_CLIENT_AUTH_BYTES)
              Session.impostor1)) = 0%Z /\
  fst (shs1_verify_client_auth Session.impostor_auth Session.server1) = false.
Proof. vm_compute. repeat split. Qed.

(** ** The theorems at work on the concrete sessions *)

Lemma handshake_interoperates_witness :
  exists outcome_c outcome_s,
    handshake 0 Session.client Session.server = Some (outcome_c, outcome_s) /\
    Outcome.get_encryption_key outcome_c
    = Outcome.get_decryption_key 0 outcome_s /\
    Outcome.get_decryption_key 0 outcome_c
    = Outcome.get_encryption_key outcome_s /\
    Outcome.get_encryption_nonce outcome_c
    = Outcome.get_decryption_nonce 0 outcome_s /\
    Outcome.get_decryption_nonce 0 outcome_c
    = Outcome.get_encryption_nonce outcome_s.
Proof.
  apply (@handshake_interoperates toy_sodium toy_laws 0
           Session.K Session.A_p Session.A_s Session.B_p Session.B_s
           Session.a_p Session.a_s Session.b_p Session.b_s
           (uninit Client.size) (uninit Server.size)).
  unfold legal. repeat split; vm_compute; reflexivity.
Defined.

Lemma create_client_auth_return_value_witness :
  fst (fst (shs1_create_client_auth (uninit SHS1_CLIENT_AUTH_BYTES)
              Session.client_low)) = 0%Z /\
  snd (fst (shs1_create_client_auth (uninit SHS1_CLIENT_AUTH_BYTES)
              Session.client_low)) = uninit SHS1_CLIENT_AUTH_BYTES /\
  fst (fst (shs1_create_client_auth (uninit SHS1_CLIENT_AUTH_BYTES)
              Session.client1)) = 0%Z.
Proof.
  destruct (@create_client_auth_return_value toy_sodium
              (uninit SHS1_CLIENT_AUTH_BYTES) Session.client_low)
    as (Hlow & _); [vm_compute; reflexivity ..|].
  destruct (@create_client_auth_return_value toy_sodium
              (uninit SHS1_CLIENT_AUTH_BYTES) Session.client1)
    as (_ & _ & _ & Hok); [vm_compute; reflexivity ..|].
  destruct Hlow as [H1 H2]; [vm_compute; discriminate|].
  split; [exact H1 | split; [exact H2 |]].
  apply Hok; vm_compute; reflexivity.
Defined.

Lemma verify_client_auth_iff_witness :
  fst (shs1_verify_client_auth Session.auth Session.server1) = true /\
  Server.get_client_pub
    (snd (shs1_verify_client_auth Session.auth Session.server1))
  = Session.A_p.
Proof.
  destruct (@verify_client_auth_iff toy_sodium Session.auth Session.server1)
    as (Hiff & _ & _ & Hpub & _); [vm_compute; reflexivity ..|].
  split.
  - apply Hiff. vm_compute. repeat split.
  - rewrite Hpub; [vm_compute; reflexivity|]. vm_compute. repeat split.
Defined.

(** C3, as stated, fails: the impostor's message opens, the check of its
    signature fails and the function returns false, yet [client_pub] now
    holds the last 32 bytes of the opened hello; [box_sec] is untouched. *)
Lemma verify_client_auth_failure_sets_client_pub :
  let res := shs1_verify_client_auth Session.impostor_auth Session.server1 in
  fst res = false /\
  Server.get_client_pub Session.server1 = repeat x00 32 /\
  Server.get_client_pub (snd res) = Session.A_p /\
  Server.get_client_pub (snd res) <> Server.get_client_pub Session.server1 /\
  Server.get_box_sec (snd res) = Server.get_box_sec Session.server1.
Proof. vm_compute. repeat split. discriminate. Qed.

Lemma create_client_auth_message_witness :
  fst (shs1_create_client_auth (uninit SHS1_CLIENT_AUTH_BYTES) Session.client1)
  = (0%Z, Session.auth) /\
  length Session.auth = 112.
Proof.
  destruct (@create_client_auth_message toy_sodium
              (uninit SHS1_CLIENT_AUTH_BYTES) Session.client1)
    as (H & _ & L & _); [vm_compute; reflexivity ..|].
  split; [rewrite H | ]; vm_compute; reflexivity.
Defined.

Lemma verify_server_acc_iff_witness :
  fst (shs1_verify_server_acc Session.acc Session.client2) = true.
Proof.
  destruct (@verify_server_acc_iff toy_sodium Session.acc Session.client2)
    as (Hiff & _); [vm_compute; reflexivity ..|].
  apply Hiff. vm_compute. repeat split.
Defined.

(** C5, as stated, fails on the size it names: in the honest run the
    function returns true, and the message the signature is checked
    against, K || hello || shared_hash, is the 160 bytes of the buffer
    [expected], not 192. *)
Lemma verify_server_acc_message_is_160_bytes :
  fst (shs1_verify_server_acc Session.acc Session.client2) = true /\
  client_expected Session.client2
  = Client.app Session.client2 ++ Client.get_hello Session.client2
    ++ Client.get_shared_hash Session.client2 /\
  length (client_expected Session.client2) = 160 /\
  length (client_expected Session.client2) <> 192.
Proof. vm_compute. repeat split. discriminate. Qed.

Lemma outcome_nonces_are_tag_prefixes_witness :
  let outcome_c :=
    fst (shs1_client_outcome 0 (uninit (Outcome.size 0)) Session.client3) in
  let outcome_s :=
    fst (shs1_server_outcome 0 (uninit (Outcome.size 0)) Session.server3) in
  Outcome.get_encryption_nonce outcome_c
  = firstn 24 (crypto_auth Session.b_p Session.K) /\
  Outcome.get_decryption_nonce 0 outcome_c
  = firstn 24 (crypto_auth Session.a_p Session.K) /\
  Outcome.get_encryption_nonce outcome_s
  = firstn 24 (crypto_auth Session.a_p Session.K) /\
  Outcome.get_decryption_nonce 0 outcome_s
  = firstn 24 (crypto_auth Session.b_p Session.K).
Proof.
  destruct (@outcome_nonces_are_tag_prefixes toy_sodium 0
              (uninit (Outcome.size 0)) (uninit (Outcome.size 0))
              Session.client3 Session.server3)
    as (H1 & H2 & H3 & H4);
    [vm_compute; reflexivity | vm_compute; reflexivity
     | vm_compute; lia | vm_compute; lia |].
  cbv zeta. rewrite H1, H2, H3, H4. vm_compute. repeat split.
Defined.

Lemma challenge_is_tag_then_key_witness :
  Session.challenge_c = crypto_auth Session.a_p Session.K ++ Session.a_p /\
  Session.challenge_s = crypto_auth Session.b_p Session.K ++ Session.b_p.
Proof.
  destruct (@challenge_is_tag_then_key toy_sodium
              (uninit SHS1_CLIENT_CHALLENGE_BYTES)
              (uninit SHS1_SERVER_CHALLENGE_BYTES)
              Session.client Session.server1)
    as (H1 & H2 & _); [vm_compute; reflexivity ..|].
  split; [exact H1 | exact H2].
Defined.



Lemma failed_challenge_keeps_state_witness :
  snd (shs1_verify_server_challenge Session.forged_challenge Session.client)
  = Session.client /\
  snd (shs1_verify_client_challenge Session.forged_challenge Session.server)
  = Session.server.
Proof.
  destruct (@failed_challenge_keeps_state toy_sodium
              Session.forged_challenge Session.client Session.server)
    as [H1 H2].
  split; [apply H1 | apply H2]; vm_compute; reflexivity.
Defined.

Lemma adjacent_copies_are_fieldwise_witness :
  client_tmp 96 Session.client2 = client_tmp_fieldwise 96 Session.client2 /\
  client_tmp 128 Session.client2 = client_tmp_fieldwise 128 Session.client2 /\
  client_expected Session.client2 = client_expected_fieldwise Session.client2 /\
  server_to_sign Session.server2 = server_to_sign_fieldwise Session.server2.
Proof.
  destruct (adjacent_copies_are_fieldwise 96
              Session.client2 Session.server2)
    as (H1 & _ & H2 & _ & H3 & _);
    [vm_compute; reflexivity | vm_compute; reflexivity | vm_compute; lia |].
  destruct (adjacent_copies_are_fieldwise 128
              Session.client2 Session.server2)
    as (H4 & _);
    [vm_compute; reflexivity | vm_compute; reflexivity | vm_compute; lia |].
  repeat split; assumption.
Defined.

(** ** The further properties at work on the concrete sessions *)

Lemma create_server_acc_message_witness :
  Session.acc
  = crypto_secretbox_easy
      (crypto_sign_detached
         (Server.app Session.server2
          ++ Server.get_client_hello Session.server2
          ++ Server.get_shared_hash Session.server2)
         (Server.sec Session.server2))
      zero_nonce (Server.get_box_sec Session.server2) /\
  length Session.acc = 80.
Proof.
  destruct (@create_server_acc_message toy_sodium
              (uninit SHS1_SERVER_ACC_BYTES) Session.server2)
    as (H & _ & _ & L); [vm_compute; reflexivity ..|].
  split; [exact H | exact L].
Defined.

Lemma create_server_acc_state_witness :
  Server.mem Session.server3
  = crypto_sign_detached
      (Server.app Session.server2 ++ Server.get_client_hello Session.server2
       ++ Server.get_shared_hash Session.server2)
      (Server.sec Session.server2)
    ++ skipn crypto_sign_BYTES (Server.mem Session.server2) /\
  Server.get_client_pub Session.server3 = Server.get_client_pub Session.server2 /\
  Server.get_box_sec Session.server3 = Server.get_box_sec Session.server2.
Proof.
  destruct (@create_server_acc_state toy_sodium
              (uninit SHS1_SERVER_ACC_BYTES) Session.server2)
    as (H0 & _ & H2 & H3); [vm_compute; reflexivity ..|].
  split; [|split; [exact H2 | exact H3]].
  unfold Session.server3. rewrite H0. reflexivity.
Defined.

Lemma outcome_keys_witness :
  let oc := fst (shs1_client_outcome 0 (uninit (Outcome.size 0))
                   Session.client3) in
  let os := fst (shs1_server_outcome 0 (uninit (Outcome.size 0))
                   Session.server3) in
  Outcome.get_encryption_key oc
  = crypto_hash_sha256
      (crypto_hash_sha256 (Client.get_shared_secret Session.client3)
       ++ Client.server_pub Session.client3) /\
  Outcome.get_decryption_key 0 os
  = crypto_hash_sha256
      (crypto_hash_sha256 (Server.get_box_sec Session.server3)
       ++ Server.pub Session.server3) /\
  Outcome.get_encryption_key oc = Outcome.get_decryption_key 0 os.
Proof.
  destruct (@outcome_keys toy_sodium 0
              (uninit (Outcome.size 0)) (uninit (Outcome.size 0))
              Session.client3 Session.server3)
    as (H1 & _ & _ & H4 & _);
    [vm_compute; reflexivity | vm_compute; reflexivity
     | vm_compute; lia | vm_compute; lia |].
  cbv zeta. split; [exact H1 | split; [exact H4 |]].
  vm_compute. reflexivity.
Defined.

Lemma outcome_tag_runs_over_nonce_witness :
  length (uninit (Outcome.size 0)) = 112 /\
  length (fst (shs1_client_outcome 0 (uninit (Outcome.size 0))
                 Session.client3)) = 120.
Proof.
  destruct (@outcome_tag_runs_over_nonce toy_sodium 0
              (uninit (Outcome.size 0)) (uninit (Outcome.size 0))
              Session.client3 Session.server3)
    as (_ & _ & _ & _ & H);
    [vm_compute; reflexivity | vm_compute; reflexivity
     | vm_compute; lia | vm_compute; lia |].
  split; [vm_compute; reflexivity|].
  apply H; [lia | vm_compute; reflexivity].
Defined.

Lemma outcome_reuses_hello_witness :
  let client' :=
    snd (shs1_client_outcome 0 (uninit (Outcome.size 0)) Session.client3) in
  let server' :=
    snd (shs1_server_outcome 0 (uninit (Outcome.size 0)) Session.server3) in
  Client.get_shared_secret client' = Client.get_shared_secret Session.client3 /\
  Server.get_box_sec server' = Server.get_box_sec Session.server3 /\
  Client.get_hello client' <> Client.get_hello Session.client3.
Proof.
  destruct (@outcome_reuses_hello toy_sodium 0
              (uninit (Outcome.size 0)) (uninit (Outcome.size 0))
              Session.client3 Session.server3)
    as (_ & H2 & _ & _ & _ & _ & _ & _ & _ & H10);
    [vm_compute; reflexivity ..|].
  cbv zeta. split; [exact H2 | split; [exact H10 |]].
  vm_compute. discriminate.
Defined.

Lemma outcome_is_repeatable_witness :
  let o := uninit (Outcome.size 0) in
  let client' := snd (shs1_client_outcome 0 o Session.client3) in
  let server' := snd (shs1_server_outcome 0 o Session.server3) in
  shs1_client_outcome 0 o client'
  = (fst (shs1_client_outcome 0 o Session.client3), client') /\
  shs1_server_outcome 0 o server'
  = (fst (shs1_server_outcome 0 o Session.server3), server').
Proof.
  cbv zeta.
  apply (@outcome_is_repeatable toy_sodium 0
           (uninit (Outcome.size 0)) (uninit (Outcome.size 0))
           Session.client3 Session.server3);
    vm_compute; reflexivity.
Defined.

Lemma server_outcome_after_acc_witness :
  fst (shs1_server_outcome 0 (uninit (Outcome.size 0)) Session.server3)
  = fst (shs1_server_outcome 0 (uninit (Outcome.size 0)) Session.server2).
Proof.
  apply (@server_outcome_after_acc toy_sodium 0 (uninit (Outcome.size 0))
           (uninit SHS1_SERVER_ACC_BYTES) Session.server2);
    vm_compute; reflexivity.
Defined.

Lemma create_server_acc_after_outcome_witness :
  let server' :=
    snd (shs1_server_outcome 0 (uninit (Outcome.size 0)) Session.server2) in
  fst (shs1_create_server_acc (uninit SHS1_SERVER_ACC_BYTES) server')
  = crypto_secretbox_easy
      (crypto_sign_detached
         (Server.app Session.server2
          ++ (crypto_hash_sha256 (Server.get_box_sec Session.server2)
              ++ Server.pub Session.server2
              ++ load (Server.client_hello + crypto_sign_BYTES)
                   crypto_sign_PUBLICKEYBYTES (Server.mem Session.server2))
          ++ Server.get_shared_hash Session.server2)
         (Server.sec Session.server2))
      zero_nonce (Server.get_box_sec Session.server2) /\
  fst (shs1_create_server_acc (uninit SHS1_SERVER_ACC_BYTES) server')
  <> Session.acc.
Proof.
  cbv zeta. split.
  - apply (@create_server_acc_after_outcome toy_sodium 0
             (uninit (Outcome.size 0)) (uninit SHS1_SERVER_ACC_BYTES)
             Session.server2);
      vm_compute; reflexivity.
  - vm_compute. discriminate.
Defined.

Lemma verify_challenge_stores_key_witness :
  fst (shs1_verify_server_challenge Session.challenge_s Session.client) = true /\
  Client.mem Session.client1
  = load 0 Client.server_eph_pub (Client.mem Session.client)
    ++ load crypto_auth_BYTES crypto_box_PUBLICKEYBYTES Session.challenge_s /\
  fst (shs1_verify_client_challenge Session.forged_challenge Session.server)
  = false.
Proof.
  destruct (@verify_challenge_stores_key toy_sodium
              Session.challenge_s Session.client Session.server)
    as (H1 & H2 & _); [vm_compute; reflexivity ..|].
  assert (Hok : fst (shs1_verify_server_challenge Session.challenge_s
                       Session.client) = true)
    by (apply H1; vm_compute; reflexivity).
  split; [exact Hok | split; [exact (H2 Hok) |]].
  vm_compute. reflexivity.
Defined.

Lemma challenge_round_trip_witness :
  fst (shs1_verify_client_challenge Session.challenge_c Session.server) = true /\
  Server.get_client_eph_pub Session.server1 = Client.eph_pub Session.client.
Proof.
  destruct (@challenge_round_trip toy_sodium toy_laws
              (uninit SHS1_CLIENT_CHALLENGE_BYTES)
              (uninit SHS1_SERVER_CHALLENGE_BYTES)
              Session.client Session.server)
    as (H1 & H2 & _); [vm_compute; reflexivity ..|].
  split; [exact H1 | exact H2].
Defined.

Lemma wrong_app_key_rejects_server_challenge_witness :
  shs1_verify_server_challenge
    (shs1_create_server_challenge (uninit SHS1_SERVER_CHALLENGE_BYTES)
       Session.server')
    Session.client
  = (false, Session.client).
Proof.
  apply (@wrong_app_key_rejects_server_challenge toy_sodium toy_laws
           (uninit SHS1_SERVER_CHALLENGE_BYTES) Session.client Session.server');
    try (vm_compute; reflexivity); vm_compute; discriminate.
Defined.

Lemma client_state_stays_in_bounds_witness :
  Client.wf (snd (shs1_create_client_auth (uninit SHS1_CLIENT_AUTH_BYTES)
                    Session.client_low)) = true /\
  Client.wf (snd (shs1_verify_server_acc Session.forged_challenge
                    Session.client_low)) = true.
Proof.
  destruct (@client_state_stays_in_bounds toy_sodium
              Session.challenge_s (uninit SHS1_CLIENT_AUTH_BYTES)
              (uninit SHS1_SERVER_ACC_BYTES) 0 (uninit (Outcome.size 0))
              Session.client_low)
    as (_ & H2 & _ & _); [vm_compute; reflexivity ..|].
  split; [exact H2 | vm_compute; reflexivity].
Defined.

Lemma server_state_stays_in_bounds_witness :
  Server.wf (snd (shs1_verify_client_auth Session.impostor_auth
                    Session.server1)) = true /\
  Server.wf Session.server3 = true.
Proof.
  destruct (@server_state_stays_in_bounds toy_sodium
              Session.challenge_c Session.impostor_auth
              (uninit SHS1_SERVER_ACC_BYTES) 0 (uninit (Outcome.size 0))
              Session.server1)
    as (_ & H2 & _ & _); [vm_compute; reflexivity ..|].
  split; [exact H2 | vm_compute; reflexivity].
Defined.

Lemma create_client_auth_failure_keeps_buffer_witness :
  let res :=
    shs1_create_client_auth (uninit SHS1_CLIENT_AUTH_BYTES)
      Session.client_low in
  snd (fst res) = uninit SHS1_CLIENT_AUTH_BYTES /\
  Client.get_hello (snd res) = Client.get_hello Session.client_low /\
  Client.get_shared_hash (snd res) = Client.get_shared_hash Session.client_low /\
  Client.get_server_eph_pub (snd res)
  = Client.get_server_eph_pub Session.client_low.
Proof.
  cbv zeta.
  apply (@create_client_auth_failure_keeps_buffer toy_sodium
           (uninit SHS1_CLIENT_AUTH_BYTES) Session.client_low);
    [vm_compute; reflexivity | vm_compute; reflexivity |].
  left. vm_compute. discriminate.
Defined.

Lemma create_client_auth_state_witness :
  Client.get_shared_hash Session.client2
  = crypto_hash_sha256 (Client.get_shared_secret Session.client2) /\
  Client.get_server_eph_pub Session.client2
  = Client.get_server_eph_pub Session.client1.
Proof.
  destruct (@create_client_auth_state toy_sodium
              (uninit SHS1_CLIENT_AUTH_BYTES) Session.client1)
    as (H1 & _ & _ & H4 & H5); [vm_compute; reflexivity ..|].
  split; [|exact H5].
  unfold Session.client2. rewrite H4, H1. reflexivity.
Defined.

Lemma verify_server_acc_state_witness :
  Client.get_shared_hash Session.client3 = Client.get_shared_hash Session.client2 /\
  Client.get_server_eph_pub Session.client3
  = Client.get_server_eph_pub Session.client2 /\
  Client.get_shared_secret Session.client3
  <> Client.get_shared_secret Session.client2.
Proof.
  destruct (@verify_server_acc_state toy_sodium Session.acc Session.client2)
    as (_ & H); [vm_compute; reflexivity ..|].
  destruct H as (_ & _ & H3 & H4 & _); [vm_compute; reflexivity ..|].
  split; [exact H3 | split; [exact H4 |]].
  vm_compute. discriminate.
Defined.

Lemma client_outcome_after_acc_witness :
  let r1 := crypto_sign_ed25519_sk_to_curve25519 (Client.sec Session.client2) in
  let r2 := crypto_scalarmult (output r1)
              (Client.get_server_eph_pub Session.client2) in
  let final_box_key :=
    crypto_hash_sha256
      (Client.app Session.client2 ++ Client.get_shared_secret Session.client2
       ++ Client.get_server_lterm_shared Session.client2 ++ output r2) in
  let o := fst (shs1_client_outcome 0 (uninit (Outcome.size 0))
                  Session.client3) in
  Outcome.get_encryption_key o
  = crypto_hash_sha256
      (crypto_hash_sha256 final_box_key ++ Client.server_pub Session.client2) /\
  Outcome.get_decryption_key 0 o
  = crypto_hash_sha256
      (crypto_hash_sha256 final_box_key ++ Client.pub Session.client2).
Proof.
  destruct (@client_outcome_after_acc toy_sodium 0 (uninit (Outcome.size 0))
              Session.acc Session.client2)
    as (H1 & H2 & _);
    [vm_compute; reflexivity | vm_compute; reflexivity | vm_compute; lia
     | vm_compute; reflexivity |].
  cbv zeta. split; [exact H1 | exact H2].
Defined.

Lemma verify_client_auth_state_witness :
  Server.get_client_eph_pub Session.server2
  = Server.get_client_eph_pub Session.server1 /\
  Server.get_client_eph_pub
    (snd (shs1_verify_client_auth Session.impostor_auth Session.server1))
  = Server.get_client_eph_pub Session.server1 /\
  Server.get_shared_hash Session.server2
  = crypto_hash_sha256
      (output (crypto_scalarmult (Server.eph_sec Session.server1)
                 (Server.get_client_eph_pub Session.server1))).
Proof.
  destruct (@verify_client_auth_state toy_sodium Session.auth Session.server1)
    as (H1 & _ & H3); [vm_compute; reflexivity ..|].
  destruct (@verify_client_auth_state toy_sodium Session.impostor_auth
              Session.server1)
    as (H1' & _); [vm_compute; reflexivity ..|].
  destruct H3 as (_ & H4); [vm_compute; reflexivity|].
  split; [exact H1 | split; [exact H1' | exact H4]].
Defined.

Lemma server_outcome_after_auth_witness :
  let o := fst (shs1_server_outcome 0 (uninit (Outcome.size 0))
                  Session.server2) in
  Outcome.get_encryption_nonce o
  = firstn crypto_secretbox_NONCEBYTES
      (crypto_auth (Server.get_client_eph_pub Session.server1)
         (Server.app Session.server1)) /\
  Outcome.get_decryption_nonce 0 o
  = firstn crypto_secretbox_NONCEBYTES
      (crypto_auth (Server.eph_pub Session.server1)
         (Server.app Session.server1)).
Proof.
  destruct (@server_outcome_after_auth toy_sodium 0 (uninit (Outcome.size 0))
              Session.auth Session.server1)
    as (_ & _ & H3 & H4);
    [vm_compute; reflexivity | vm_compute; reflexivity | vm_compute; lia
     | vm_compute; reflexivity |].
  cbv zeta. split; [exact H3 | exact H4].
Defined.

Lemma verify_reads_its_message_only_witness :
  shs1_verify_client_auth (Session.auth ++ Session.K) Session.server1
  = shs1_verify_client_auth Session.auth Session.server1 /\
  shs1_verify_server_acc (Session.acc ++ Session.K) Session.client2
  = shs1_verify_server_acc Session.acc Session.client2.
Proof.
  destruct (@verify_reads_its_message_only toy_sodium
              Session.challenge_c Session.auth Session.acc Session.K
              Session.client2 Session.server1)
    as (_ & _ & H3 & H4); [vm_compute; reflexivity ..|].
  split; [exact H3 | exact H4].
Defined.

Lemma create_writes_its_message_only_witness :
  shs1_create_client_challenge
    (uninit SHS1_CLIENT_CHALLENGE_BYTES ++ Session.K) Session.client
  = Session.challenge_c ++ Session.K /\
  fst (shs1_create_server_acc (uninit SHS1_SERVER_ACC_BYTES ++ Session.K)
         Session.server2)
  = Session.acc ++ Session.K.
Proof.
  destruct (@create_writes_its_message_only toy_sodium
              (uninit SHS1_CLIENT_CHALLENGE_BYTES)
              (uninit SHS1_SERVER_CHALLENGE_BYTES)
              (uninit SHS1_CLIENT_AUTH_BYTES)
              (uninit SHS1_SERVER_ACC_BYTES)
              Session.K Session.client1 Session.server2)
    as (H1 & _ & _ & H4); [vm_compute; reflexivity ..|].
  split; [exact H1 | rewrite H4; reflexivity].
Defined.

Lemma auth_ignores_stale_arrays_witness :
  let block :=
    repeat xff Client.server_eph_pub
    ++ Client.get_server_eph_pub Session.client1 in
  fst (shs1_create_client_auth (uninit SHS1_CLIENT_AUTH_BYTES)
         (Client.with_mem block Session.client1))
  = (0%Z, Session.auth).
Proof.
  destruct (@auth_ignores_stale_arrays toy_sodium
              (uninit SHS1_CLIENT_AUTH_BYTES) Session.client1 Session.server1
              (repeat xff Client.server_eph_pub
               ++ Client.get_server_eph_pub Session.client1)
              (Server.mem Session.server1))
    as (H1 & _); [vm_compute; reflexivity ..|].
  cbv zeta. rewrite H1. vm_compute. reflexivity.
Defined.

Lemma malloc_block_is_never_read_witness :
  let c' :=
    shs1_init_client Session.K Session.A_p Session.A_s Session.a_p
      Session.a_s Session.B_p (repeat xff Client.size) in
  fst (shs1_create_client_auth (uninit SHS1_CLIENT_AUTH_BYTES)
         (snd (shs1_verify_server_challenge Session.challenge_s c')))
  = fst (shs1_create_client_auth (uninit SHS1_CLIENT_AUTH_BYTES)
           Session.client1).
Proof.
  destruct (@malloc_block_is_never_read toy_sodium
              Session.K Session.A_p Session.A_s Session.a_p Session.a_s
              Session.B_p Session.B_s Session.b_p Session.b_s
              (uninit Client.size) (repeat xff Client.size)
              (uninit Server.size) (repeat xff Server.size)
              Session.challenge_s (uninit SHS1_CLIENT_AUTH_BYTES))
    as (_ & _ & H3 & _); [vm_compute; reflexivity ..|].
  cbv zeta. apply H3. vm_compute. reflexivity.
Defined.
